(** * Weather station firmware (hardware/weather_station_280.py)

    A shallow embedding of the connectivity-and-telemetry code of the
    station: Wi-Fi join, fallback configuration server, MQTT session
    handling and the three publishing strategies.

    Conventions.
    - Every call into a collaborator (WLAN, sockets, sensor driver, MQTT
      client, timer) is recorded as an [event]; what the collaborator
      answers is read from an environment [env], indexed by how many calls
      of that kind were made before.
    - A Python function becomes a computation [M A]: it maps a [world] to
      an [outcome] (normal return, raised exception, or no return within
      the given fuel) and the world reached.  Mutations made before an
      exception is raised stay in the world, as in Python.
    - A float produced by [round(x, 2)] is represented by its number of
      hundredths ([Z]); driver readings are rationals ([Q]).
    - Logging, sleeping, activating the WLAN interface, requesting a join
      and closing a connection are taken not to raise.
    - The firmware runs on MicroPython (it imports [machine], [network]
      and [ujson]); the builtins are modelled as MicroPython has them: a
      dict is iterated in the order of its hash table, the name
      [ConnectionError] is not defined, and a call that the stack has no
      room for raises [RuntimeError].
    - Loops that may go on for ever ([while True]) take fuel, and
      [Diverge] means that the run has not ended within the fuel it was
      given.  The recursion of [reconnect_mqtt] takes the number of
      nested calls that the stack still has room for. *)

From Stdlib Require Import ZArith QArith Qround String Ascii List Bool Lia.
From Stdlib.Strings Require Import Byte.
From Stdlib Require Import DecimalString Qabs Lqa.
Import ListNotations.

Local Open Scope string_scope.
Local Open Scope Z_scope.

(** ** Python strings and bytes *)

Module PyStr.

(** [len(s)] *)
Definition len (s : string) : Z := Z.of_nat (String.length s).

(** Index normalisation of [str.find] and of slices: a negative index
    counts from the end, and the result is clamped to [0, len]. *)
Definition clamp (s : string) (i : Z) : nat :=
  let i' := if i <? 0 then Z.max 0 (i + len s) else Z.min i (len s) in
  Z.to_nat i'.

(** [s.find(sub, start)]: lowest index at or after [start] where [sub]
    occurs, [-1] when there is none. *)
Definition find (s sub : string) (start : Z) : Z :=
  if len s <? start then -1
  else match String.index (clamp s start) sub s with
       | Some i => Z.of_nat i
       | None => -1
       end.

(** [sub in s] *)
Definition contains (sub s : string) : bool :=
  match String.index 0 sub s with
  | Some _ => true
  | None => false
  end.

(** [s[start:stop]] *)
Definition slice (s : string) (start stop : Z) : string :=
  let a := clamp s start in
  let b := clamp s stop in
  String.substring a (b - a) s.

(** The double quote character. *)
Definition dquote : ascii := "034"%char.

(** [s] between double quotes. *)
Definition quoted (s : string) : string :=
  String dquote (s ++ String dquote EmptyString).

Definition hex_digit (n : N) : ascii :=
  ascii_of_N (if (n <? 10)%N then 48 + n else 87 + n)%N.

(** One byte inside a bytes literal with quote character [q]. *)
Definition escape_byte (q : ascii) (b : byte) : string :=
  let c := ascii_of_byte b in
  let n := Byte.to_N b in
  if Ascii.eqb c q then String "\" (String q EmptyString)
  else if Ascii.eqb c "\" then "\\"
  else if ((32 <=? n) && (n <? 127))%N then String c EmptyString
  else if (n =? 10)%N then "\n"
  else if (n =? 13)%N then "\r"
  else if (n =? 9)%N then "\t"
  else String "\" (String "x" (String (hex_digit (n / 16))
                                 (String (hex_digit (n mod 16)) EmptyString))).

Definition has_byte (c : ascii) (bs : list byte) : bool :=
  existsb (fun b => Ascii.eqb (ascii_of_byte b) c) bs.

(** [str(bs)] for a bytes object: its literal, [b'...'] (with double
    quotes when the data holds a single quote and no double quote). *)
Definition str_of_bytes (bs : list byte) : string :=
  let q := if has_byte "'" bs && negb (has_byte dquote bs) then dquote
           else "'"%char in
  String "b" (String q
    (String.concat EmptyString (map (escape_byte q) bs) ++ String q EmptyString)).

End PyStr.

(** ** Numbers *)

(** Round to the nearest integer, ties to the even one. *)
Definition round_half_even (x : Q) : Z :=
  let f := Qfloor x in
  match Qcompare (x - inject_Z f) (1 # 2) with
  | Lt => f
  | Gt => f + 1
  | Eq => if Z.even f then f else f + 1
  end.

(** [round(x, 2)], as a number of hundredths, computed on the exact
    value.  MicroPython rounds the floating-point product [x * 100]
    instead, which can give the other neighbour for an [x] within
    floating-point error of a tie. *)
Definition round2 (x : Q) : Z := round_half_even (x * 100).

(** [str(x)] / JSON text of a float given in hundredths: at least one
    digit after the point, no trailing zero beyond it.  Hundredths have
    no negative zero (Python prints [-0.0] for [round(-0.004, 2)]) and
    are printed in full (Python changes to the exponent form from 1e16
    on). *)
Definition str_of_nat (n : Z) : string :=
  NilZero.string_of_uint (N.to_uint (Z.to_N n)).

Definition str_of_float (h : Z) : string :=
  let a := Z.abs h in
  let ip := a / 100 in
  let fr := a mod 100 in
  let frac :=
    if fr mod 10 =? 0 then str_of_nat (fr / 10)
    else str_of_nat (fr / 10) ++ str_of_nat (fr mod 10) in
  (if h <? 0 then "-" else EmptyString) ++ str_of_nat ip ++ "." ++ frac.

(** [bool(x)] for a float: zero is false. *)
Definition truthy (h : Z) : bool := negb (h =? 0).


(** ** Values handed to [ujson.dumps] *)

(** The program serialises dicts whose values are a rounded float or a
    list of rounded floats. *)
Inductive pyvalue :=
| PyFloat (hundredths : Z)
| PyList (items : list Z).

Definition pydict : Type := list (string * pyvalue).

Definition dumps_value (v : pyvalue) : string :=
  match v with
  | PyFloat h => str_of_float h
  | PyList items => "[" ++ String.concat ", " (map str_of_float items) ++ "]"
  end.

(** *** The order of a dict (MicroPython, py/qstr.c and py/map.c) *)

Module MicroPython.

(** [qstr_compute_hash]: [hash = hash * 33 ^ byte] from 5381, kept to 16
    bits, never zero. *)
Definition qstr_hash (key : string) : Z :=
  let h :=
    fold_left
      (fun h c => Z.land (Z.lxor (h * 33) (Z.of_N (N_of_ascii c))) 65535)
      (list_ascii_of_string key) 5381 in
  if h =? 0 then 1 else h.

Definition slot : Type := option (string * pyvalue).

Fixpoint set_slot (pos : nat) (kv : string * pyvalue) (table : list slot)
    : list slot :=
  match table, pos with
  | [], _ => []
  | _ :: rest, O => Some kv :: rest
  | x :: rest, S pos' => x :: set_slot pos' kv rest
  end.

(** [mp_map_lookup] adding an entry: linear probing from [hash % alloc];
    a slot holding the same key is overwritten.  [steps] is the number
    of slots still to try; a table that is full of other keys is left as
    it is (the table of a dict display has one slot per entry). *)
Fixpoint probe (steps : nat) (table : list slot) (pos : nat)
    (kv : string * pyvalue) : list slot :=
  match steps with
  | O => table
  | S steps' =>
      match nth pos table None with
      | None => set_slot pos kv table
      | Some (key, _) =>
          if String.eqb key (fst kv) then set_slot pos kv table
          else probe steps' table (Nat.modulo (S pos) (List.length table)) kv
      end
  end.

Definition insert (table : list slot) (kv : string * pyvalue) : list slot :=
  let alloc := List.length table in
  probe alloc table (Z.to_nat (qstr_hash (fst kv) mod Z.of_nat alloc)) kv.

(** The entries of the dict display [{k1: v1, ..., kn: vn}] in the order
    in which the dict is iterated: a table of [n] slots, filled in the
    order of the display, read from slot 0 on. *)
Definition items (d : pydict) : pydict :=
  let table := fold_left insert d (repeat None (List.length d)) in
  flat_map (fun s : slot => match s with Some kv => [kv] | None => [] end) table.

End MicroPython.

(** [ujson.dumps(d)]: items separated by [", "], keys by [": "], entries
    in the order in which the dict is iterated. *)
Definition dumps (d : pydict) : string :=
  "{" ++ String.concat ", "
           (map (fun kv => PyStr.quoted (fst kv) ++ ": " ++ dumps_value (snd kv))
                (MicroPython.items d))
      ++ "}".

(** ** Events, environment, world *)

(** A Python exception: its class name and its message ([str(e)]). *)
Inductive exn := Exception (kind message : string).

Definition str_of_exn (e : exn) : string :=
  match e with Exception _ m => m end.

(** What a call raises when the stack has no room for it. *)
Definition stack_overflow : exn :=
  Exception "RuntimeError" "maximum recursion depth exceeded".

(** What evaluating the name [ConnectionError] raises. *)
Definition connection_error_undefined : exn :=
  Exception "NameError" "name 'ConnectionError' isn't defined".

(** Answer of a collaborator call that may raise. *)
Definition answer (A : Type) : Type := exn + A.

Record MQTTClient := {
  client_id : string;
  server : string;
  port : Z;
  user : string;
  password : string;
  ssl : bool
}.

(** What arrives on the listening socket: [accept] raises, [recv] raises,
    or [recv] yields the bytes sent by the client. *)
Inductive connection :=
| AcceptFails (e : exn)
| RecvFails (e : exn)
| Request (data : list byte).

Inductive event :=
| EvLog (level message : string)
| EvSleep (seconds : Z)
| EvWlanActive
| EvWlanConnect (ssid password : string)
| EvIsConnected (joined : bool)
| EvApConfig (essid password : string) (ok : bool)
| EvApActive (active : bool)
| EvListen (ok : bool)
| EvAccept (ok : bool)
| EvRecv (ok : bool)
| EvSend (data : string) (ok : bool)
| EvClose
| EvMeasure (ok : bool)
| EvSslContext (ok : bool)
| EvMqttNew (ok : bool)
| EvMqttConnect (ok : bool)
| EvPublish (topic payload : string) (ok : bool)
| EvTimer (period : Z) (strategy : string)
| EvReset.

Definition is_poll (e : event) : bool :=
  match e with EvIsConnected _ => true | _ => false end.
Definition is_join (e : event) : bool :=
  match e with EvWlanConnect _ _ => true | _ => false end.
Definition is_accept (e : event) : bool :=
  match e with EvAccept _ => true | _ => false end.
Definition is_send (e : event) : bool :=
  match e with EvSend _ _ => true | _ => false end.
Definition is_measure (e : event) : bool :=
  match e with EvMeasure _ => true | _ => false end.
Definition is_mqtt_new (e : event) : bool :=
  match e with EvMqttNew _ => true | _ => false end.
Definition is_mqtt_connect (e : event) : bool :=
  match e with EvMqttConnect _ => true | _ => false end.
Definition is_publish (e : event) : bool :=
  match e with EvPublish _ _ _ => true | _ => false end.
Definition is_sleep (e : event) : bool :=
  match e with EvSleep _ => true | _ => false end.

(** Number of events of one kind in a trace. *)
Definition count (p : event -> bool) (t : list event) : nat :=
  List.length (filter p t).

(** The static configuration ([from config import *]) and the behaviour
    of the collaborators.  [wlan_status k] is what the [k]-th call of
    [wlan.isconnected()] answers, and so on. *)
Record env := {
  SSID : string;
  PASSWORD : string;
  BROKER_ADDRESS : string;
  BROKER_PORT : Z;
  BROKER_USERNAME : string;
  BROKER_PASSWORD : string;
  MQTT_TOPIC : string;
  MQTT_TOPIC_DATA_COLLECTION : string;
  wlan_status : nat -> bool;
  wlan_ifconfig : string;
  ap_config : option exn;
  ap_active : bool;
  ap_ifconfig : string;
  sock_listen : answer string;
  sock_incoming : nat -> connection;
  sock_peer : string;
  sock_send : nat -> option exn;
  sensor_measurements : nat -> answer (Q * Q);
  ssl_new : option exn;
  mqtt_new : nat -> option exn;
  mqtt_connect : nat -> option exn;
  mqtt_publish : nat -> option exn
}.

(** The mutable state: the two sample buffers of the batching strategy
    and the calls made so far, most recent first. *)
Record world := {
  temperature_data_buffer : list Z;
  pressure_data_buffer : list Z;
  trace : list event
}.

Definition initial : world :=
  {| temperature_data_buffer := []; pressure_data_buffer := []; trace := [] |}.

(** The calls made, in the order they were made. *)
Definition history (w : world) : list event := rev (trace w).

Definition record (e : event) (w : world) : world :=
  {| temperature_data_buffer := temperature_data_buffer w;
     pressure_data_buffer := pressure_data_buffer w;
     trace := e :: trace w |}.

(** ** Computations *)

Inductive outcome (A : Type) :=
| Ret (a : A)
| Raise (e : exn)
| Diverge.
Arguments Ret {A} a.
Arguments Raise {A} e.
Arguments Diverge {A}.

Definition M (A : Type) : Type := world -> outcome A * world.

Definition ret {A} (a : A) : M A := fun w => (Ret a, w).
Definition raise {A} (e : exn) : M A := fun w => (Raise e, w).
Definition diverge {A} : M A := fun w => (Diverge, w).

Definition bind {A B} (m : M A) (k : A -> M B) : M B :=
  fun w =>
    match m w with
    | (Ret a, w') => k a w'
    | (Raise e, w') => (Raise e, w')
    | (Diverge, w') => (Diverge, w')
    end.

(** [try: body / except Exception as e: handler(e)] *)
Definition try_except {A} (body : M A) (handler : exn -> M A) : M A :=
  fun w =>
    match body w with
    | (Raise e, w') => handler e w'
    | r => r
    end.

Declare Scope py_scope.
Delimit Scope py_scope with py.
Notation "x <- m ;; k" := (bind m (fun x => k))
  (at level 61, m at next level, right associativity) : py_scope.
Notation "m ;; k" := (bind m (fun _ => k))
  (at level 61, right associativity) : py_scope.
Local Open Scope py_scope.

(** A call that cannot raise. *)
Definition emit (e : event) : M unit := fun w => (Ret tt, record e w).

(** A call that raises when the collaborator says so. *)
Definition call (ev : bool -> event) (r : option exn) : M unit :=
  fun w =>
    match r with
    | None => (Ret tt, record (ev true) w)
    | Some e => (Raise e, record (ev false) w)
    end.

Definition call_answer {A} (ev : bool -> event) (r : answer A) : M A :=
  fun w =>
    match r with
    | inr a => (Ret a, record (ev true) w)
    | inl e => (Raise e, record (ev false) w)
    end.

(** The number of earlier calls of the kind [p]. *)
Definition calls (p : event -> bool) : M nat :=
  fun w => (Ret (count p (trace w)), w).

Definition log (level message : string) : M unit := emit (EvLog level message).
Definition sleep (seconds : Z) : M unit := emit (EvSleep seconds).

(** [while cond: body] over the local variables [s]. *)
Fixpoint while {S : Type} (fuel : nat) (cond : S -> M bool) (body : S -> M S)
    (s : S) : M S :=
  match fuel with
  | O => diverge
  | Datatypes.S fuel' =>
      c <- cond s ;;
      if (c : bool) then s' <- body s ;; while fuel' cond body s'
      else ret s
  end.

(** ** The program *)

Definition AP_SSID : string := "Pico_Wifi_AP".
Definition AP_PASSWORD : string := "123456789".

Section Station.

Variable E : env.

(** *** Wi-Fi *)

Definition wlan_isconnected : M bool :=
  k <- calls is_poll ;;
  let joined := wlan_status E k in
  emit (EvIsConnected joined) ;;
  ret joined.

Definition attempting (ssid : string) : string :=
  "Attempting to connect to Wi-Fi: " ++ ssid ++ "...".

Definition connect_wifi (ssid password : string) : M bool :=
  emit EvWlanActive ;;
  emit (EvWlanConnect ssid password) ;;
  _ <- while 6
         (fun retry_count =>
            joined <- wlan_isconnected ;;
            ret (negb joined && (retry_count <? 5)))
         (fun retry_count =>
            log "INFO" (attempting ssid) ;;
            sleep 1 ;;
            ret (retry_count + 1))
         0 ;;
  joined <- wlan_isconnected ;;
  if (joined : bool) then
    log "INFO" ("Connected to Wi-Fi: " ++ wlan_ifconfig E) ;;
    ret true
  else
    log "ERROR" ("Failed to connect to Wi-Fi " ++ ssid ++ ".") ;;
    ret false.

Definition create_ap : M unit :=
  try_except
    (call (EvApConfig AP_SSID AP_PASSWORD) (ap_config E) ;;
     log "INFO" ("Access Point created with SSID: " ++ AP_SSID
                 ++ ", password: " ++ AP_PASSWORD) ;;
     sleep 2 ;;
     emit (EvApActive (ap_active E)) ;;
     if ap_active E then
       log "INFO" ("AP is active. IP configuration: " ++ ap_ifconfig E)
     else
       log "ERROR" "Failed to activate the Access Point")
    (fun e => log "ERROR" ("Exception in create_ap: " ++ str_of_exn e)).

(** *** The configuration server *)

(** Lines 86-92: the two fields cut out of the request text. *)
Definition parse_form (request_str : string) : string * string :=
  let ssid_start := PyStr.find request_str "ssid=" 0 + 5 in
  let ssid_end := PyStr.find request_str "&" ssid_start in
  let password_start := PyStr.find request_str "password=" 0 + 9 in
  let password_end := PyStr.find request_str " HTTP" password_start in
  (PyStr.slice request_str ssid_start ssid_end,
   PyStr.slice request_str password_start password_end).

(** [cl, addr = s.accept()] up to [request = cl.recv(1024)] *)
Definition accept_recv : M (list byte) :=
  k <- calls is_accept ;;
  match sock_incoming E k with
  | AcceptFails e => call EvAccept (Some e) ;; ret []
  | RecvFails e =>
      emit (EvAccept true) ;;
      log "INFO" ("Client connected from " ++ sock_peer E) ;;
      call EvRecv (Some e) ;; ret []
  | Request data =>
      emit (EvAccept true) ;;
      log "INFO" ("Client connected from " ++ sock_peer E) ;;
      emit (EvRecv true) ;;
      ret (firstn 1024 data)
  end.

Definition cl_send (data : string) : M unit :=
  k <- calls is_send ;;
  call (EvSend data) (sock_send E k).

Definition http_ok : string :=
  "HTTP/1.1 200 OK" ++ String "013" (String "010" "Content-Type: text/html")
  ++ String "013" (String "010" (String "013" (String "010" EmptyString))).

(** The body of [if 'POST' in request_str:], up to [cl.close()]. *)
Definition handle_post (request_str : string) : M unit :=
  let (ssid, password) := parse_form request_str in
  log "INFO" ("Received SSID: " ++ ssid ++ ", Password: " ++ password) ;;
  joined <- connect_wifi ssid password ;;
  (if (joined : bool) then
     cl_send http_ok ;;
     cl_send "<html><body><h2>Wi-Fi Connected Successfully!</h2></body></html>"
   else
     cl_send http_ok ;;
     cl_send "<html><body><h2>Failed to connect to Wi-Fi. Try again.</h2></body></html>") ;;
  emit EvClose.

(** [while True:] of [serve_web]; the [break] is the return. *)
Fixpoint serve_loop (fuel : nat) : M unit :=
  match fuel with
  | O => diverge
  | S fuel' =>
      request <- accept_recv ;;
      let request_str := PyStr.str_of_bytes request in
      if PyStr.contains "POST" request_str then handle_post request_str
      else serve_loop fuel'
  end.

Definition serve_web (fuel : nat) : M unit :=
  try_except
    (addr <- call_answer EvListen (sock_listen E) ;;
     log "INFO" ("Listening on " ++ addr) ;;
     serve_loop fuel)
    (fun e => log "ERROR" ("Exception in serve_web: " ++ str_of_exn e)).

(** *** Sampling *)

(** The text logged for a reading. *)
Definition reading_message (temperature pressure : Z) : string :=
  "Temperature: " ++ str_of_float temperature ++ "°C, Pressure: "
  ++ str_of_float pressure ++ " hPa".

Definition get_sensor_measurements : M (Z * Z) :=
  k <- calls is_measure ;;
  measurements <- call_answer EvMeasure (sensor_measurements E k) ;;
  let temperature := round2 (fst measurements) in
  let pressure := round2 (snd measurements) in
  log "INFO" (reading_message temperature pressure) ;;
  ret (temperature, pressure).

Definition format_data (temperature_data pressure_data : pyvalue) : pydict :=
  [("temperature", temperature_data); ("pressure", pressure_data)].

(** [None] is the failure result. *)
Definition process_data : M (option pydict) :=
  try_except
    (tp <- get_sensor_measurements ;;
     ret (Some (format_data (PyFloat (fst tp)) (PyFloat (snd tp)))))
    (fun e =>
       log "ERROR" ("Error while processing sensor data: " ++ str_of_exn e) ;;
       ret None).

(** *** The broker session *)

Definition client_connect (client : MQTTClient) : M unit :=
  k <- calls is_mqtt_connect ;;
  call EvMqttConnect (mqtt_connect E k).

Definition client_publish (client : MQTTClient) (topic payload : string)
    : M unit :=
  k <- calls is_publish ;;
  call (EvPublish topic payload) (mqtt_publish E k).

(** [depth] is the number of nested calls of [reconnect_mqtt] that the
    stack has room for: the call that exceeds it raises [RuntimeError],
    in the handler of its caller, so that the exception leaves every
    pending call. *)
Fixpoint reconnect_mqtt (depth : nat) (client : MQTTClient) : M unit :=
  match depth with
  | O => raise stack_overflow
  | S depth' =>
      try_except
        (log "INFO" "Attempting to reconnect to MQTT broker..." ;;
         client_connect client ;;
         log "INFO" "Reconnected to MQTT broker")
        (fun e =>
           log "ERROR" ("Reconnection failed: " ++ str_of_exn e) ;;
           sleep 5 ;;
           reconnect_mqtt depth' client)
  end.

Definition send_mqtt (depth : nat) (client : MQTTClient) (topic : string)
    (data : pydict) : M unit :=
  try_except
    (let payload := dumps data in
     log "INFO" ("Publishing to MQTT: " ++ payload) ;;
     client_publish client topic payload ;;
     log "INFO" ("Data sent to MQTT: " ++ payload))
    (fun e =>
       log "ERROR" ("Failed to send data via MQTT: " ++ str_of_exn e) ;;
       reconnect_mqtt depth client).

(** The context object is represented by [true], [None] by [false]. *)
Definition ssl_context : M bool :=
  try_except
    (call EvSslContext (ssl_new E) ;; ret true)
    (fun e => log "ERROR" ("SSL context error: " ++ str_of_exn e) ;; ret false).

Definition new_client (context : bool) : M MQTTClient :=
  k <- calls is_mqtt_new ;;
  call EvMqttNew (mqtt_new E k) ;;
  ret {| client_id := "pico"; server := BROKER_ADDRESS E;
         port := BROKER_PORT E; user := BROKER_USERNAME E;
         password := BROKER_PASSWORD E; ssl := context |}.

(** One round of the loop of [connect_mqtt] over the locals
    [(client, retry_count)].  The assignment [client = MQTTClient(...)]
    comes before [client.connect()] inside the [try]: when the constructor
    raises, the handler runs with [client] unchanged; when [connect]
    raises, it runs with [client] already bound to the new object. *)
Definition connect_round (context : bool)
    (locals : option MQTTClient * Z) : M (option MQTTClient * Z) :=
  let (client, retry_count) := locals in
  let handler (client : option MQTTClient) (e : exn) :=
    log "ERROR" ("MQTT connection failed: " ++ str_of_exn e) ;;
    sleep 5 ;;
    ret (client, retry_count + 1) in
  try_except
    (c <- new_client context ;;
     try_except
       (client_connect c ;;
        log "INFO" "Connected to MQTT broker" ;;
        ret (Some c, retry_count))
       (handler (Some c)))
    (handler client).

Definition is_none {A} (o : option A) : bool :=
  match o with None => true | Some _ => false end.

(** [client is None and retry_count < 5] *)
Definition connect_cond (locals : option MQTTClient * Z) : M bool :=
  ret (is_none (fst locals) && (snd locals <? 5)).

Definition connect_mqtt : M MQTTClient :=
  context <- ssl_context ;;
  locals <- while 6 connect_cond (connect_round context) (None, 0) ;;
  match fst locals with
  | None =>
      log "CRITICAL" "Failed to connect to MQTT broker after 5 attempts" ;;
      (* raise ConnectionError(...): the name is not defined *)
      raise connection_error_undefined
  | Some client => ret client
  end.

(** *** Publishing strategies *)

(** The callback installed by [create_payload_timer]: one timer tick,
    with room on the stack for [depth] nested calls of
    [reconnect_mqtt]. *)
Definition payload_callback (depth : nat) (mqtt_client : MQTTClient) : M unit :=
  data <- process_data ;;
  match data with
  | Some d => send_mqtt depth mqtt_client (MQTT_TOPIC E) d
  | None => ret tt
  end.

Definition create_payload_timer (mqtt_client : MQTTClient) (interval : Z)
    : M unit :=
  emit (EvTimer interval "payload").

Definition frequent_small_payload (mqtt_client : MQTTClient) : M unit :=
  create_payload_timer mqtt_client 1000.

Definition infrequent_small_payload (mqtt_client : MQTTClient) : M unit :=
  create_payload_timer mqtt_client 60000.

Definition append_sample (temperature pressure : Z) : M unit :=
  fun w =>
    (Ret tt,
     {| temperature_data_buffer := temperature_data_buffer w ++ [temperature];
        pressure_data_buffer := pressure_data_buffer w ++ [pressure];
        trace := trace w |}).

Definition clear_buffers : M unit :=
  fun w =>
    (Ret tt,
     {| temperature_data_buffer := []; pressure_data_buffer := [];
        trace := trace w |}).

Definition buffers : M (list Z * list Z) :=
  fun w => (Ret (temperature_data_buffer w, pressure_data_buffer w), w).

(** The callback installed by [infrequent_large_payload]: one timer tick.
    The dict built by [format_data] shares the two buffers; it is
    serialised inside [send_mqtt], before they are cleared. *)
Definition large_callback (depth : nat) (mqtt_client : MQTTClient) : M unit :=
  tp <- get_sensor_measurements ;;
  let (temperature, pressure) := tp : Z * Z in
  (if truthy temperature && truthy pressure
   then append_sample temperature pressure else ret tt) ;;
  b <- buffers ;;
  if (60 <=? Z.of_nat (List.length (fst b))) then
    let data := format_data (PyList (fst b)) (PyList (snd b)) in
    send_mqtt depth mqtt_client (MQTT_TOPIC_DATA_COLLECTION E) data ;;
    clear_buffers
  else ret tt.

Definition infrequent_large_payload (mqtt_client : MQTTClient) : M unit :=
  clear_buffers ;;
  emit (EvTimer 1000 "large").

(** *** Start-up *)

(** [while True: time.sleep(10)] *)
Fixpoint idle (fuel : nat) : M unit :=
  match fuel with
  | O => diverge
  | S fuel' => sleep 10 ;; idle fuel'
  end.

Definition main (fuel : nat) : M unit :=
  try_except
    (joined <- connect_wifi (SSID E) (PASSWORD E) ;;
     if negb joined then
       log "INFO" "Failed to connect to the known Wi-Fi. Starting Access Point..." ;;
       create_ap ;;
       serve_web fuel
     else
       log "INFO" "Wi-Fi connected successfully, proceeding with MQTT connection." ;;
       mqtt_client <- connect_mqtt ;;
       frequent_small_payload mqtt_client ;;
       idle fuel)
    (fun e =>
       log "CRITICAL" ("Critical error occurred: " ++ str_of_exn e) ;;
       emit EvReset).

End Station.

(** ** Concrete environments *)

Definition refused : exn := Exception "OSError" "ECONNREFUSED".

Definition crlf : string := String "013" (String "010" EmptyString).

(** A bench set-up: fixed configuration, access point and listener work;
    the rest is given. *)
Definition bench (status : nat -> bool) (incoming : nat -> connection)
    (sensor : nat -> answer (Q * Q))
    (new connect publish : nat -> option exn) : env :=
  {| SSID := "home"; PASSWORD := "secret";
     BROKER_ADDRESS := "broker.local"; BROKER_PORT := 8883;
     BROKER_USERNAME := "pico"; BROKER_PASSWORD := "pw";
     MQTT_TOPIC := "weather/small";
     MQTT_TOPIC_DATA_COLLECTION := "weather/batch";
     wlan_status := status;
     wlan_ifconfig := "192.168.1.20";
     ap_config := None; ap_active := true; ap_ifconfig := "192.168.4.1";
     sock_listen := inr "0.0.0.0:80";
     sock_incoming := incoming;
     sock_peer := "192.168.4.2";
     sock_send := fun _ => None;
     sensor_measurements := sensor;
     ssl_new := None;
     mqtt_new := new; mqtt_connect := connect; mqtt_publish := publish |}.

Definition never {A} (a : A) : nat -> A := fun _ => a.


(** The calls of one failed [connect_wifi], in order. *)
Definition wifi_round (ssid : string) : list event :=
  [EvIsConnected false; EvLog "INFO" (attempting ssid); EvSleep 1].

Definition wifi_failure (ssid password : string) : list event :=
  ([EvWlanActive; EvWlanConnect ssid password]
   ++ concat (repeat (wifi_round ssid) 5)
   ++ [EvIsConnected false; EvIsConnected false;
       EvLog "ERROR" ("Failed to connect to Wi-Fi " ++ ssid ++ ".")])%list.


(** The same two values with the keys the other way round:
    [{"pressure": 1013.26, "temperature": 21.46}]. *)
Definition small_payload_pressure_first : string :=
  "{" ++ PyStr.quoted "pressure" ++ ": 1013.26, "
      ++ PyStr.quoted "temperature" ++ ": 21.46}".

(** The worlds seen between two timer callbacks of the batching
    strategy: the one left by [infrequent_large_payload], and then the one
    left by each callback that ended (by returning or by raising); the
    idle loop of [main] only sleeps in between. *)
Inductive observed (E : env) (mqtt_client : MQTTClient) : world -> Prop :=
| observed_start (w : world) :
    observed E mqtt_client (snd (infrequent_large_payload mqtt_client w))
| observed_tick (depth : nat) (w w' : world) (o : outcome unit) :
    observed E mqtt_client w ->
    large_callback E depth mqtt_client w = (o, w') ->
    observed E mqtt_client w'
| observed_idle (w : world) :
    observed E mqtt_client w ->
    observed E mqtt_client (record (EvSleep 10) w).

Definition pico : MQTTClient :=
  {| client_id := "pico"; server := "broker.local"; port := 8883;
     user := "pico"; password := "pw"; ssl := true |}.

(** A sensor at the freezing point: 0.0 degrees, 1013.25 hPa. *)
Definition freezing : env :=
  bench (never true) (never (Request [])) (never (inr (0 # 1, 101325 # 100)))
        (never None) (never None) (never None).

(** No known network in range. *)
Definition no_network : env :=
  bench (never false) (never (Request [])) (never (inr (21456 # 1000, 1013256 # 1000)))
        (never None) (never None) (never None).

(** A broker that refuses every connection; the constructor
    [MQTTClient(...)] itself works. *)
Definition broker_down : env :=
  bench (never true) (never (Request [])) (never (inr (21456 # 1000, 1013256 # 1000)))
        (never None) (never (Some refused)) (never None).

(** The sensor of the end-to-end scenario: always 21.456 and 1013.256. *)
Definition steady : env :=
  bench (never true) (never (Request [])) (never (inr (21456 # 1000, 1013256 # 1000)))
        (never None) (never None) (never None).

(** A sensor driver that raises on every read. *)
Definition sensor_broken : env :=
  bench (never true) (never (Request []))
        (never (inl (Exception "OSError" "EIO")))
        (never None) (never None) (never None).

(** A form submission without the [password=] field. *)
Definition post_without_password : list byte :=
  list_byte_of_string ("POST / HTTP/1.1" ++ crlf ++ crlf ++ "ssid=MyNet").

(** The submission of the specification's example. *)
Definition post_complete : list byte :=
  list_byte_of_string
    ("POST / HTTP/1.1" ++ crlf ++ crlf ++ "ssid=MyNet&password=secret HTTP/1.1").

(** What a browser sends first: a request for the page. *)
Definition get_page : list byte :=
  list_byte_of_string ("GET / HTTP/1.1" ++ crlf ++ crlf).

(** The fallback server receiving only the incomplete submission. *)
Definition captive : env :=
  bench (never false) (never (Request post_without_password))
        (never (inr (21456 # 1000, 1013256 # 1000)))
        (never None) (never None) (never None).

(** The fallback server visited by a browser: first the page request,
    then the submission. *)
Definition browser : env :=
  bench (never false)
        (fun k => match k with O => Request get_page | _ => Request post_complete end)
        (never (inr (21456 # 1000, 1013256 # 1000)))
        (never None) (never None) (never None).

(** [n] timer ticks of the batching strategy, a raising callback not
    stopping the timer. *)
Fixpoint large_ticks (E : env) (depth : nat) (mqtt_client : MQTTClient)
    (n : nat) (w : world) : world :=
  match n with
  | O => w
  | S n' =>
      large_ticks E depth mqtt_client n' (snd (large_callback E depth mqtt_client w))
  end.

(** ** Vocabulary of the statements *)

(** Whether a run ended by raising. *)
Definition raised {A} (r : outcome A * world) : bool :=
  match fst r with Raise _ => true | _ => false end.

(** [safe m]: the computation [m] returns or runs on, it never raises. *)
Definition safe {A} (m : M A) : Prop := forall w, raised (m w) = false.

(** [session_view t]: the outcomes of the [client.connect()] calls and the
    sleeps of a trace, other calls left out. *)
Definition session_view (t : list event) : list event :=
  filter (fun e => is_mqtt_connect e || is_sleep e) t.

(** The log entry of a reading. *)
Definition reading_log (temperature pressure : Z) : event :=
  EvLog "INFO" (reading_message temperature pressure).

(** A broker that is gone: every publish and every connection fails. *)
Definition outage : env :=
  bench (never true) (never (Request [])) (never (inr (21456 # 1000, 1013256 # 1000)))
        (never None) (never (Some refused)) (never (Some refused)).

(** A broker that drops every publish and accepts every connection. *)
Definition publish_fails : env :=
  bench (never true) (never (Request [])) (never (inr (21456 # 1000, 1013256 # 1000)))
        (never None) (never None) (never (Some refused)).

(** ** Vocabulary of the further properties *)

Definition is_listen (e : event) : bool :=
  match e with EvListen _ => true | _ => false end.
Definition is_close (e : event) : bool :=
  match e with EvClose => true | _ => false end.
Definition is_timer (e : event) : bool :=
  match e with EvTimer _ _ => true | _ => false end.
Definition is_reset (e : event) : bool :=
  match e with EvReset => true | _ => false end.

(** [footprint allowed m]: whatever the world, the calls that [m] adds to
    the trace are all of the kinds [allowed]. *)
Definition footprint {A} (allowed : event -> bool) (m : M A) : Prop :=
  forall w,
  exists t,
    trace (snd (m w)) = (t ++ trace w)%list /\ forallb allowed t = true.

(** The calls of the fallback path: log, sleep, WLAN, access point and
    the sockets of the configuration server. *)
Definition fallback_event (e : event) : bool :=
  match e with
  | EvLog _ _ | EvSleep _ | EvWlanActive | EvWlanConnect _ _
  | EvIsConnected _ | EvApConfig _ _ _ | EvApActive _ | EvListen _
  | EvAccept _ | EvRecv _ | EvSend _ _ | EvClose => true
  | _ => false
  end.

(** The calls of a timer tick: log, sleep, the sensor and the broker
    session. *)
Definition tick_event (e : event) : bool :=
  match e with
  | EvLog _ _ | EvSleep _ | EvMeasure _ | EvMqttConnect _
  | EvPublish _ _ _ => true
  | _ => false
  end.

(** The page sent back after a submission. *)
Definition reply_page (joined : bool) : string :=
  if joined
  then "<html><body><h2>Wi-Fi Connected Successfully!</h2></body></html>"
  else "<html><body><h2>Failed to connect to Wi-Fi. Try again.</h2></body></html>".

(** The client object that [connect_mqtt] builds. *)
Definition broker_client (E : env) (context : bool) : MQTTClient :=
  {| client_id := "pico"; server := BROKER_ADDRESS E;
     port := BROKER_PORT E; user := BROKER_USERNAME E;
     password := BROKER_PASSWORD E; ssl := context |}.

(** A byte that [str] of a bytes object prints as itself: printable
    ASCII other than the single quote and the backslash. *)
Definition plain_byte (b : byte) : bool :=
  let n := Byte.to_N b in
  ((32 <=? n) && (n <? 127) && negb (n =? 39) && negb (n =? 92))%N.

(** *** The text of a log line *)

(** [n] zeros. *)
Fixpoint zeros (n : nat) : string :=
  match n with
  | O => EmptyString
  | S n' => String "0" (zeros n')
  end.

(** ["{:0Wd}".format(n)]: the decimal digits of [n], filled with zeros
    after the sign up to the width [W]. *)
Definition format_0d (width : nat) (n : Z) : string :=
  let sign := if n <? 0 then "-" else EmptyString in
  let digits := str_of_nat (Z.abs n) in
  sign ++ zeros (width - String.length sign - String.length digits) ++ digits.

(** The first six fields of [time.localtime()]. *)
Record localtime := {
  tm_year : Z; tm_mon : Z; tm_mday : Z;
  tm_hour : Z; tm_min : Z; tm_sec : Z
}.

(** [timestamp_str] of [log]. *)
Definition timestamp_str (tm : localtime) : string :=
  format_0d 4 (tm_year tm) ++ "-" ++ format_0d 2 (tm_mon tm) ++ "-"
  ++ format_0d 2 (tm_mday tm) ++ " " ++ format_0d 2 (tm_hour tm) ++ ":"
  ++ format_0d 2 (tm_min tm) ++ ":" ++ format_0d 2 (tm_sec tm).

(** The line that [log(level, message)] prints at the time [tm]. *)
Definition log_line (tm : localtime) (level message : string) : string :=
  "[" ++ timestamp_str tm ++ "] " ++ level ++ ": " ++ message.

(** A time whose fields have at most the digits of the format. *)
Definition in_range (tm : localtime) : Prop :=
  0 <= tm_year tm <= 9999 /\ 0 <= tm_mon tm <= 99 /\ 0 <= tm_mday tm <= 99 /\
  0 <= tm_hour tm <= 99 /\ 0 <= tm_min tm <= 99 /\ 0 <= tm_sec tm <= 99.

(** *** Further concrete environments *)

(** The network is joined from the third poll on. *)
Definition joins_late : env :=
  bench (fun k => (2 <=? k)%nat) (never (Request []))
        (never (inr (21456 # 1000, 1013256 # 1000)))
        (never None) (never None) (never None).

(** Only page requests ever arrive. *)
Definition only_gets : env :=
  bench (never false) (never (Request get_page))
        (never (inr (21456 # 1000, 1013256 # 1000)))
        (never None) (never None) (never None).

(** [accept] raises. *)
Definition accept_refused : env :=
  bench (never false) (never (AcceptFails refused))
        (never (inr (21456 # 1000, 1013256 # 1000)))
        (never None) (never None) (never None).

(** The broker refuses two connections, then accepts. *)
Definition broker_back : env :=
  bench (never true) (never (Request []))
        (never (inr (21456 # 1000, 1013256 # 1000)))
        (never None) (fun k => if (k <? 2)%nat then Some refused else None)
        (never None).

(** The constructor [MQTTClient(...)] raises every time. *)
Definition constructor_broken : env :=
  bench (never true) (never (Request []))
        (never (inr (21456 # 1000, 1013256 # 1000)))
        (never (Some refused)) (never None) (never None).

(** A submission whose body ends the request. *)
Definition post_at_end : list byte :=
  list_byte_of_string
    ("POST / HTTP/1.1" ++ crlf ++ crlf ++ "ssid=MyNet&password=secret").

Definition submitting : env :=
  bench (never true) (never (Request post_at_end))
        (never (inr (21456 # 1000, 1013256 # 1000)))
        (never None) (never None) (never None).

(** A sensor whose values have two decimals: 21.46 and 1013.26. *)
Definition two_decimals : env :=
  bench (never true) (never (Request []))
        (never (inr (2146 # 100, 101326 # 100)))
        (never None) (never None) (never None).

(** * Properties *)

Local Open Scope list_scope.

(** ** Traces and counting *)

Lemma count_cons (p : event -> bool) (e : event) (t : list event) :
  count p (e :: t) = ((if p e then 1 else 0) + count p t)%nat.
Proof. unfold count; simpl; destruct (p e); reflexivity. Qed.

Lemma count_app (p : event -> bool) (t1 t2 : list event) :
  count p (t1 ++ t2) = (count p t1 + count p t2)%nat.
Proof. unfold count; rewrite filter_app, length_app; reflexivity. Qed.

(** ** Exceptions that do not escape *)



Lemma safe_ret {A} (a : A) : safe (ret a).
Proof. intro w; reflexivity. Qed.

Lemma safe_emit (e : event) : safe (emit e).
Proof. intro w; reflexivity. Qed.

Lemma safe_diverge {A} : safe (@diverge A).
Proof. intro w; reflexivity. Qed.

Lemma safe_bind {A B} (m : M A) (k : A -> M B) :
  safe m -> (forall a, safe (k a)) -> safe (bind m k).
Proof.
  intros Hm Hk w. unfold bind. specialize (Hm w).
  destruct (m w) as [[a | e | ] w']; try reflexivity.
  - apply Hk.
  - discriminate Hm.
Qed.

Lemma safe_try_except {A} (body : M A) (handler : exn -> M A) :
  (forall e, safe (handler e)) -> safe (try_except body handler).
Proof.
  intros Hh w. unfold try_except.
  destruct (body w) as [[a | e | ] w']; try reflexivity.
  apply Hh.
Qed.

Lemma try_except_safe {A} (body : M A) (handler : exn -> M A) (w : world) :
  raised (body w) = false -> try_except body handler w = body w.
Proof.
  unfold try_except, raised.
  destruct (body w) as [[a | e | ] w']; simpl; congruence.
Qed.

Ltac safe_auto :=
  repeat first
    [ apply safe_try_except; intros
    | apply safe_bind; intros
    | apply safe_ret | apply safe_emit | apply safe_diverge
    | match goal with |- safe (if ?b then _ else _) => destruct b end
    | match goal with |- safe (log _ _) => apply safe_emit end
    | match goal with |- safe (sleep _) => apply safe_emit end ].

(** ** Wi-Fi acquisition *)

Section WifiFacts.

Variable E : env.

Lemma create_ap_safe : safe (create_ap E).
Proof. unfold create_ap; safe_auto. Qed.

Lemma serve_web_safe (fuel : nat) : safe (serve_web E fuel).
Proof. unfold serve_web; safe_auto. Qed.

Hypothesis never_joined : forall k, wlan_status E k = false.

Lemma connect_wifi_fails (ssid password : string) (w : world) :
  exists w',
    connect_wifi E ssid password w = (Ret false, w') /\
    history w' = history w ++ wifi_failure ssid password /\
    temperature_data_buffer w' = temperature_data_buffer w /\
    pressure_data_buffer w' = pressure_data_buffer w.
Proof.
  cbv beta iota zeta delta
    [connect_wifi while bind wlan_isconnected calls emit ret log sleep].
  repeat (rewrite never_joined; simpl).
  eexists; split; [reflexivity | ].
  cbn [history trace record rev app wifi_failure wifi_round concat repeat
       temperature_data_buffer pressure_data_buffer].
  rewrite <- !app_assoc. repeat split.
Qed.

End WifiFacts.

(** C8.  When the network never becomes joined, [connect_wifi] makes
    exactly 5 attempts, the rounds of its retry loop: each is announced
    in the log as an attempt and followed by a 1 second sleep, and the
    is-joined status is polled before the first round and again after
    each one (the request [wlan.connect] itself is issued once, before
    the loop).  It then returns [False], and [main] goes on with the
    fallback path: it starts the access point and serves the
    configuration page. *)
Theorem connect_wifi_five_attempts_then_fallback
    (E : env) (fuel : nat) (w : world) :
  (forall k, wlan_status E k = false) ->
  exists w',
    connect_wifi E (SSID E) (PASSWORD E) w = (Ret false, w') /\
    history w' = history w ++ wifi_failure (SSID E) (PASSWORD E) /\
    count is_join (wifi_failure (SSID E) (PASSWORD E)) = 1%nat /\
    count is_poll (wifi_failure (SSID E) (PASSWORD E)) = 7%nat /\
    count is_sleep (wifi_failure (SSID E) (PASSWORD E)) = 5%nat /\
    (forall e, In e (wifi_failure (SSID E) (PASSWORD E)) ->
               is_sleep e = true -> e = EvSleep 1) /\
    main E fuel w =
      (log "INFO" "Failed to connect to the known Wi-Fi. Starting Access Point..." ;;
       create_ap E ;;
       serve_web E fuel)%py w'.
Proof.
  intros Hnever.
  destruct (connect_wifi_fails E Hnever (SSID E) (PASSWORD E) w)
    as (w' & Hrun & Hhist & _).
  exists w'. split; [exact Hrun | ]. split; [exact Hhist | ].
  do 3 (split; [reflexivity | ]). split.
  - intros e Hin Hs. simpl in Hin.
    repeat (destruct Hin as [<- | Hin]; [ try discriminate Hs; reflexivity | ]).
    destruct Hin.
  - unfold main. rewrite try_except_safe.
    + unfold bind at 1. rewrite Hrun. reflexivity.
    + unfold bind at 1. rewrite Hrun. simpl negb. cbv iota.
      apply safe_bind; [apply safe_emit | intros _ ].
      apply safe_bind; [apply create_ap_safe | intros _ ].
      apply serve_web_safe.
Qed.


(** ** The broker session *)

Section SessionFacts.

Variable E : env.

(** One unfolding of [reconnect_mqtt]. *)
Lemma reconnect_mqtt_step (depth : nat) (client : MQTTClient) (w : world) :
  reconnect_mqtt E (S depth) client w =
  let w1 := record (EvLog "INFO" "Attempting to reconnect to MQTT broker...") w in
  match mqtt_connect E (count is_mqtt_connect (trace w)) with
  | None =>
      (Ret tt,
       record (EvLog "INFO" "Reconnected to MQTT broker")
         (record (EvMqttConnect true) w1))
  | Some e =>
      reconnect_mqtt E depth client
        (record (EvSleep 5)
           (record (EvLog "ERROR" ("Reconnection failed: " ++ str_of_exn e))
              (record (EvMqttConnect false) w1)))
  end.
Proof.
  cbv beta iota zeta delta
    [reconnect_mqtt try_except bind client_connect calls call emit ret log sleep].
  fold (reconnect_mqtt E).
  change (count is_mqtt_connect
            (trace (record (EvLog "INFO" "Attempting to reconnect to MQTT broker...") w)))
    with (count is_mqtt_connect (trace w)).
  destruct (mqtt_connect E (count is_mqtt_connect (trace w))); reflexivity.
Qed.

(** [reconnect_mqtt] ends in one of two ways: it returns, right after a
    [client.connect()] that succeeded, or the stack is used up and
    [RuntimeError] leaves it. *)
Lemma reconnect_mqtt_outcome (depth : nat) (client : MQTTClient) :
  forall (w : world),
  exists w',
    (reconnect_mqtt E depth client w = (Ret tt, w') /\
     exists t,
       trace w' =
       EvLog "INFO" "Reconnected to MQTT broker" :: EvMqttConnect true :: t)
    \/ reconnect_mqtt E depth client w = (Raise stack_overflow, w').
Proof.
  induction depth as [ | depth IH]; intro w.
  - exists w. right. reflexivity.
  - rewrite reconnect_mqtt_step. cbv zeta.
    destruct (mqtt_connect E _); [apply IH | ].
    eexists. left. split; [reflexivity | eexists; reflexivity].
Qed.

(** With a broker that refuses every connection, [reconnect_mqtt] uses up
    the stack: one attempt and one 5 second sleep per nested call, then
    [RuntimeError]. *)
Lemma reconnect_mqtt_unreachable (client : MQTTClient) :
  (forall k, mqtt_connect E k <> None) ->
  forall (depth : nat) (w : world),
  exists w',
    reconnect_mqtt E depth client w = (Raise stack_overflow, w') /\
    session_view (history w') =
      session_view (history w)
      ++ concat (repeat [EvMqttConnect false; EvSleep 5] depth) /\
    count is_mqtt_connect (trace w') =
      (count is_mqtt_connect (trace w) + depth)%nat /\
    count is_publish (trace w') = count is_publish (trace w) /\
    temperature_data_buffer w' = temperature_data_buffer w /\
    pressure_data_buffer w' = pressure_data_buffer w.
Proof.
  intros Hdown. induction depth as [ | depth IH]; intro w.
  - exists w. simpl. rewrite app_nil_r, Nat.add_0_r. repeat split.
  - rewrite reconnect_mqtt_step. cbv zeta.
    destruct (mqtt_connect E (count is_mqtt_connect (trace w))) as [e | ] eqn:Hk;
      [ | exfalso; exact (Hdown _ Hk)].
    match goal with |- context [reconnect_mqtt E depth client ?w1] =>
      destruct (IH w1) as (w' & Hrun & Hview & Hcount & Hpub & Ht & Hp) end.
    exists w'. split; [exact Hrun | ]. split; [ | split].
    + rewrite Hview. unfold history, session_view. simpl.
      rewrite !filter_app. simpl. rewrite <- !app_assoc. reflexivity.
    + rewrite Hcount. unfold count. simpl. lia.
    + rewrite Hpub, Ht, Hp. repeat split.
Qed.

(** [reconnect_mqtt] publishes nothing and leaves the sample buffers
    alone, whatever the broker does. *)
Lemma reconnect_mqtt_frame (client : MQTTClient) (depth : nat) :
  forall w,
    let w' := snd (reconnect_mqtt E depth client w) in
    count is_publish (trace w') = count is_publish (trace w) /\
    temperature_data_buffer w' = temperature_data_buffer w /\
    pressure_data_buffer w' = pressure_data_buffer w.
Proof.
  induction depth as [ | depth IH]; intro w; [repeat split | ].
  cbv zeta. rewrite reconnect_mqtt_step. cbv zeta.
  destruct (mqtt_connect E _); [ | repeat split].
  match goal with |- context [reconnect_mqtt E depth client ?w1] =>
    destruct (IH w1) as (Hpub & Ht & Hp) end.
  rewrite Hpub, Ht, Hp. repeat split.
Qed.

(** Once the broker accepts a connection again, a stack with room enough
    lets [reconnect_mqtt] return. *)
Lemma reconnect_mqtt_recovers (client : MQTTClient) (k : nat) :
  forall w,
    mqtt_connect E (count is_mqtt_connect (trace w) + k) = None ->
    forall depth, (k < depth)%nat ->
    fst (reconnect_mqtt E depth client w) = Ret tt.
Proof.
  induction k as [ | k IH]; intros w Hok depth Hdepth;
    (destruct depth as [ | depth]; [lia | ]);
    rewrite reconnect_mqtt_step; cbv zeta.
  - rewrite Nat.add_0_r in Hok. rewrite Hok. reflexivity.
  - destruct (mqtt_connect E (count is_mqtt_connect (trace w))); [ | reflexivity].
    apply IH; [ | lia].
    rewrite <- Hok. f_equal. unfold count. simpl. lia.
Qed.

End SessionFacts.

(** [reconnect_mqtt] never calls [publish]. *)
Lemma reconnect_mqtt_publishes_nothing (E : env) (client : MQTTClient)
    (depth : nat) :
  forall w,
    filter is_publish (trace (snd (reconnect_mqtt E depth client w)))
    = filter is_publish (trace w).
Proof.
  induction depth as [ | depth IH]; intro w; [reflexivity | ].
  rewrite reconnect_mqtt_step. cbv zeta.
  destruct (mqtt_connect E _); [ | reflexivity].
  rewrite IH. reflexivity.
Qed.

Section SendFacts.

Variable E : env.

(** What one call of [send_mqtt] does: one publish; on failure, the
    handler logs and hands over to [reconnect_mqtt]. *)
Lemma send_mqtt_step (depth : nat) (client : MQTTClient) (topic : string)
    (data : pydict) (w : world) :
  send_mqtt E depth client topic data w =
  let payload := dumps data in
  let w1 := record (EvLog "INFO" ("Publishing to MQTT: " ++ payload)) w in
  match mqtt_publish E (count is_publish (trace w)) with
  | None =>
      (Ret tt,
       record (EvLog "INFO" ("Data sent to MQTT: " ++ payload))
         (record (EvPublish topic payload true) w1))
  | Some e =>
      reconnect_mqtt E depth client
        (record (EvLog "ERROR" ("Failed to send data via MQTT: " ++ str_of_exn e))
           (record (EvPublish topic payload false) w1))
  end.
Proof.
  cbv beta iota zeta delta
    [send_mqtt try_except bind client_publish calls call emit ret log].
  change (count is_publish
            (trace (record (EvLog "INFO" ("Publishing to MQTT: " ++ dumps data)) w)))
    with (count is_publish (trace w)).
  destruct (mqtt_publish E (count is_publish (trace w))); reflexivity.
Qed.

(** [send_mqtt] returns, or lets the [RuntimeError] of [reconnect_mqtt]
    out; no other exception leaves it. *)
Lemma send_mqtt_outcome (depth : nat) (client : MQTTClient) (topic : string)
    (data : pydict) (w : world) :
  fst (send_mqtt E depth client topic data w) = Ret tt
  \/ fst (send_mqtt E depth client topic data w) = Raise stack_overflow.
Proof.
  rewrite send_mqtt_step. cbv zeta.
  destruct (mqtt_publish E _); [ | left; reflexivity].
  match goal with |- context [reconnect_mqtt E depth client ?w1] =>
    destruct (reconnect_mqtt_outcome E depth client w1) as (w' & [[Hrun _] | Hrun])
  end; rewrite Hrun; [left | right]; reflexivity.
Qed.

Lemma send_mqtt_frame (depth : nat) (client : MQTTClient) (topic : string)
    (data : pydict) (w : world) :
  let w' := snd (send_mqtt E depth client topic data w) in
  count is_publish (trace w') = S (count is_publish (trace w)) /\
  temperature_data_buffer w' = temperature_data_buffer w /\
  pressure_data_buffer w' = pressure_data_buffer w.
Proof.
  cbv zeta. rewrite send_mqtt_step. cbv zeta.
  destruct (mqtt_publish E _); [ | repeat split].
  match goal with |- context [reconnect_mqtt E depth client ?w1] =>
    destruct (reconnect_mqtt_frame E client depth w1) as (Hpub & Ht & Hp) end.
  rewrite Hpub, Ht, Hp. repeat split.
Qed.

End SendFacts.

(** C2 (what the code does).  With a broker that refuses every
    connection, [reconnect_mqtt] does give up: it retries by calling
    itself from its handler, so with room on the stack for [depth] nested
    calls it makes exactly [depth] attempts, each followed by a 5 second
    sleep, and then [RuntimeError] leaves it and every pending call, no
    connection having succeeded. *)
Theorem reconnect_mqtt_gives_up_at_stack_limit (E : env) (client : MQTTClient) :
  (forall k, is_none (mqtt_connect E k) = false) ->
  forall (depth : nat) (w : world),
  exists w',
    reconnect_mqtt E depth client w = (Raise stack_overflow, w') /\
    count is_mqtt_connect (trace w') =
      (count is_mqtt_connect (trace w) + depth)%nat /\
    session_view (history w') =
      session_view (history w)
      ++ concat (repeat [EvMqttConnect false; EvSleep 5] depth).
Proof.
  intros Hrefused depth w.
  assert (Hdown : forall k, mqtt_connect E k <> None).
  { intros k Hk. specialize (Hrefused k). rewrite Hk in Hrefused.
    discriminate Hrefused. }
  destruct (reconnect_mqtt_unreachable E client Hdown depth w)
    as (w' & Hrun & Hview & Hcount & _).
  exists w'. split; [exact Hrun | ]. split; [exact Hcount | exact Hview].
Qed.

(** ** First connection to the broker *)


Section ConnectFacts.

Variable E : env.

Lemma ssl_context_run (w : world) :
  exists context w1,
    ssl_context E w = (Ret context, w1) /\
    count is_mqtt_new (trace w1) = count is_mqtt_new (trace w) /\
    count is_mqtt_connect (trace w1) = count is_mqtt_connect (trace w) /\
    session_view (history w1) = session_view (history w) /\
    filter is_sleep (history w1) = filter is_sleep (history w).
Proof.
  cbv beta iota zeta delta [ssl_context try_except bind call emit ret log].
  destruct (ssl_new E); do 2 eexists; (split; [reflexivity | ]);
    unfold history, session_view; cbn [trace record rev];
    rewrite ?filter_app; cbn; rewrite ?app_nil_r; repeat split.
Qed.

(** A round of the loop in which the constructor raises: [client] stays
    [None], the count goes up, 5 seconds pass. *)
Lemma connect_round_constructor_fails (context : bool) (retry_count : Z)
    (w : world) (e : exn) :
  mqtt_new E (count is_mqtt_new (trace w)) = Some e ->
  connect_round E context (None, retry_count) w =
  (Ret (None, retry_count + 1),
   record (EvSleep 5)
     (record (EvLog "ERROR" ("MQTT connection failed: " ++ str_of_exn e))
        (record (EvMqttNew false) w))).
Proof.
  intro Hnew.
  cbv beta iota zeta delta
    [connect_round new_client bind try_except call calls emit ret log sleep].
  rewrite Hnew. reflexivity.
Qed.

Lemma connect_loop_constructor_fails (context : bool) :
  (forall k, mqtt_new E k <> None) ->
  forall (n : nat) (retry_count : Z) (w : world),
    retry_count = 5 - Z.of_nat n ->
    exists w',
      while (S n) connect_cond (connect_round E context) (None, retry_count) w
        = (Ret (None, 5), w') /\
      count is_mqtt_new (trace w') = (count is_mqtt_new (trace w) + n)%nat /\
      count is_mqtt_connect (trace w') = count is_mqtt_connect (trace w) /\
      filter is_sleep (history w') =
        filter is_sleep (history w) ++ repeat (EvSleep 5) n.
Proof.
  intros Hnew. induction n as [ | n IH]; intros retry_count w Hcount.
  - exists w. subst retry_count. rewrite Nat.add_0_r, app_nil_r. repeat split.
  - destruct (mqtt_new E (count is_mqtt_new (trace w))) as [e | ] eqn:Hk;
      [ | exfalso; exact (Hnew _ Hk)].
    change (while (S (S n)) connect_cond (connect_round E context)
              (None, retry_count) w)
      with (bind (connect_cond (None, retry_count))
              (fun c : bool =>
                 if c
                 then bind (connect_round E context (None, retry_count))
                        (fun s' => while (S n) connect_cond
                                     (connect_round E context) s')
                 else ret (None, retry_count)) w).
    unfold bind at 1, connect_cond at 1, ret at 1. cbn [fst snd is_none andb].
    assert (Hlt : (retry_count <? 5) = true) by (apply Z.ltb_lt; lia).
    rewrite Hlt. unfold bind at 1.
    rewrite (connect_round_constructor_fails context retry_count w e Hk).
    match goal with |- context [while (S n) _ _ _ ?w1] =>
      destruct (IH (retry_count + 1) w1 ltac:(lia))
        as (w' & Hrun & Hnews & Hconnects & Hsleeps)
    end.
    exists w'. split; [exact Hrun | ].
    rewrite Hnews, Hconnects, Hsleeps.
    unfold history. cbn [trace record rev]. rewrite !filter_app, !count_cons.
    cbn. rewrite <- !app_assoc. cbn.
    repeat split. lia.
Qed.

(** When it is the constructor [MQTTClient(...)] that raises, every time,
    the loop of [connect_mqtt] runs its 5 rounds, 5 seconds apart, and
    the [raise] statement after it fails on its own: [NameError], since
    the firmware has no name [ConnectionError]. *)
Lemma connect_mqtt_constructor_fails (w : world) :
  (forall k, mqtt_new E k <> None) ->
  exists w',
    connect_mqtt E w =
      (Raise connection_error_undefined, w') /\
    count is_mqtt_new (trace w') = (count is_mqtt_new (trace w) + 5)%nat /\
    count is_mqtt_connect (trace w') = count is_mqtt_connect (trace w) /\
    filter is_sleep (history w') =
      filter is_sleep (history w) ++ repeat (EvSleep 5) 5.
Proof.
  intro Hnew. unfold connect_mqtt. unfold bind at 1.
  destruct (ssl_context_run w)
    as (context & w1 & Hssl & Hnews1 & Hconnects1 & _ & Hsleeps1).
  rewrite Hssl. unfold bind at 1.
  destruct (connect_loop_constructor_fails context Hnew 5 0 w1 eq_refl)
    as (w2 & Hloop & Hnews & Hconnects & Hsleeps).
  rewrite Hloop.
  eexists. split; [reflexivity | ].
  cbn [trace record]. rewrite !count_cons. cbn [is_mqtt_new is_mqtt_connect].
  rewrite Hnews, Hconnects, Hnews1, Hconnects1.
  unfold history in *. cbn [trace record rev]. rewrite filter_app.
  rewrite Hsleeps, Hsleeps1. cbn. rewrite app_nil_r. repeat split.
Qed.

End ConnectFacts.

(** C1 (what the code does).  When the constructor [MQTTClient(...)]
    succeeds and [client.connect()] raises, [connect_mqtt] makes one
    connection attempt, sleeps 5 seconds once, leaves its loop because
    [client] is already bound, and returns that client, which never
    connected; it does not raise. *)
Theorem connect_mqtt_returns_unconnected_client (E : env) (w : world) (e : exn) :
  mqtt_new E (count is_mqtt_new (trace w)) = None ->
  mqtt_connect E (count is_mqtt_connect (trace w)) = Some e ->
  exists client w',
    connect_mqtt E w = (Ret client, w') /\
    session_view (history w') =
      session_view (history w) ++ [EvMqttConnect false; EvSleep 5].
Proof.
  intros Hnew Hconnect.
  cbv beta iota zeta delta
    [connect_mqtt connect_cond ssl_context while connect_round new_client
     client_connect bind try_except call calls emit ret raise log sleep
     is_none fst snd].
  unfold count in *.
  destruct (ssl_new E); simpl; rewrite Hnew; simpl; rewrite Hconnect; simpl;
    (do 2 eexists; split; [reflexivity | ]);
    unfold history, session_view; simpl; rewrite !filter_app; simpl;
    rewrite <- !app_assoc; reflexivity.
Qed.


(** ** Sampling *)

(** [round_half_even] picks a nearest integer. *)
Lemma round_half_even_nearest (x : Q) :
  (Qabs (x - inject_Z (round_half_even x)) <= 1 # 2)%Q.
Proof.
  unfold round_half_even.
  pose proof (Qfloor_le x) as Hlo.
  pose proof (Qlt_floor x) as Hhi.
  rewrite inject_Z_plus in Hhi.
  change (inject_Z 1) with 1%Q in Hhi.
  set (f := Qfloor x) in *.
  assert (Hup : (inject_Z (f + 1) == inject_Z f + 1)%Q)
    by (rewrite inject_Z_plus; reflexivity).
  destruct (Qcompare_spec (x - inject_Z f) (1 # 2)) as [Heq | Hlt | Hgt].
  - destruct (Z.even f).
    + apply Qabs_case; intros; lra.
    + rewrite Hup. apply Qabs_case; intros; lra.
  - apply Qabs_case; intros; lra.
  - rewrite Hup. apply Qabs_case; intros; lra.
Qed.

Lemma round_half_even_bounds (x : Q) :
  (inject_Z (round_half_even x) - (1 # 2) <= x
   /\ x <= inject_Z (round_half_even x) + (1 # 2))%Q.
Proof.
  pose proof (round_half_even_nearest x) as H.
  apply Qabs_Qle_condition in H. destruct H. split; lra.
Qed.

Lemma round_half_even_mono (x y : Q) :
  (x <= y)%Q -> round_half_even x <= round_half_even y.
Proof.
  intro Hxy.
  pose proof (Qfloor_resp_le _ _ Hxy) as Hfloor.
  unfold round_half_even.
  pose proof (Qfloor_le x) as Hxl. pose proof (Qlt_floor x) as Hxh.
  pose proof (Qfloor_le y) as Hyl. pose proof (Qlt_floor y) as Hyh.
  rewrite inject_Z_plus in Hxh, Hyh.
  change (inject_Z 1) with 1%Q in Hxh, Hyh.
  set (fx := Qfloor x) in *. set (fy := Qfloor y) in *.
  destruct (Z.eq_dec fx fy) as [Heq | Hne].
  - rewrite <- Heq in *.
    destruct (Qcompare_spec (x - inject_Z fx) (1 # 2));
      destruct (Qcompare_spec (y - inject_Z fx) (1 # 2));
      destruct (Z.even fx); try lia; exfalso; lra.
  - assert (Hlt : fx + 1 <= fy) by lia.
    destruct (Qcompare (x - inject_Z fx) (1 # 2));
      destruct (Qcompare (y - inject_Z fy) (1 # 2));
      destruct (Z.even fx); destruct (Z.even fy); lia.
Qed.

Section SampleFacts.

Variable E : env.


Lemma get_sensor_measurements_step (w : world) :
  get_sensor_measurements E w =
  match sensor_measurements E (count is_measure (trace w)) with
  | inl e => (Raise e, record (EvMeasure false) w)
  | inr (t, p) =>
      (Ret (round2 t, round2 p),
       record (reading_log (round2 t) (round2 p)) (record (EvMeasure true) w))
  end.
Proof.
  cbv beta iota zeta delta
    [get_sensor_measurements bind calls call_answer emit ret log].
  destruct (sensor_measurements E (count is_measure (trace w))) as [e | [t p]];
    reflexivity.
Qed.

Lemma process_data_step (w : world) :
  process_data E w =
  match sensor_measurements E (count is_measure (trace w)) with
  | inl e =>
      (Ret None,
       record (EvLog "ERROR" ("Error while processing sensor data: " ++ str_of_exn e))
         (record (EvMeasure false) w))
  | inr (t, p) =>
      (Ret (Some (format_data (PyFloat (round2 t)) (PyFloat (round2 p)))),
       record (reading_log (round2 t) (round2 p)) (record (EvMeasure true) w))
  end.
Proof.
  unfold process_data, try_except, bind at 1.
  rewrite get_sensor_measurements_step.
  destruct (sensor_measurements E (count is_measure (trace w))) as [e | [t p]];
    reflexivity.
Qed.

End SampleFacts.

(** C9.  When the sensor driver raises on a tick of the small-payload
    strategies, [process_data] catches the exception and returns [None];
    the timer callback then returns without publishing, having read the
    sensor once. *)
Theorem sensor_failure_skips_the_tick (E : env) (fuel : nat)
    (mqtt_client : MQTTClient) (w : world) (e : exn) :
  sensor_measurements E (count is_measure (trace w)) = inl e ->
  let w' :=
    record (EvLog "ERROR" ("Error while processing sensor data: " ++ str_of_exn e))
      (record (EvMeasure false) w) in
  process_data E w = (Ret None, w') /\
  payload_callback E fuel mqtt_client w = (Ret tt, w') /\
  count is_measure (trace w') = S (count is_measure (trace w)) /\
  count is_publish (trace w') = count is_publish (trace w).
Proof.
  intros Hfail w'.
  assert (Hp : process_data E w = (Ret None, w'))
    by (rewrite process_data_step, Hfail; reflexivity).
  split; [exact Hp | ]. split; [ | split; reflexivity].
  unfold payload_callback, bind. rewrite Hp. reflexivity.
Qed.



(** ** The batching strategy *)

Section BatchFacts.

Variable E : env.

Lemma large_callback_step (depth : nat) (mqtt_client : MQTTClient) (w : world) :
  large_callback E depth mqtt_client w =
  match sensor_measurements E (count is_measure (trace w)) with
  | inl e => (Raise e, record (EvMeasure false) w)
  | inr (t, p) =>
      let w1 :=
        record (reading_log (round2 t) (round2 p)) (record (EvMeasure true) w) in
      let w2 :=
        if truthy (round2 t) && truthy (round2 p)
        then snd (append_sample (round2 t) (round2 p) w1) else w1 in
      if 60 <=? Z.of_nat (length (temperature_data_buffer w2)) then
        (send_mqtt E depth mqtt_client (MQTT_TOPIC_DATA_COLLECTION E)
           (format_data (PyList (temperature_data_buffer w2))
                        (PyList (pressure_data_buffer w2))) ;;
         clear_buffers)%py w2
      else (Ret tt, w2)
  end.
Proof.
  unfold large_callback, bind at 1. rewrite get_sensor_measurements_step.
  destruct (sensor_measurements E (count is_measure (trace w))) as [e | [t p]];
    [reflexivity | ].
  cbv zeta.
  destruct (truthy (round2 t) && truthy (round2 p));
    unfold bind at 1 2; simpl;
    match goal with |- context [60 <=? ?n] => destruct (60 <=? n) end;
    reflexivity.
Qed.

(** A flush: the publish attempt, then both buffers cleared, unless
    [RuntimeError] leaves [send_mqtt]; the two [clear()] calls are then
    skipped. *)
Lemma flush_outcome (depth : nat) (mqtt_client : MQTTClient) (topic : string)
    (data : pydict) (w : world) (o : outcome unit) (w' : world) :
  (send_mqtt E depth mqtt_client topic data ;; clear_buffers)%py w = (o, w') ->
  (o = Ret tt /\ temperature_data_buffer w' = [] /\ pressure_data_buffer w' = [])
  \/ (o = Raise stack_overflow /\
      temperature_data_buffer w' = temperature_data_buffer w /\
      pressure_data_buffer w' = pressure_data_buffer w).
Proof.
  unfold bind.
  pose proof (send_mqtt_outcome E depth mqtt_client topic data w) as Hout.
  destruct (send_mqtt_frame E depth mqtt_client topic data w) as (_ & Ht & Hp).
  destruct (send_mqtt E depth mqtt_client topic data w) as [[[] | e | ] w1];
    simpl in *; intro Hrun.
  - left. injection Hrun as <- <-. repeat split.
  - right. destruct Hout as [Hout | Hout]; [discriminate Hout | ].
    injection Hout as ->. injection Hrun as <- <-. repeat split; assumption.
  - destruct Hout as [Hout | Hout]; discriminate Hout.
Qed.

(** A callback keeps the two buffers at the same length. *)
Lemma large_callback_lengths (depth : nat) (mqtt_client : MQTTClient)
    (w w' : world) (o : outcome unit) :
  large_callback E depth mqtt_client w = (o, w') ->
  length (temperature_data_buffer w) = length (pressure_data_buffer w) ->
  length (temperature_data_buffer w') = length (pressure_data_buffer w').
Proof.
  intros Hrun Heq. rewrite large_callback_step in Hrun.
  destruct (sensor_measurements E _) as [e | [t p]].
  - injection Hrun as <- <-. exact Heq.
  - cbv zeta in Hrun.
    set (w1 := record _ (record (EvMeasure true) w)) in Hrun.
    set (w2 := if truthy (round2 t) && truthy (round2 p)
               then snd (append_sample (round2 t) (round2 p) w1) else w1) in Hrun.
    assert (H2 : length (temperature_data_buffer w2)
                 = length (pressure_data_buffer w2)).
    { unfold w2. destruct (truthy (round2 t) && truthy (round2 p)); simpl.
      - rewrite !length_app. simpl. lia.
      - exact Heq. }
    destruct (60 <=? Z.of_nat (length (temperature_data_buffer w2))) eqn:Hfull.
    + apply flush_outcome in Hrun.
      destruct Hrun as [(_ & Ht & Hp) | (_ & Ht & Hp)]; rewrite Ht, Hp;
        [reflexivity | exact H2].
    + injection Hrun as <- <-. exact H2.
Qed.

Lemma observed_lengths (mqtt_client : MQTTClient) (w : world) :
  observed E mqtt_client w ->
  length (temperature_data_buffer w) = length (pressure_data_buffer w).
Proof.
  induction 1 as [w | depth w w' o _ IH Hrun | w _ IH].
  - reflexivity.
  - eapply large_callback_lengths; eassumption.
  - exact IH.
Qed.

Lemma observed_large_ticks (depth : nat) (mqtt_client : MQTTClient) (n : nat) :
  forall w,
    observed E mqtt_client w ->
    observed E mqtt_client (large_ticks E depth mqtt_client n w).
Proof.
  induction n as [ | n IH]; intros w Hobs; [exact Hobs | ].
  cbn [large_ticks]. apply IH.
  apply (observed_tick E mqtt_client depth w _
           (fst (large_callback E depth mqtt_client w)) Hobs).
  destruct (large_callback E depth mqtt_client w); reflexivity.
Qed.

(** A good reading, neither value rounding to zero: the pair is appended;
    when that makes 60 or more, the callback goes on to publish. *)
Lemma large_callback_good_reading (depth : nat) (mqtt_client : MQTTClient)
    (w : world) (t p : Q) :
  sensor_measurements E (count is_measure (trace w)) = inr (t, p) ->
  round2 t <> 0 -> round2 p <> 0 ->
  (59 <= length (temperature_data_buffer w))%nat ->
  let w2 :=
    snd (append_sample (round2 t) (round2 p)
           (record (reading_log (round2 t) (round2 p))
              (record (EvMeasure true) w))) in
  large_callback E depth mqtt_client w =
  (send_mqtt E depth mqtt_client (MQTT_TOPIC_DATA_COLLECTION E)
     (format_data (PyList (temperature_data_buffer w2))
                  (PyList (pressure_data_buffer w2))) ;;
   clear_buffers)%py w2.
Proof.
  intros Hread Ht Hp Hlen w2. rewrite large_callback_step, Hread. cbv zeta.
  assert (Htrue : (truthy (round2 t) && truthy (round2 p)) = true).
  { unfold truthy. apply andb_true_intro.
    split; apply negb_true_iff, Z.eqb_neq; assumption. }
  rewrite Htrue. fold w2.
  assert (Hfull : (60 <=? Z.of_nat (length (temperature_data_buffer w2))) = true).
  { apply Z.leb_le. unfold w2. simpl. rewrite length_app. simpl. lia. }
  rewrite Hfull. reflexivity.
Qed.

End BatchFacts.

(** C6 (what the code does).  Between two timer callbacks of the batching
    strategy the two buffers do have the same length.  But a flush does
    not always empty them, and their length can pass 60: when the 60th
    pair has been appended, the batch publish raises and the broker
    refuses every connection, [RuntimeError] leaves [reconnect_mqtt],
    [send_mqtt] and the callback before the two [clear()] calls.  A
    publish attempt was issued and both buffers still hold their 60
    values; the next good reading makes them 61. *)
Theorem failed_flush_keeps_the_batch (E : env) (depth : nat)
    (mqtt_client : MQTTClient) (w : world) (t p : Q) :
  observed E mqtt_client w ->
  length (temperature_data_buffer w) = 59%nat ->
  sensor_measurements E (count is_measure (trace w)) = inr (t, p) ->
  round2 t <> 0 -> round2 p <> 0 ->
  is_none (mqtt_publish E (count is_publish (trace w))) = false ->
  (forall k, is_none (mqtt_connect E k) = false) ->
  length (temperature_data_buffer w) = length (pressure_data_buffer w) /\
  exists w',
    large_callback E depth mqtt_client w = (Raise stack_overflow, w') /\
    observed E mqtt_client w' /\
    count is_publish (trace w') = S (count is_publish (trace w)) /\
    temperature_data_buffer w' = temperature_data_buffer w ++ [round2 t] /\
    pressure_data_buffer w' = pressure_data_buffer w ++ [round2 p] /\
    length (temperature_data_buffer w') = 60%nat /\
    length (pressure_data_buffer w') = 60%nat /\
    forall (depth' : nat) (t' p' : Q),
      sensor_measurements E (count is_measure (trace w')) = inr (t', p') ->
      round2 t' <> 0 -> round2 p' <> 0 ->
      is_none (mqtt_publish E (count is_publish (trace w'))) = false ->
      let w'' := snd (large_callback E depth' mqtt_client w') in
      fst (large_callback E depth' mqtt_client w') = Raise stack_overflow /\
      length (temperature_data_buffer w'') = 61%nat /\
      length (pressure_data_buffer w'') = 61%nat.
Proof.
  intros Hobs Hlen Hread Ht Hp Hpublish Hrefused.
  pose proof (observed_lengths E mqtt_client w Hobs) as Heq.
  split; [exact Heq | ].
  assert (Hdown : forall k, mqtt_connect E k <> None).
  { intros k Hk. specialize (Hrefused k). rewrite Hk in Hrefused.
    discriminate Hrefused. }
  assert (Hflush :
    forall depth0 w0 t0 p0,
      sensor_measurements E (count is_measure (trace w0)) = inr (t0, p0) ->
      round2 t0 <> 0 -> round2 p0 <> 0 ->
      (59 <= length (temperature_data_buffer w0))%nat ->
      is_none (mqtt_publish E (count is_publish (trace w0))) = false ->
      exists w1,
        large_callback E depth0 mqtt_client w0 = (Raise stack_overflow, w1) /\
        count is_publish (trace w1) = S (count is_publish (trace w0)) /\
        temperature_data_buffer w1 = temperature_data_buffer w0 ++ [round2 t0] /\
        pressure_data_buffer w1 = pressure_data_buffer w0 ++ [round2 p0]).
  { intros depth0 w0 t0 p0 Hread0 Ht0 Hp0 Hlen0 Hpublish0.
    rewrite (large_callback_good_reading E depth0 mqtt_client w0 t0 p0
               Hread0 Ht0 Hp0 Hlen0).
    cbv zeta. unfold bind. rewrite send_mqtt_step. cbv zeta.
    match goal with |- context [mqtt_publish E ?n] =>
      change n with (count is_publish (trace w0)) end.
    destruct (mqtt_publish E (count is_publish (trace w0))) as [e | ];
      [ | discriminate Hpublish0].
    match goal with |- context [reconnect_mqtt E depth0 mqtt_client ?w1] =>
      destruct (reconnect_mqtt_unreachable E mqtt_client Hdown depth0 w1)
        as (w' & Hrun & _ & _ & Hpub & Htb & Hpb)
    end.
    rewrite Hrun. exists w'. split; [reflexivity | ].
    rewrite Hpub, Htb, Hpb. cbn [trace record temperature_data_buffer
                                 pressure_data_buffer].
    rewrite !count_cons. cbn [is_publish Nat.add]. repeat split. }
  destruct (Hflush depth w t p Hread Ht Hp ltac:(lia) Hpublish)
    as (w' & Hrun & Hpub & Htb & Hpb).
  exists w'. split; [exact Hrun | ].
  split; [exact (observed_tick E mqtt_client depth w w' _ Hobs Hrun) | ].
  split; [exact Hpub | ]. split; [exact Htb | ]. split; [exact Hpb | ].
  assert (Hlen' : length (temperature_data_buffer w') = 60%nat)
    by (rewrite Htb, length_app; simpl; lia).
  assert (Hlenp' : length (pressure_data_buffer w') = 60%nat)
    by (rewrite Hpb, length_app; simpl; lia).
  split; [exact Hlen' | ]. split; [exact Hlenp' | ].
  intros depth' t' p' Hread' Ht' Hp' Hpublish' w''.
  destruct (Hflush depth' w' t' p' Hread' Ht' Hp' ltac:(lia) Hpublish')
    as (w2 & Hrun2 & _ & Htb2 & Hpb2).
  unfold w''. rewrite Hrun2. cbn [fst snd].
  split; [reflexivity | ].
  rewrite Htb2, Hpb2, !length_app, Hlen', Hlenp'. split; reflexivity.
Qed.

(** C5 (what the code does).  A reading that succeeded but whose rounded
    temperature or pressure is zero is not buffered: the callback returns
    with both buffers as they were. *)
Theorem zero_reading_is_not_buffered (E : env) (fuel : nat)
    (mqtt_client : MQTTClient) (w : world) (t p : Q) :
  sensor_measurements E (count is_measure (trace w)) = inr (t, p) ->
  round2 t = 0 \/ round2 p = 0 ->
  (length (temperature_data_buffer w) < 60)%nat ->
  exists w',
    large_callback E fuel mqtt_client w = (Ret tt, w') /\
    trace w' = reading_log (round2 t) (round2 p) :: EvMeasure true :: trace w /\
    temperature_data_buffer w' = temperature_data_buffer w /\
    pressure_data_buffer w' = pressure_data_buffer w.
Proof.
  intros Hread Hzero Hlen. rewrite large_callback_step, Hread. cbv zeta.
  assert (Hfalse : (truthy (round2 t) && truthy (round2 p)) = false).
  { unfold truthy. destruct Hzero as [-> | ->]; simpl;
      [reflexivity | apply andb_false_r]. }
  rewrite Hfalse.
  assert (Hnot : (60 <=? Z.of_nat (length (temperature_data_buffer w))) = false)
    by (apply Z.leb_gt; lia).
  simpl. rewrite Hnot. eexists. repeat split.
Qed.


Section CallbackFacts.

Variable E : env.

(** The only exception that leaves the batching callback, besides the
    driver's, is the [RuntimeError] of [reconnect_mqtt]. *)
Lemma large_callback_raises (depth : nat) (mqtt_client : MQTTClient)
    (w : world) (e : exn) :
  fst (large_callback E depth mqtt_client w) = Raise e ->
  sensor_measurements E (count is_measure (trace w)) = inl e
  \/ e = stack_overflow.
Proof.
  rewrite large_callback_step.
  destruct (sensor_measurements E _) as [e' | [t p]].
  - intro H. injection H as ->. left. reflexivity.
  - cbv zeta. intro Hraise. right.
    destruct (60 <=? Z.of_nat _); [ | discriminate Hraise].
    match type of Hraise with fst (?m ?w2) = _ =>
      destruct (m w2) as [o w'] eqn:Hrun
    end.
    apply flush_outcome in Hrun.
    destruct Hrun as [(-> & _) | (-> & _)]; simpl in Hraise;
      [discriminate Hraise | injection Hraise as <-; reflexivity].
Qed.

End CallbackFacts.

(** C10 (what the code does).  [send_mqtt] calls [publish] once and
    catches what that call raises; the payload is not published again.
    But its handler calls [reconnect_mqtt], and what leaves that call
    leaves [send_mqtt]: when the publish raises and the broker refuses
    every connection, [RuntimeError] reaches the caller after [depth]
    connection attempts, and the timer callback of the small-payload
    strategies raises it in turn.  No other exception leaves [send_mqtt]. *)
Theorem send_mqtt_raises_at_stack_limit (E : env) (depth : nat)
    (client : MQTTClient) (topic : string) (data : pydict) (w : world) :
  let r := send_mqtt E depth client topic data w in
  (fst r = Ret tt \/ fst r = Raise stack_overflow) /\
  count is_publish (trace (snd r)) = S (count is_publish (trace w)) /\
  (exists ok,
     filter is_publish (trace (snd r)) =
     EvPublish topic (dumps data) ok :: filter is_publish (trace w)) /\
  (is_none (mqtt_publish E (count is_publish (trace w))) = false ->
   (forall k, is_none (mqtt_connect E k) = false) ->
   fst r = Raise stack_overflow /\
   count is_mqtt_connect (trace (snd r)) =
     (count is_mqtt_connect (trace w) + depth)%nat /\
   forall (t p : Q),
     sensor_measurements E (count is_measure (trace w)) = inr (t, p) ->
     fst (payload_callback E depth client w) = Raise stack_overflow).
Proof.
  cbv zeta. split; [apply send_mqtt_outcome | ].
  split; [apply (send_mqtt_frame E depth client topic data w) | ].
  split.
  { rewrite send_mqtt_step. cbv zeta.
    destruct (mqtt_publish E (count is_publish (trace w))).
    - exists false. rewrite reconnect_mqtt_publishes_nothing. reflexivity.
    - exists true. reflexivity. }
  intros Hpublish Hrefused.
  assert (Hdown : forall k, mqtt_connect E k <> None).
  { intros k Hk. specialize (Hrefused k). rewrite Hk in Hrefused.
    discriminate Hrefused. }
  assert (Hsend :
    forall topic0 data0 w0,
      trace w0 = trace w \/
      (exists a b, trace w0 = EvLog "INFO" a :: EvMeasure b :: trace w) ->
      fst (send_mqtt E depth client topic0 data0 w0) = Raise stack_overflow /\
      count is_mqtt_connect (trace (snd (send_mqtt E depth client topic0 data0 w0)))
      = (count is_mqtt_connect (trace w) + depth)%nat).
  { intros topic0 data0 w0 Htrace. rewrite send_mqtt_step. cbv zeta.
    assert (Hcp : count is_publish (trace w0) = count is_publish (trace w))
      by (destruct Htrace as [-> | (a & b & ->)]; reflexivity).
    assert (Hcc : count is_mqtt_connect (trace w0) = count is_mqtt_connect (trace w))
      by (destruct Htrace as [-> | (a & b & ->)]; reflexivity).
    rewrite Hcp.
    destruct (mqtt_publish E (count is_publish (trace w))) as [e | ];
      [ | discriminate Hpublish].
    match goal with |- context [reconnect_mqtt E depth client ?w1] =>
      destruct (reconnect_mqtt_unreachable E client Hdown depth w1)
        as (w' & Hrun & _ & Hcount & _)
    end.
    rewrite Hrun. split; [reflexivity | ].
    cbn [snd]. rewrite Hcount. cbn [trace record]. rewrite !count_cons.
    cbn [is_mqtt_connect Nat.add]. rewrite Hcc. reflexivity. }
  destruct (Hsend topic data w (or_introl eq_refl)) as [Hraise Hcount].
  split; [exact Hraise | ]. split; [exact Hcount | ].
  intros t p Hread.
  unfold payload_callback, bind. rewrite process_data_step, Hread.
  apply Hsend. right. do 2 eexists. reflexivity.
Qed.

(** ** The configuration server *)

Section ServerFacts.

Variable E : env.

(** [connect_wifi] always returns; it issues one join request, with the
    credentials it was given, and touches neither the listening socket
    nor the client connection. *)
Lemma connect_wifi_frame (ssid password : string) (w : world) :
  exists b w',
    connect_wifi E ssid password w = (Ret b, w') /\
    In (EvWlanConnect ssid password) (trace w') /\
    count is_join (trace w') = S (count is_join (trace w)) /\
    count is_accept (trace w') = count is_accept (trace w) /\
    count is_send (trace w') = count is_send (trace w).
Proof.
  cbv beta iota zeta delta
    [connect_wifi while bind wlan_isconnected calls emit ret log sleep].
  repeat match goal with
         | |- context [wlan_status E ?k] => destruct (wlan_status E k); simpl
         end;
    (do 2 eexists; split; [reflexivity | ]);
    (split; [simpl; repeat (first [left; reflexivity | right]) | ]);
    repeat split.
Qed.

(** A POST request is always acted upon: the join is requested with
    whatever [parse_form] cut out of the text. *)
Lemma handle_post_joins (request_str : string) (w : world) :
  exists o w',
    handle_post E request_str w = (o, w') /\
    o <> Diverge /\
    In (EvWlanConnect (fst (parse_form request_str)) (snd (parse_form request_str)))
       (trace w') /\
    count is_join (trace w') = S (count is_join (trace w)) /\
    count is_accept (trace w') = count is_accept (trace w).
Proof.
  unfold handle_post. destruct (parse_form request_str) as [ssid pw]. simpl fst; simpl snd.
  unfold bind at 1. unfold log at 1, emit at 1.
  set (w0 := record _ w).
  destruct (connect_wifi_frame ssid pw w0) as (b & w1 & Hrun & Hin & Hjoin & Hacc & _).
  unfold bind at 1. rewrite Hrun.
  cbv beta iota zeta delta [bind cl_send calls call emit ret].
  destruct b;
    repeat match goal with
           | |- context [sock_send E ?k] => destruct (sock_send E k)
           end;
    (do 2 eexists; split; [reflexivity | ]);
    (split; [discriminate | ]);
    (split; [simpl; auto | ]);
    unfold count in *; simpl; rewrite ?Hjoin, ?Hacc; split; reflexivity.
Qed.

Lemma serve_loop_step (fuel : nat) (w : world) :
  serve_loop E (S fuel) w =
  let w0 := record (EvLog "INFO" ("Client connected from " ++ sock_peer E))
              (record (EvAccept true) w) in
  match sock_incoming E (count is_accept (trace w)) with
  | AcceptFails e => (Raise e, record (EvAccept false) w)
  | RecvFails e => (Raise e, record (EvRecv false) w0)
  | Request data =>
      let request_str := PyStr.str_of_bytes (firstn 1024 data) in
      if PyStr.contains "POST" request_str
      then handle_post E request_str (record (EvRecv true) w0)
      else serve_loop E fuel (record (EvRecv true) w0)
  end.
Proof.
  cbn [serve_loop]. unfold bind at 1, accept_recv, bind at 1, calls.
  destruct (sock_incoming E (count is_accept (trace w))) as [e | e | data];
    [reflexivity | reflexivity | ].
  cbv beta iota zeta delta [bind emit log ret].
  destruct (PyStr.contains "POST" (PyStr.str_of_bytes (firstn 1024 data)));
    reflexivity.
Qed.

(** The loop skips every request without [POST] in its text and stops at
    the first one that has it. *)
Lemma serve_loop_first_post (k : nat) :
  forall (fuel : nat) (w : world) (data : list byte),
    (forall i, (i < k)%nat ->
       exists d,
         sock_incoming E (count is_accept (trace w) + i) = Request d /\
         PyStr.contains "POST" (PyStr.str_of_bytes (firstn 1024 d)) = false) ->
    sock_incoming E (count is_accept (trace w) + k) = Request data ->
    PyStr.contains "POST" (PyStr.str_of_bytes (firstn 1024 data)) = true ->
    (k < fuel)%nat ->
    exists o w',
      serve_loop E fuel w = (o, w') /\
      o <> Diverge /\
      In (EvWlanConnect
            (fst (parse_form (PyStr.str_of_bytes (firstn 1024 data))))
            (snd (parse_form (PyStr.str_of_bytes (firstn 1024 data)))))
         (trace w') /\
      count is_accept (trace w') = (count is_accept (trace w) + k + 1)%nat /\
      count is_join (trace w') = S (count is_join (trace w)).
Proof.
  induction k as [ | k IH]; intros fuel w data Hskip Hpost Hcontains Hfuel;
    (destruct fuel as [ | fuel]; [lia | ]);
    rewrite serve_loop_step; cbv zeta.
  - rewrite Nat.add_0_r in Hpost. rewrite Hpost, Hcontains.
    match goal with |- context [handle_post E ?s ?w0] =>
      destruct (handle_post_joins s w0) as (o & w' & Hrun & Ho & Hin & Hjoin & Hacc)
    end.
    exists o, w'. rewrite Hrun. repeat split; try assumption.
    rewrite Hacc. unfold count. simpl. lia.
  - destruct (Hskip 0%nat ltac:(lia)) as (d & Hd & Hno).
    rewrite Nat.add_0_r in Hd. rewrite Hd, Hno.
    match goal with |- context [serve_loop E fuel ?w0] =>
      destruct (IH fuel w0 data) as (o & w' & Hrun & Ho & Hin & Hacc & Hjoin)
    end.
    + intros i Hi. destruct (Hskip (S i) ltac:(lia)) as (d' & Hd' & Hno').
      exists d'. split; [ | exact Hno'].
      rewrite <- Hd'. f_equal. unfold count. simpl. lia.
    + rewrite <- Hpost. f_equal. unfold count. simpl. lia.
    + exact Hcontains.
    + lia.
    + exists o, w'. rewrite Hrun. repeat split; try assumption.
      rewrite Hacc. unfold count. simpl. lia.
Qed.

(** The same for [serve_web], which also swallows what [cl.send] may
    raise. *)
Lemma serve_web_first_post (k fuel : nat) (w : world) (addr : string)
    (data : list byte) :
  sock_listen E = inr addr ->
  (forall i, (i < k)%nat ->
     exists d,
       sock_incoming E (count is_accept (trace w) + i) = Request d /\
       PyStr.contains "POST" (PyStr.str_of_bytes (firstn 1024 d)) = false) ->
  sock_incoming E (count is_accept (trace w) + k) = Request data ->
  PyStr.contains "POST" (PyStr.str_of_bytes (firstn 1024 data)) = true ->
  (k < fuel)%nat ->
  exists w',
    serve_web E fuel w = (Ret tt, w') /\
    In (EvWlanConnect
          (fst (parse_form (PyStr.str_of_bytes (firstn 1024 data))))
          (snd (parse_form (PyStr.str_of_bytes (firstn 1024 data)))))
       (trace w') /\
    count is_accept (trace w') = (count is_accept (trace w) + k + 1)%nat /\
    count is_join (trace w') = S (count is_join (trace w)).
Proof.
  intros Hlisten Hskip Hpost Hcontains Hfuel.
  cbv beta iota zeta delta [serve_web try_except bind call_answer log emit].
  rewrite Hlisten.
  set (w0 := record (EvLog "INFO" ("Listening on " ++ addr))
              (record (EvListen true) w)).
  destruct (serve_loop_first_post k fuel w0 data)
    as (o & w' & Hrun & Ho & Hin & Hacc & Hjoin);
    [exact Hskip | exact Hpost | exact Hcontains | exact Hfuel | ].
  rewrite Hrun.
  destruct o as [[] | e | ]; [ | | contradiction].
  - exists w'. repeat split; assumption.
  - eexists. split; [reflexivity | ].
    cbn [trace record]. rewrite !count_cons. cbn [is_accept is_join].
    split; [right; exact Hin | split; [exact Hacc | exact Hjoin]].
Qed.

End ServerFacts.


(** C4 (as the code has it).  [serve_web] accepts one connection after
    the other, reading one request from each, until a request has [POST]
    in its text: the [k] requests before it are skipped, their
    connections left open.  That one request is handled, with one join
    request, and the server returns, whether the join worked or not and
    whether the reply could be sent or not; no connection is accepted
    after it. *)
Theorem serve_web_stops_at_first_post (E : env) (k fuel : nat) (w : world)
    (addr : string) (data : list byte) :
  sock_listen E = inr addr ->
  (forall i, (i < k)%nat ->
     exists d,
       sock_incoming E (count is_accept (trace w) + i) = Request d /\
       PyStr.contains "POST" (PyStr.str_of_bytes (firstn 1024 d)) = false) ->
  sock_incoming E (count is_accept (trace w) + k) = Request data ->
  PyStr.contains "POST" (PyStr.str_of_bytes (firstn 1024 data)) = true ->
  (k < fuel)%nat ->
  exists w',
    serve_web E fuel w = (Ret tt, w') /\
    count is_accept (trace w') = (count is_accept (trace w) + k + 1)%nat /\
    count is_join (trace w') = S (count is_join (trace w)).
Proof.
  intros Hlisten Hskip Hpost Hcontains Hfuel.
  destruct (serve_web_first_post E k fuel w addr data Hlisten Hskip Hpost
              Hcontains Hfuel) as (w' & Hrun & _ & Hacc & Hjoin).
  exists w'. repeat split; assumption.
Qed.

(** C3 (as the code has it).  A POST request whose text lacks
    [password=] (or [ssid=]) does not make [serve_web] raise, and it is
    not rejected: [find] answers [-1], so the password is cut from
    position 8 (the SSID from position 4), and the join is requested with
    the two pieces of text cut out this way. *)
Theorem post_without_marker_is_not_rejected (E : env) (fuel : nat) (w : world)
    (addr : string) (data : list byte) :
  let request_str := PyStr.str_of_bytes (firstn 1024 data) in
  sock_listen E = inr addr ->
  sock_incoming E (count is_accept (trace w)) = Request data ->
  PyStr.contains "POST" request_str = true ->
  PyStr.find request_str "password=" 0 = -1
  \/ PyStr.find request_str "ssid=" 0 = -1 ->
  (exists w',
     serve_web E (S fuel) w = (Ret tt, w') /\
     In (EvWlanConnect (fst (parse_form request_str))
                       (snd (parse_form request_str)))
        (trace w')) /\
  (PyStr.find request_str "password=" 0 = -1 ->
   snd (parse_form request_str) =
   PyStr.slice request_str 8 (PyStr.find request_str " HTTP" 8)) /\
  (PyStr.find request_str "ssid=" 0 = -1 ->
   fst (parse_form request_str) =
   PyStr.slice request_str 4 (PyStr.find request_str "&" 4)).
Proof.
  intros request_str Hlisten Hpost Hcontains _. split; [ | split].
  - destruct (serve_web_first_post E 0 (S fuel) w addr data Hlisten)
      as (w' & Hrun & Hin & _).
    + intros i Hi. lia.
    + rewrite Nat.add_0_r. exact Hpost.
    + exact Hcontains.
    + lia.
    + exists w'. split; assumption.
  - intro Hmissing. unfold parse_form. rewrite Hmissing. reflexivity.
  - intro Hmissing. unfold parse_form. rewrite Hmissing. reflexivity.
Qed.

(** ** Checks on concrete inputs *)

(** The example of the specification: both fields are found. *)
Example parse_form_complete :
  parse_form (PyStr.str_of_bytes post_complete) = ("MyNet", "secret").
Proof. vm_compute. reflexivity. Qed.

(** C3, counterexample.  The request [post_without_password] has [POST]
    and no [password=]; the server does not reject it but requests a join
    with SSID [MyNet] and an empty password. *)
Lemma post_without_password_is_joined :
  PyStr.find (PyStr.str_of_bytes post_without_password) "password=" 0 = -1 /\
  In (EvWlanConnect "MyNet" EmptyString)
     (history (snd (serve_web captive 1 initial))).
Proof. split; [vm_compute; reflexivity | ]. vm_compute. auto 20. Qed.

(** C4, counterexample.  A page request followed by a submission: the
    server accepts two connections and reads two requests. *)
Lemma serve_web_accepts_again_after_get :
  fst (serve_web browser 2 initial) = Ret tt /\
  count is_accept (trace (snd (serve_web browser 2 initial))) = 2%nat /\
  filter is_accept (history (snd (serve_web browser 2 initial)))
  = [EvAccept true; EvAccept true].
Proof. vm_compute. repeat split. Qed.

(** The two keys of the payloads and their slots: [temperature] hashes
    to an odd number, [pressure] to an even one. *)
Example payload_key_hashes :
  MicroPython.qstr_hash "temperature" = 57065 /\
  MicroPython.qstr_hash "pressure" = 24000 /\
  MicroPython.items (format_data (PyFloat 2146) (PyFloat 101326))
  = [("pressure", PyFloat 101326); ("temperature", PyFloat 2146)].
Proof. vm_compute. repeat split. Qed.


(** A publish that fails while the broker still accepts connections:
    one publish, one reconnection, and [send_mqtt] returns. *)
Example failed_publish_is_not_repeated :
  let r := send_mqtt publish_fails 1 pico "weather/small"
             (format_data (PyFloat 2146) (PyFloat 101326)) initial in
  fst r = Ret tt /\
  filter (fun e => is_publish e || is_mqtt_connect e) (history (snd r))
  = [EvPublish "weather/small" small_payload_pressure_first false;
     EvMqttConnect true].
Proof. vm_compute. split; reflexivity. Qed.

(** Sixty good readings: one publish, of the sixty pairs, then empty
    buffers. *)
Example sixty_ticks_one_batch :
  let w := large_ticks steady 1 pico 60 (snd (infrequent_large_payload pico initial)) in
  count is_publish (trace w) = 1%nat /\
  In (EvPublish "weather/batch"
        (dumps (format_data (PyList (repeat 2146 60)) (PyList (repeat 101326 60))))
        true) (trace w) /\
  temperature_data_buffer w = [] /\ pressure_data_buffer w = [].
Proof. vm_compute. repeat split. auto. Qed.

(** ** The statements at concrete inputs *)

Lemma connect_wifi_five_attempts_then_fallback_witness :
  (forall k, wlan_status no_network k = false) /\
  exists w',
    connect_wifi no_network "home" "secret" initial = (Ret false, w') /\
    history w' = history initial ++ wifi_failure "home" "secret" /\
    count is_join (wifi_failure "home" "secret") = 1%nat /\
    count is_poll (wifi_failure "home" "secret") = 7%nat /\
    count is_sleep (wifi_failure "home" "secret") = 5%nat /\
    (forall e, In e (wifi_failure "home" "secret") ->
               is_sleep e = true -> e = EvSleep 1) /\
    main no_network 3 initial =
      (log "INFO" "Failed to connect to the known Wi-Fi. Starting Access Point..." ;;
       create_ap no_network ;;
       serve_web no_network 3)%py w'.
Proof.
  split; [intro k; reflexivity | ].
  apply (connect_wifi_five_attempts_then_fallback no_network 3 initial).
  intro k; reflexivity.
Defined.

Lemma connect_mqtt_returns_unconnected_client_witness :
  mqtt_new broker_down 0 = None /\
  mqtt_connect broker_down 0 = Some refused /\
  exists client w',
    connect_mqtt broker_down initial = (Ret client, w') /\
    session_view (history w') = [EvMqttConnect false; EvSleep 5].
Proof.
  split; [reflexivity | ]. split; [reflexivity | ].
  apply (connect_mqtt_returns_unconnected_client broker_down initial refused);
    reflexivity.
Defined.

Lemma reconnect_mqtt_gives_up_at_stack_limit_witness :
  (forall k, is_none (mqtt_connect broker_down k) = false) /\
  exists w',
    reconnect_mqtt broker_down 6 pico initial = (Raise stack_overflow, w') /\
    count is_mqtt_connect (trace w') = 6%nat /\
    session_view (history w') =
      concat (repeat [EvMqttConnect false; EvSleep 5] 6).
Proof.
  split; [intro k; reflexivity | ].
  apply (reconnect_mqtt_gives_up_at_stack_limit broker_down pico
           (fun k => eq_refl) 6 initial).
Defined.

Lemma post_without_marker_is_not_rejected_witness :
  sock_listen captive = inr "0.0.0.0:80" /\
  sock_incoming captive 0 = Request post_without_password /\
  PyStr.contains "POST" (PyStr.str_of_bytes (firstn 1024 post_without_password))
    = true /\
  PyStr.find (PyStr.str_of_bytes (firstn 1024 post_without_password)) "password=" 0
    = -1 /\
  exists w',
    serve_web captive 1 initial = (Ret tt, w') /\
    In (EvWlanConnect
          (fst (parse_form (PyStr.str_of_bytes (firstn 1024 post_without_password))))
          (snd (parse_form (PyStr.str_of_bytes (firstn 1024 post_without_password)))))
       (trace w').
Proof.
  split; [reflexivity | ]. split; [reflexivity | ].
  split; [vm_compute; reflexivity | ]. split; [vm_compute; reflexivity | ].
  apply (post_without_marker_is_not_rejected captive 0 initial "0.0.0.0:80"
           post_without_password);
    [reflexivity | reflexivity | vm_compute; reflexivity
    | left; vm_compute; reflexivity].
Defined.

Lemma serve_web_stops_at_first_post_witness :
  sock_incoming browser 0 = Request get_page /\
  sock_incoming browser 1 = Request post_complete /\
  exists w',
    serve_web browser 2 initial = (Ret tt, w') /\
    count is_accept (trace w') = 2%nat /\
    count is_join (trace w') = 1%nat.
Proof.
  split; [reflexivity | ]. split; [reflexivity | ].
  apply (serve_web_stops_at_first_post browser 1 2 initial "0.0.0.0:80"
           post_complete).
  - reflexivity.
  - intros i Hi. exists get_page.
    destruct i as [ | i]; [ | lia].
    split; [reflexivity | vm_compute; reflexivity].
  - reflexivity.
  - vm_compute; reflexivity.
  - lia.
Defined.

Lemma zero_reading_is_not_buffered_witness :
  sensor_measurements freezing 0 = inr (0 # 1, 101325 # 100) /\
  round2 (0 # 1) = 0 /\
  exists w',
    large_callback freezing 1 pico initial = (Ret tt, w') /\
    trace w' = [reading_log 0 101325; EvMeasure true] /\
    temperature_data_buffer w' = [] /\
    pressure_data_buffer w' = [].
Proof.
  split; [reflexivity | ]. split; [reflexivity | ].
  apply (zero_reading_is_not_buffered freezing 1 pico initial (0 # 1) (101325 # 100));
    [reflexivity | left; reflexivity | simpl; lia].
Defined.

Lemma failed_flush_keeps_the_batch_witness :
  let w := large_ticks outage 6 pico 59 (snd (infrequent_large_payload pico initial)) in
  length (temperature_data_buffer w) = 59%nat /\
  count is_publish (trace w) = 0%nat /\
  exists w',
    large_callback outage 6 pico w = (Raise stack_overflow, w') /\
    count is_publish (trace w') = 1%nat /\
    length (temperature_data_buffer w') = 60%nat /\
    length (pressure_data_buffer w') = 60%nat /\
    length (temperature_data_buffer (snd (large_callback outage 6 pico w'))) = 61%nat.
Proof.
  cbv zeta.
  assert (Hlen : length (temperature_data_buffer
                   (large_ticks outage 6 pico 59
                      (snd (infrequent_large_payload pico initial)))) = 59%nat)
    by (vm_compute; reflexivity).
  assert (Hnone : count is_publish
                    (trace (large_ticks outage 6 pico 59
                              (snd (infrequent_large_payload pico initial)))) = 0%nat)
    by (vm_compute; reflexivity).
  assert (Ht : round2 (21456 # 1000) <> 0) by (vm_compute; discriminate).
  assert (Hp : round2 (1013256 # 1000) <> 0) by (vm_compute; discriminate).
  split; [exact Hlen | ]. split; [exact Hnone | ].
  destruct (failed_flush_keeps_the_batch outage 6 pico
              (large_ticks outage 6 pico 59
                 (snd (infrequent_large_payload pico initial)))
              (21456 # 1000) (1013256 # 1000)
              (observed_large_ticks outage 6 pico 59 _
                 (observed_start outage pico initial))
              Hlen eq_refl Ht Hp eq_refl (fun k => eq_refl))
    as [_ (w' & Hrun & _ & Hpub & _ & _ & Hlen' & Hlenp' & Hnext)].
  exists w'. split; [exact Hrun | ].
  split; [rewrite Hpub, Hnone; reflexivity | ].
  split; [exact Hlen' | ]. split; [exact Hlenp' | ].
  destruct (Hnext 6%nat (21456 # 1000) (1013256 # 1000) eq_refl Ht Hp eq_refl)
    as (_ & Hlen'' & _).
  exact Hlen''.
Defined.


Lemma sensor_failure_skips_the_tick_witness :
  sensor_measurements sensor_broken 0 = inl (Exception "OSError" "EIO") /\
  process_data sensor_broken initial =
    (Ret None,
     record (EvLog "ERROR" "Error while processing sensor data: EIO")
       (record (EvMeasure false) initial)) /\
  payload_callback sensor_broken 1 pico initial =
    (Ret tt,
     record (EvLog "ERROR" "Error while processing sensor data: EIO")
       (record (EvMeasure false) initial)).
Proof.
  split; [reflexivity | ].
  destruct (sensor_failure_skips_the_tick sensor_broken 1 pico initial
              (Exception "OSError" "EIO") eq_refl) as (Hprocess & Hcallback & _).
  split; [exact Hprocess | exact Hcallback].
Defined.

Lemma send_mqtt_raises_at_stack_limit_witness :
  mqtt_publish outage 0 = Some refused /\
  (forall k, mqtt_connect outage k = Some refused) /\
  fst (send_mqtt outage 6 pico "weather/small"
         (format_data (PyFloat 2146) (PyFloat 101326)) initial)
    = Raise stack_overflow /\
  fst (payload_callback outage 6 pico initial) = Raise stack_overflow.
Proof.
  split; [reflexivity | ]. split; [intro k; reflexivity | ].
  destruct (send_mqtt_raises_at_stack_limit outage 6 pico "weather/small"
              (format_data (PyFloat 2146) (PyFloat 101326)) initial)
    as (_ & _ & _ & Hdown).
  destruct (Hdown eq_refl (fun k => eq_refl)) as (Hraise & _ & Hcallback).
  split; [exact Hraise | ].
  exact (Hcallback (21456 # 1000) (1013256 # 1000) eq_refl).
Defined.

(** * Further properties of the code *)

(** ** Wi-Fi acquisition, in general *)

(** X1.  Whatever the network does, [connect_wifi] returns: it requests
    the join once, sleeps at most 5 times, 1 second each, polls the
    status at least twice and at most 7 times, and its result is the
    answer of its last poll. *)
Theorem connect_wifi_bounded (E : env) (ssid password : string) (w : world) :
  exists b w',
    connect_wifi E ssid password w = (Ret b, w') /\
    count is_join (trace w') = S (count is_join (trace w)) /\
    (exists n, (n <= 5)%nat /\
       filter is_sleep (trace w') = repeat (EvSleep 1) n ++ filter is_sleep (trace w)) /\
    (exists m, (1 <= m <= 6)%nat /\
       count is_poll (trace w') = (S m + count is_poll (trace w))%nat /\
       b = wlan_status E (m + count is_poll (trace w))).
Proof.
  cbv beta iota zeta delta
    [connect_wifi while bind wlan_isconnected calls emit ret log sleep].
  unfold count.
  repeat match goal with
         | |- context [wlan_status E ?k] =>
             let H := fresh "Hpoll" in destruct (wlan_status E k) eqn:H; simpl
         end;
    (do 2 eexists; split; [reflexivity | ]);
    (split; [reflexivity | ]);
    simpl in *;
    (split;
     [ first [ exists 0%nat; split; [lia | reflexivity]
             | exists 1%nat; split; [lia | reflexivity]
             | exists 2%nat; split; [lia | reflexivity]
             | exists 3%nat; split; [lia | reflexivity]
             | exists 4%nat; split; [lia | reflexivity]
             | exists 5%nat; split; [lia | reflexivity] ]
     | first [ exists 1%nat; split; [lia | split; [reflexivity | simpl; congruence]]
             | exists 2%nat; split; [lia | split; [reflexivity | simpl; congruence]]
             | exists 3%nat; split; [lia | split; [reflexivity | simpl; congruence]]
             | exists 4%nat; split; [lia | split; [reflexivity | simpl; congruence]]
             | exists 5%nat; split; [lia | split; [reflexivity | simpl; congruence]]
             | exists 6%nat; split; [lia | split; [reflexivity | simpl; congruence]] ] ]).
Qed.

(** X2.  The rounds of [connect_wifi], exactly: when the first [j] polls
    answer "not joined" and either the next one answers "joined" or the 5
    rounds are used up, the function sleeps [j] times and returns what
    one more poll answers.  So a join seen by the loop counts only if the
    following poll confirms it, and a join that comes after the fifth
    round is still reported as success. *)
Theorem connect_wifi_rounds (E : env) (ssid password : string) (w : world)
    (j : nat) :
  (j <= 5)%nat ->
  (forall i, (i < j)%nat -> wlan_status E (i + count is_poll (trace w)) = false) ->
  j = 5%nat \/ wlan_status E (j + count is_poll (trace w)) = true ->
  exists w',
    connect_wifi E ssid password w =
      (Ret (wlan_status E (S j + count is_poll (trace w))), w') /\
    filter is_sleep (trace w') = repeat (EvSleep 1) j ++ filter is_sleep (trace w) /\
    count is_poll (trace w') = (S (S j) + count is_poll (trace w))%nat.
Proof.
  intros Hj Hfalse Hlast.
  assert (H0 := Hfalse 0%nat). assert (H1 := Hfalse 1%nat).
  assert (H2 := Hfalse 2%nat). assert (H3 := Hfalse 3%nat).
  assert (H4 := Hfalse 4%nat). clear Hfalse.
  cbv beta iota zeta delta
    [connect_wifi while bind wlan_isconnected calls emit ret log sleep].
  unfold count in *. simpl in H0, H1, H2, H3, H4.
  destruct j as [ | [ | [ | [ | [ | [ | j]]]]]]; [ | | | | | | exfalso; lia];
    (destruct Hlast as [Hlast | Hlast]; [try discriminate Hlast | ]);
    simpl in Hlast;
    first [specialize (H0 ltac:(lia)) | clear H0];
    first [specialize (H1 ltac:(lia)) | clear H1];
    first [specialize (H2 ltac:(lia)) | clear H2];
    first [specialize (H3 ltac:(lia)) | clear H3];
    first [specialize (H4 ltac:(lia)) | clear H4];
    repeat (simpl;
            match goal with
            | H : wlan_status E _ = _ |- _ => rewrite H
            end);
    simpl;
    repeat match goal with
           | |- context [wlan_status E ?k] =>
               destruct (wlan_status E k) eqn:?; simpl
           end;
    (eexists; split; [reflexivity | split; reflexivity]).
Qed.

(** ** Which collaborators a computation calls *)

Section Footprint.

Variable allowed : event -> bool.

Lemma footprint_ret {A} (a : A) : footprint allowed (ret a).
Proof. intro w. exists []. split; reflexivity. Qed.

Lemma footprint_raise {A} (e : exn) : footprint allowed (@raise A e).
Proof. intro w. exists []. split; reflexivity. Qed.

Lemma footprint_diverge {A} : footprint allowed (@diverge A).
Proof. intro w. exists []. split; reflexivity. Qed.

Lemma footprint_calls (p : event -> bool) : footprint allowed (calls p).
Proof. intro w. exists []. split; reflexivity. Qed.

Lemma footprint_emit (e : event) :
  allowed e = true -> footprint allowed (emit e).
Proof. intros He w. exists [e]. simpl. rewrite He. split; reflexivity. Qed.

Lemma footprint_call (ev : bool -> event) (r : option exn) :
  (forall b, allowed (ev b) = true) -> footprint allowed (call ev r).
Proof.
  intros He w. unfold call.
  destruct r; eexists [_]; simpl; rewrite He; split; reflexivity.
Qed.

Lemma footprint_call_answer {A} (ev : bool -> event) (r : answer A) :
  (forall b, allowed (ev b) = true) -> footprint allowed (call_answer ev r).
Proof.
  intros He w. unfold call_answer.
  destruct r; eexists [_]; simpl; rewrite He; split; reflexivity.
Qed.

Lemma footprint_bind {A B} (m : M A) (k : A -> M B) :
  footprint allowed m -> (forall a, footprint allowed (k a)) ->
  footprint allowed (bind m k).
Proof.
  intros Hm Hk w. unfold bind. destruct (Hm w) as (t1 & Ht1 & Hall1).
  destruct (m w) as [[a | e | ] w1]; simpl in Ht1.
  - destruct (Hk a w1) as (t2 & Ht2 & Hall2).
    exists (t2 ++ t1). rewrite Ht2, Ht1, app_assoc, forallb_app, Hall1, Hall2.
    split; reflexivity.
  - exists t1. split; assumption.
  - exists t1. split; assumption.
Qed.

Lemma footprint_try_except {A} (body : M A) (handler : exn -> M A) :
  footprint allowed body -> (forall e, footprint allowed (handler e)) ->
  footprint allowed (try_except body handler).
Proof.
  intros Hb Hh w. unfold try_except. destruct (Hb w) as (t1 & Ht1 & Hall1).
  destruct (body w) as [[a | e | ] w1]; simpl in Ht1.
  - exists t1. split; assumption.
  - destruct (Hh e w1) as (t2 & Ht2 & Hall2).
    exists (t2 ++ t1). rewrite Ht2, Ht1, app_assoc, forallb_app, Hall1, Hall2.
    split; reflexivity.
  - exists t1. split; assumption.
Qed.

Lemma footprint_while {S} (cond : S -> M bool) (body : S -> M S) :
  (forall s, footprint allowed (cond s)) ->
  (forall s, footprint allowed (body s)) ->
  forall fuel s, footprint allowed (while fuel cond body s).
Proof.
  intros Hc Hb. induction fuel as [ | fuel IH]; intro s; simpl.
  - apply footprint_diverge.
  - apply footprint_bind; [apply Hc | ]. intros [ | ].
    + apply footprint_bind; [apply Hb | apply IH].
    + apply footprint_ret.
Qed.

End Footprint.

Ltac footprint_auto :=
  repeat first
    [ apply footprint_try_except; intros
    | apply footprint_bind; intros
    | apply footprint_while; intros
    | apply footprint_ret | apply footprint_raise | apply footprint_diverge
    | apply footprint_calls
    | apply footprint_emit; reflexivity
    | apply footprint_call; intros; reflexivity
    | apply footprint_call_answer; intros; reflexivity
    | match goal with
      | |- footprint _ (if ?b then _ else _) => destruct b
      | |- footprint _ (match ?x with _ => _ end) => destruct x
      | |- footprint _ (log _ _) => apply footprint_emit; reflexivity
      | |- footprint _ (sleep _) => apply footprint_emit; reflexivity
      end ].

Section FootprintFacts.

Variable E : env.

Lemma connect_wifi_footprint (ssid password : string) :
  footprint fallback_event (connect_wifi E ssid password).
Proof. unfold connect_wifi, wlan_isconnected. footprint_auto. Qed.

Lemma create_ap_footprint : footprint fallback_event (create_ap E).
Proof. unfold create_ap. footprint_auto. Qed.

Lemma serve_loop_footprint (fuel : nat) :
  footprint fallback_event (serve_loop E fuel).
Proof.
  induction fuel as [ | fuel IH]; simpl; [apply footprint_diverge | ].
  apply footprint_bind; [unfold accept_recv; footprint_auto | ].
  intro request. destruct (PyStr.contains _ _); [ | exact IH].
  unfold handle_post. destruct (parse_form _) as [ssid pw].
  apply footprint_bind; [footprint_auto | intros _].
  apply footprint_bind; [apply connect_wifi_footprint | intros joined].
  unfold cl_send. footprint_auto.
Qed.

Lemma serve_web_footprint (fuel : nat) :
  footprint fallback_event (serve_web E fuel).
Proof.
  unfold serve_web. apply footprint_try_except; [ | intros; footprint_auto].
  apply footprint_bind; [footprint_auto | intros addr].
  apply footprint_bind; [footprint_auto | intros _].
  apply serve_loop_footprint.
Qed.

Lemma reconnect_mqtt_footprint (depth : nat) (client : MQTTClient) :
  footprint tick_event (reconnect_mqtt E depth client).
Proof.
  induction depth as [ | depth IH]; simpl; [apply footprint_raise | ].
  apply footprint_try_except.
  - unfold client_connect. footprint_auto.
  - intro e. apply footprint_bind; [footprint_auto | intros _].
    apply footprint_bind; [footprint_auto | intros _]. exact IH.
Qed.

Lemma send_mqtt_footprint (depth : nat) (client : MQTTClient) (topic : string)
    (data : pydict) :
  footprint tick_event (send_mqtt E depth client topic data).
Proof.
  unfold send_mqtt. apply footprint_try_except.
  - unfold client_publish. footprint_auto.
  - intro e. apply footprint_bind; [footprint_auto | intros _].
    apply reconnect_mqtt_footprint.
Qed.

End FootprintFacts.

(** X3.  Once the known network could not be joined, [main] only runs the
    fallback path, whatever happens there, even when the join with the
    submitted credentials works: every call it makes is a log, a sleep, a
    WLAN, access point or socket call.  It never creates a broker client,
    installs no timer and does not reset the device; and it does not
    raise. *)
Theorem fallback_never_reaches_broker (E : env) (fuel : nat) (w w1 : world) :
  connect_wifi E (SSID E) (PASSWORD E) w = (Ret false, w1) ->
  raised (main E fuel w) = false /\
  exists t,
    trace (snd (main E fuel w)) = t ++ trace w /\
    forallb fallback_event t = true /\
    count is_mqtt_new t = 0%nat /\
    count is_timer t = 0%nat /\
    count is_reset t = 0%nat.
Proof.
  intro Hwifi.
  assert (Hmain : main E fuel w =
            (log "INFO" "Failed to connect to the known Wi-Fi. Starting Access Point..." ;;
             create_ap E ;; serve_web E fuel)%py w1).
  { unfold main. rewrite try_except_safe.
    - unfold bind at 1. rewrite Hwifi. reflexivity.
    - unfold bind at 1. rewrite Hwifi. simpl negb. cbv iota.
      apply safe_bind; [apply safe_emit | intros _ ].
      apply safe_bind; [apply create_ap_safe | intros _ ].
      apply serve_web_safe. }
  rewrite Hmain. split.
  - apply safe_bind; [apply safe_emit | intros _ ].
    apply safe_bind; [apply create_ap_safe | intros _ ].
    apply serve_web_safe.
  - destruct (connect_wifi_footprint E (SSID E) (PASSWORD E) w) as (t1 & Ht1 & Hall1).
    rewrite Hwifi in Ht1. simpl in Ht1.
    assert (Hrest : footprint fallback_event
              (log "INFO" "Failed to connect to the known Wi-Fi. Starting Access Point..." ;;
               create_ap E ;; serve_web E fuel)%py).
    { apply footprint_bind; [footprint_auto | intros _].
      apply footprint_bind; [apply create_ap_footprint | intros _].
      apply serve_web_footprint. }
    destruct (Hrest w1) as (t2 & Ht2 & Hall2).
    exists (t2 ++ t1).
    assert (Hall : forallb fallback_event (t2 ++ t1) = true)
      by (rewrite forallb_app, Hall1, Hall2; reflexivity).
    split; [rewrite Ht2, Ht1, app_assoc; reflexivity | ].
    split; [exact Hall | ].
    rewrite forallb_forall in Hall.
    repeat split; unfold count;
      (rewrite (proj2 (length_zero_iff_nil _)); [reflexivity | ]);
      (destruct (filter _ (t2 ++ t1)) as [ | e l] eqn:Hf; [reflexivity | ]);
      (assert (Hin : In e (filter _ (t2 ++ t1)))
         by (rewrite Hf; left; reflexivity));
      apply filter_In in Hin; destruct Hin as [Hin Hp];
      apply Hall in Hin; destruct e; discriminate.
Qed.

Section TickFootprint.

Variable E : env.

Lemma get_sensor_measurements_footprint :
  footprint tick_event (get_sensor_measurements E).
Proof. unfold get_sensor_measurements. footprint_auto. Qed.

Lemma silent_footprint {A} (m : M A) :
  (forall w, trace (snd (m w)) = trace w) -> footprint tick_event m.
Proof. intros Hm w. exists []. split; [apply Hm | reflexivity]. Qed.

End TickFootprint.

(** X4.  A timer tick of either kind only logs, sleeps, reads the sensor,
    publishes and reconnects the broker session: it never polls the
    Wi-Fi, never asks for a join and opens no socket, so the steady state
    does nothing about a lost network. *)
Theorem tick_never_touches_network (E : env) (fuel : nat)
    (mqtt_client : MQTTClient) :
  footprint tick_event (payload_callback E fuel mqtt_client) /\
  footprint tick_event (large_callback E fuel mqtt_client).
Proof.
  split.
  - unfold payload_callback, process_data.
    apply footprint_bind.
    + apply footprint_try_except; [ | intros; footprint_auto].
      apply footprint_bind; [apply get_sensor_measurements_footprint | ].
      intros; apply footprint_ret.
    + intros [d | ]; [apply send_mqtt_footprint | apply footprint_ret].
  - unfold large_callback.
    apply footprint_bind; [apply get_sensor_measurements_footprint | ].
    intros [temperature pressure].
    apply footprint_bind.
    + destruct (truthy temperature && truthy pressure);
        [apply silent_footprint; reflexivity | apply footprint_ret].
    + intros _. apply footprint_bind; [apply silent_footprint; reflexivity | ].
      intros b. destruct (60 <=? _); [ | apply footprint_ret].
      apply footprint_bind; [apply send_mqtt_footprint | intros _].
      apply silent_footprint; reflexivity.
Qed.

(** ** The configuration server, further *)

Section ServerMore.

Variable E : env.

Lemma serve_loop_only_other_requests :
  (forall k, exists d,
      sock_incoming E k = Request d /\
      PyStr.contains "POST" (PyStr.str_of_bytes (firstn 1024 d)) = false) ->
  forall (fuel : nat) (w : world),
  exists w',
    serve_loop E fuel w = (Diverge, w') /\
    count is_accept (trace w') = (count is_accept (trace w) + fuel)%nat /\
    count is_join (trace w') = count is_join (trace w) /\
    count is_send (trace w') = count is_send (trace w) /\
    count is_close (trace w') = count is_close (trace w).
Proof.
  intros Hother. induction fuel as [ | fuel IH]; intro w.
  - exists w. rewrite Nat.add_0_r. repeat split.
  - rewrite serve_loop_step. cbv zeta.
    destruct (Hother (count is_accept (trace w))) as (d & Hd & Hno).
    rewrite Hd, Hno.
    match goal with |- context [serve_loop E fuel ?w0] =>
      destruct (IH w0) as (w' & Hrun & Hacc & Hjoin & Hsend & Hclose)
    end.
    exists w'. split; [exact Hrun | ].
    rewrite Hacc, Hjoin, Hsend, Hclose. unfold count. simpl.
    repeat split. lia.
Qed.

Lemma serve_loop_socket_error (k : nat) :
  forall (fuel : nat) (w : world) (e : exn),
    (forall i, (i < k)%nat ->
       exists d,
         sock_incoming E (count is_accept (trace w) + i) = Request d /\
         PyStr.contains "POST" (PyStr.str_of_bytes (firstn 1024 d)) = false) ->
    sock_incoming E (count is_accept (trace w) + k) = AcceptFails e
    \/ sock_incoming E (count is_accept (trace w) + k) = RecvFails e ->
    (k < fuel)%nat ->
    exists w',
      serve_loop E fuel w = (Raise e, w') /\
      count is_accept (trace w') = (count is_accept (trace w) + k + 1)%nat /\
      count is_join (trace w') = count is_join (trace w).
Proof.
  induction k as [ | k IH]; intros fuel w e Hskip Herr Hfuel;
    (destruct fuel as [ | fuel]; [lia | ]);
    rewrite serve_loop_step; cbv zeta.
  - rewrite Nat.add_0_r in Herr.
    destruct Herr as [Herr | Herr]; rewrite Herr;
      (eexists; split; [reflexivity | ]);
      unfold count; simpl; split; lia.
  - destruct (Hskip 0%nat ltac:(lia)) as (d & Hd & Hno).
    rewrite Nat.add_0_r in Hd. rewrite Hd, Hno.
    match goal with |- context [serve_loop E fuel ?w0] =>
      destruct (IH fuel w0 e) as (w' & Hrun & Hacc & Hjoin)
    end.
    + intros i Hi. destruct (Hskip (S i) ltac:(lia)) as (d' & Hd' & Hno').
      exists d'. split; [ | exact Hno'].
      rewrite <- Hd'. f_equal. unfold count. simpl. lia.
    + replace (count is_accept (trace _) + k)%nat
        with (count is_accept (trace w) + S k)%nat; [exact Herr | ].
      unfold count. simpl. lia.
    + lia.
    + exists w'. split; [exact Hrun | ].
      rewrite Hacc, Hjoin. unfold count. simpl. split; lia.
Qed.

End ServerMore.

(** X5.  A configuration server that only ever receives requests without
    [POST] never returns: with any fuel it is still accepting when the
    fuel is spent, having accepted one connection per unit, requested no
    join, sent nothing and closed none of the connections. *)
Theorem serve_web_waits_for_post (E : env) (addr : string) :
  sock_listen E = inr addr ->
  (forall k, exists d,
      sock_incoming E k = Request d /\
      PyStr.contains "POST" (PyStr.str_of_bytes (firstn 1024 d)) = false) ->
  forall (fuel : nat) (w : world),
  exists w',
    serve_web E fuel w = (Diverge, w') /\
    count is_accept (trace w') = (count is_accept (trace w) + fuel)%nat /\
    count is_join (trace w') = count is_join (trace w) /\
    count is_send (trace w') = count is_send (trace w) /\
    count is_close (trace w') = count is_close (trace w).
Proof.
  intros Hlisten Hother fuel w.
  cbv beta iota zeta delta [serve_web try_except bind call_answer log emit].
  rewrite Hlisten.
  set (w0 := record (EvLog "INFO" ("Listening on " ++ addr))
               (record (EvListen true) w)).
  destruct (serve_loop_only_other_requests E Hother fuel w0)
    as (w' & Hrun & Hacc & Hjoin & Hsend & Hclose).
  rewrite Hrun. exists w'. split; [reflexivity | ].
  repeat split; assumption.
Qed.

(** X6.  A socket error ends the configuration server without any join:
    when the listener cannot be set up, [serve_web] logs the exception
    and returns without accepting; when [accept] or [recv] raises after
    [k] requests without [POST], it logs the exception and returns, with
    [k + 1] connections accepted or tried and no join requested. *)
Theorem serve_web_socket_error (E : env) (fuel : nat) (w : world) (e : exn) :
  (sock_listen E = inl e ->
   serve_web E fuel w =
     (Ret tt,
      record (EvLog "ERROR" ("Exception in serve_web: " ++ str_of_exn e))
        (record (EvListen false) w))) /\
  (forall (addr : string) (k : nat),
     sock_listen E = inr addr ->
     (forall i, (i < k)%nat ->
        exists d,
          sock_incoming E (count is_accept (trace w) + i) = Request d /\
          PyStr.contains "POST" (PyStr.str_of_bytes (firstn 1024 d)) = false) ->
     sock_incoming E (count is_accept (trace w) + k) = AcceptFails e
     \/ sock_incoming E (count is_accept (trace w) + k) = RecvFails e ->
     (k < fuel)%nat ->
     exists w',
       serve_web E fuel w =
         (Ret tt,
          record (EvLog "ERROR" ("Exception in serve_web: " ++ str_of_exn e)) w') /\
       count is_accept (trace w') = (count is_accept (trace w) + k + 1)%nat /\
       count is_join (trace w') = count is_join (trace w)).
Proof.
  split.
  - intro Hlisten.
    cbv beta iota zeta delta [serve_web try_except bind call_answer log emit].
    rewrite Hlisten. reflexivity.
  - intros addr k Hlisten Hskip Herr Hfuel.
    cbv beta iota zeta delta [serve_web try_except bind call_answer log emit].
    rewrite Hlisten.
    set (w0 := record (EvLog "INFO" ("Listening on " ++ addr))
                 (record (EvListen true) w)).
    destruct (serve_loop_socket_error E k fuel w0 e Hskip Herr Hfuel)
      as (w' & Hrun & Hacc & Hjoin).
    rewrite Hrun. exists w'. split; [reflexivity | split; assumption].
Qed.

(** X7.  The reply to a submission: after the join attempt the server
    sends the header and then the page that tells whether the join
    worked, and closes the connection; when a [send] raises, the
    exception is logged, nothing more is sent and the connection is not
    closed.  In every case [serve_web] returns. *)
Theorem serve_web_reply (E : env) (fuel : nat) (w : world) (addr : string)
    (data : list byte) :
  sock_listen E = inr addr ->
  sock_incoming E (count is_accept (trace w)) = Request data ->
  PyStr.contains "POST" (PyStr.str_of_bytes (firstn 1024 data)) = true ->
  let request_str := PyStr.str_of_bytes (firstn 1024 data) in
  let ssid := fst (parse_form request_str) in
  let password := snd (parse_form request_str) in
  let w0 :=
    record (EvLog "INFO" ("Received SSID: " ++ ssid ++ ", Password: " ++ password))
      (record (EvRecv true)
         (record (EvLog "INFO" ("Client connected from " ++ sock_peer E))
            (record (EvAccept true)
               (record (EvLog "INFO" ("Listening on " ++ addr))
                  (record (EvListen true) w))))) in
  let failed (e : exn) :=
    EvLog "ERROR" ("Exception in serve_web: " ++ str_of_exn e) in
  exists joined w1,
    connect_wifi E ssid password w0 = (Ret joined, w1) /\
    serve_web E (S fuel) w =
      (Ret tt,
       match sock_send E (count is_send (trace w)) with
       | Some e => record (failed e) (record (EvSend http_ok false) w1)
       | None =>
           match sock_send E (S (count is_send (trace w))) with
           | Some e =>
               record (failed e)
                 (record (EvSend (reply_page joined) false)
                    (record (EvSend http_ok true) w1))
           | None =>
               record EvClose
                 (record (EvSend (reply_page joined) true)
                    (record (EvSend http_ok true) w1))
           end
       end).
Proof.
  intros Hlisten Hpost Hcontains request_str ssid password w0 failed.
  destruct (connect_wifi_frame E ssid password w0)
    as (joined & w1 & Hrun & _ & _ & _ & Hsends).
  exists joined, w1. split; [exact Hrun | ].
  change (count is_send (trace w0)) with (count is_send (trace w)) in Hsends.
  cbv beta iota zeta delta [serve_web try_except bind call_answer log emit].
  rewrite Hlisten, serve_loop_step. cbv zeta.
  change (count is_accept (trace (record _ (record (EvListen true) w))))
    with (count is_accept (trace w)).
  rewrite Hpost, Hcontains. fold request_str.
  unfold handle_post. fold ssid password.
  rewrite (surjective_pairing (parse_form request_str)). fold ssid password.
  unfold bind at 1, log at 1, emit at 1. unfold bind at 1.
  fold w0. rewrite Hrun.
  destruct joined;
    cbv beta iota zeta delta [bind cl_send calls call emit ret reply_page];
    rewrite Hsends;
    (destruct (sock_send E (count is_send (trace w))) as [e1 | ] eqn:H1;
     [reflexivity | ]);
    change (count is_send (trace (record (EvSend http_ok true) w1)))
      with (S (count is_send (trace w1)));
    rewrite Hsends;
    destruct (sock_send E (S (count is_send (trace w)))) as [e2 | ]; reflexivity.
Qed.

(** ** First connection to the broker, in general *)

Section ConnectMore.

Variable E : env.

Lemma connect_round_step (context : bool) (retry_count : Z) (w : world) :
  connect_round E context (None, retry_count) w =
  let failed (e : exn) := EvLog "ERROR" ("MQTT connection failed: " ++ str_of_exn e) in
  match mqtt_new E (count is_mqtt_new (trace w)) with
  | Some e =>
      (Ret (None, retry_count + 1),
       record (EvSleep 5) (record (failed e) (record (EvMqttNew false) w)))
  | None =>
      match mqtt_connect E (count is_mqtt_connect (trace w)) with
      | None =>
          (Ret (Some (broker_client E context), retry_count),
           record (EvLog "INFO" "Connected to MQTT broker")
             (record (EvMqttConnect true) (record (EvMqttNew true) w)))
      | Some e =>
          (Ret (Some (broker_client E context), retry_count + 1),
           record (EvSleep 5)
             (record (failed e)
                (record (EvMqttConnect false) (record (EvMqttNew true) w))))
      end
  end.
Proof.
  cbv beta iota zeta delta
    [connect_round new_client client_connect bind try_except call calls emit
     ret log sleep broker_client].
  destruct (mqtt_new E (count is_mqtt_new (trace w))); [reflexivity | ].
  change (count is_mqtt_connect (trace (record (EvMqttNew true) w)))
    with (count is_mqtt_connect (trace w)).
  destruct (mqtt_connect E (count is_mqtt_connect (trace w))); reflexivity.
Qed.

Lemma repeat_snoc_app {A} (x : A) (n : nat) (l : list A) :
  repeat x n ++ x :: l = x :: repeat x n ++ l.
Proof. induction n as [ | n IH]; simpl; [reflexivity | rewrite IH; reflexivity]. Qed.

(** The loop of [connect_mqtt], whatever the broker does. *)
Lemma connect_loop_outcome (context : bool) :
  forall (n : nat) (retry_count : Z) (w : world),
    retry_count = 5 - Z.of_nat n ->
    exists client retry_count' w' m,
      while (S n) connect_cond (connect_round E context) (None, retry_count) w
        = (Ret (client, retry_count'), w') /\
      (m <= n)%nat /\
      filter is_sleep (trace w') = repeat (EvSleep 5) m ++ filter is_sleep (trace w) /\
      match client with
      | None =>
          m = n /\
          count is_mqtt_new (trace w') = (count is_mqtt_new (trace w) + n)%nat /\
          count is_mqtt_connect (trace w') = count is_mqtt_connect (trace w)
      | Some c =>
          c = broker_client E context /\
          count is_mqtt_connect (trace w') = S (count is_mqtt_connect (trace w))
      end.
Proof.
  induction n as [ | n IH]; intros retry_count w Hcount.
  - exists None, 5, w, 0%nat. subst retry_count. rewrite Nat.add_0_r.
    repeat split. lia.
  - change (while (S (S n)) connect_cond (connect_round E context)
              (None, retry_count) w)
      with (bind (connect_cond (None, retry_count))
              (fun c : bool =>
                 if c
                 then bind (connect_round E context (None, retry_count))
                        (fun s' => while (S n) connect_cond
                                     (connect_round E context) s')
                 else ret (None, retry_count)) w).
    unfold bind at 1, connect_cond at 1, ret at 1. cbn [fst snd is_none andb].
    assert (Hlt : (retry_count <? 5) = true) by (apply Z.ltb_lt; lia).
    rewrite Hlt. unfold bind at 1. rewrite connect_round_step. cbv zeta.
    destruct (mqtt_new E (count is_mqtt_new (trace w))) as [e | ].
    + match goal with |- context [while (S n) _ _ _ ?w1] =>
        destruct (IH (retry_count + 1) w1 ltac:(lia))
          as (client & rc' & w' & m & Hrun & Hm & Hsleeps & Hclient)
      end.
      exists client, rc', w', (S m). split; [exact Hrun | ]. split; [lia | ].
      split.
      * rewrite Hsleeps. simpl. rewrite repeat_snoc_app. reflexivity.
      * destruct client as [c | ].
        -- destruct Hclient as [Hc Hconnects]. split; [exact Hc | ].
           rewrite Hconnects. reflexivity.
        -- destruct Hclient as (Hmn & Hnews & Hconnects).
           rewrite Hnews, Hconnects. unfold count. simpl.
           repeat split; lia.
    + destruct (mqtt_connect E (count is_mqtt_connect (trace w))) as [e | ].
      * eexists (Some _), _, _, 1%nat. split; [reflexivity | ].
        split; [lia | ]. repeat split.
      * eexists (Some _), _, _, 0%nat. split; [reflexivity | ].
        split; [lia | ]. repeat split.
Qed.

End ConnectMore.

(** X8.  Whatever the broker and the TLS library do, [connect_mqtt]
    ends: it sleeps at most 5 times, 5 seconds each, and calls
    [client.connect()] at most once.  If it raises, that is after 5
    failed constructor calls and no connection attempt, and the exception
    is the [NameError] of the function's own [raise] statement, which
    names a [ConnectionError] that the firmware does not have.  If it
    returns, the client is the
    one built from the configuration, with TLS exactly when the context
    could be created, and [connect] was called once on it. *)
Theorem connect_mqtt_outcome (E : env) (w : world) :
  exists o w' m,
    connect_mqtt E w = (o, w') /\
    (m <= 5)%nat /\
    filter is_sleep (trace w') = repeat (EvSleep 5) m ++ filter is_sleep (trace w) /\
    match o with
    | Ret c =>
        c = broker_client E (is_none (ssl_new E)) /\
        count is_mqtt_connect (trace w') = S (count is_mqtt_connect (trace w))
    | Raise e =>
        e = connection_error_undefined /\
        count is_mqtt_new (trace w') = (count is_mqtt_new (trace w) + 5)%nat /\
        count is_mqtt_connect (trace w') = count is_mqtt_connect (trace w)
    | Diverge => False
    end.
Proof.
  unfold connect_mqtt. unfold bind at 1.
  assert (Hssl : exists w1,
             ssl_context E w = (Ret (is_none (ssl_new E)), w1) /\
             count is_mqtt_new (trace w1) = count is_mqtt_new (trace w) /\
             count is_mqtt_connect (trace w1) = count is_mqtt_connect (trace w) /\
             filter is_sleep (trace w1) = filter is_sleep (trace w)).
  { cbv beta iota zeta delta [ssl_context try_except bind call emit ret log].
    destruct (ssl_new E); eexists; repeat split. }
  destruct Hssl as (w1 & Hssl & Hnews1 & Hconnects1 & Hsleeps1).
  rewrite Hssl. unfold bind at 1.
  destruct (connect_loop_outcome E (is_none (ssl_new E)) 5 0 w1 eq_refl)
    as (client & rc' & w2 & m & Hloop & Hm & Hsleeps & Hclient).
  rewrite Hloop. cbn [fst].
  destruct client as [c | ].
  - exists (Ret c), w2, m. split; [reflexivity | ]. split; [exact Hm | ].
    split; [rewrite Hsleeps, Hsleeps1; reflexivity | ].
    destruct Hclient as [Hc Hconnects]. split; [exact Hc | ].
    rewrite Hconnects, Hconnects1. reflexivity.
  - destruct Hclient as (Hmn & Hnews & Hconnects).
    eexists (Raise _), _, m. split; [reflexivity | ]. split; [exact Hm | ].
    split; [cbn [trace record filter is_sleep]; rewrite Hsleeps, Hsleeps1; reflexivity | ].
    split; [reflexivity | ].
    unfold count in *. cbn [trace record filter is_mqtt_new is_mqtt_connect].
    rewrite Hnews, Hconnects, Hnews1, Hconnects1. split; reflexivity.
Qed.

(** X9.  After [k] refused connections the broker accepts one:
    [reconnect_mqtt], provided the stack has room for the [k + 1] nested
    calls, returns after exactly [k + 1] attempts, having slept 5 seconds
    after each refusal and not after the success. *)
Theorem reconnect_mqtt_recovers_after (E : env) (client : MQTTClient) (k : nat) :
  forall (w : world) (depth : nat),
    (forall i, (i < k)%nat ->
       is_none (mqtt_connect E (count is_mqtt_connect (trace w) + i)) = false) ->
    mqtt_connect E (count is_mqtt_connect (trace w) + k) = None ->
    (k < depth)%nat ->
    exists w',
      reconnect_mqtt E depth client w = (Ret tt, w') /\
      session_view (history w') =
        session_view (history w)
        ++ concat (repeat [EvMqttConnect false; EvSleep 5] k)
        ++ [EvMqttConnect true].
Proof.
  induction k as [ | k IH]; intros w depth Hrefused Hok Hdepth;
    (destruct depth as [ | depth]; [lia | ]);
    rewrite reconnect_mqtt_step; cbv zeta.
  - rewrite Nat.add_0_r in Hok. rewrite Hok.
    eexists. split; [reflexivity | ].
    unfold history, session_view. simpl. rewrite !filter_app. simpl.
    rewrite <- !app_assoc. reflexivity.
  - pose proof (Hrefused 0%nat ltac:(lia)) as H0. rewrite Nat.add_0_r in H0.
    destruct (mqtt_connect E (count is_mqtt_connect (trace w))) as [e | ];
      [ | discriminate H0].
    match goal with |- context [reconnect_mqtt E depth client ?w1] =>
      destruct (IH w1 depth) as (w' & Hrun & Hview)
    end.
    + intros i Hi. specialize (Hrefused (S i) ltac:(lia)).
      rewrite <- Hrefused. do 2 f_equal. unfold count. simpl. lia.
    + rewrite <- Hok. f_equal. unfold count. simpl. lia.
    + lia.
    + exists w'. split; [exact Hrun | ].
      rewrite Hview. unfold history, session_view. simpl.
      rewrite !filter_app. simpl. rewrite <- !app_assoc. reflexivity.
Qed.

(** ** Start-up *)

Lemma idle_forever (fuel : nat) :
  forall w,
  exists w',
    idle fuel w = (Diverge, w') /\
    trace w' = repeat (EvSleep 10) fuel ++ trace w /\
    temperature_data_buffer w' = temperature_data_buffer w /\
    pressure_data_buffer w' = pressure_data_buffer w.
Proof.
  induction fuel as [ | fuel IH]; intro w.
  - exists w. repeat split.
  - cbn [idle]. unfold bind, sleep, emit.
    destruct (IH (record (EvSleep 10) w)) as (w' & Hrun & Htrace & Ht & Hp).
    exists w'. split; [exact Hrun | ]. split; [ | split; assumption].
    rewrite Htrace. cbn [trace record repeat]. apply repeat_snoc_app.
Qed.

(** X10.  With the network joined and a client constructor that raises
    every time, [main] does not let the exception of [connect_mqtt] out,
    which is the [NameError] of the undefined [ConnectionError]: it logs
    it as critical and resets the device, after 5 constructor calls,
    without installing a timer. *)
Theorem main_resets_when_broker_unreachable (E : env) (fuel : nat)
    (w w1 : world) :
  connect_wifi E (SSID E) (PASSWORD E) w = (Ret true, w1) ->
  (forall k, is_none (mqtt_new E k) = false) ->
  exists w2,
    main E fuel w =
      (Ret tt,
       record EvReset
         (record (EvLog "CRITICAL"
                    "Critical error occurred: name 'ConnectionError' isn't defined")
            w2)) /\
    count is_mqtt_new (trace w2) = (count is_mqtt_new (trace w1) + 5)%nat /\
    count is_mqtt_connect (trace w2) = count is_mqtt_connect (trace w1) /\
    filter is_sleep (history w2) = filter is_sleep (history w1) ++ repeat (EvSleep 5) 5.
Proof.
  intros Hwifi Hrefused.
  assert (Hnew : forall k, mqtt_new E k <> None).
  { intros k Hk. specialize (Hrefused k). rewrite Hk in Hrefused.
    discriminate Hrefused. }
  set (w1' := record (EvLog "INFO"
                "Wi-Fi connected successfully, proceeding with MQTT connection.") w1).
  destruct (connect_mqtt_constructor_fails E w1' Hnew)
    as (w2 & Hrun & Hnews & Hconnects & Hsleeps).
  exists w2. split; [ | split; [exact Hnews | split; [exact Hconnects | ]]].
  2: { rewrite Hsleeps. unfold w1', history. cbn [trace record rev].
       rewrite filter_app. cbn [filter is_sleep]. rewrite app_nil_r.
       reflexivity. }
  unfold main, try_except. unfold bind at 1. rewrite Hwifi. cbn [negb].
  unfold bind at 1, log at 1, emit at 1. unfold bind at 1.
  fold w1'. rewrite Hrun. reflexivity.
Qed.

(** X11.  With the network joined, [main] enters the steady state as
    soon as the client object could be built, whether the broker then
    accepted the connection or refused it: after the one call of
    [client.connect()] it installs the 1 second payload timer and idles
    in 10 second sleeps for ever, without resetting. *)
Theorem main_steady_state (E : env) (w w1 : world) :
  connect_wifi E (SSID E) (PASSWORD E) w = (Ret true, w1) ->
  mqtt_new E (count is_mqtt_new (trace w1)) = None ->
  exists w2,
    connect_mqtt E
      (record (EvLog "INFO"
         "Wi-Fi connected successfully, proceeding with MQTT connection.") w1)
      = (Ret (broker_client E (is_none (ssl_new E))), w2) /\
    count is_mqtt_connect (trace w2) = S (count is_mqtt_connect (trace w1)) /\
    count is_reset (trace w2) = count is_reset (trace w1) /\
    forall fuel,
    exists w',
      main E fuel w = (Diverge, w') /\
      trace w' = repeat (EvSleep 10) fuel ++ EvTimer 1000 "payload" :: trace w2.
Proof.
  intros Hwifi Hnew.
  set (w1' := record (EvLog "INFO"
                "Wi-Fi connected successfully, proceeding with MQTT connection.") w1).
  assert (Hconnect : exists w2,
            connect_mqtt E w1' = (Ret (broker_client E (is_none (ssl_new E))), w2) /\
            count is_mqtt_connect (trace w2) = S (count is_mqtt_connect (trace w1)) /\
            count is_reset (trace w2) = count is_reset (trace w1)).
  { cbv beta iota zeta delta
      [connect_mqtt connect_cond ssl_context while connect_round new_client
       client_connect bind try_except call calls emit ret raise log sleep
       is_none fst snd w1' broker_client].
    unfold count in *.
    destruct (ssl_new E); simpl; rewrite Hnew; simpl;
      destruct (mqtt_connect E _); simpl;
      (eexists; split; [reflexivity | split; reflexivity]). }
  destruct Hconnect as (w2 & Hrun & Hconnects & Hresets).
  exists w2. split; [exact Hrun | ]. split; [exact Hconnects | ].
  split; [exact Hresets | ].
  intro fuel.
  destruct (idle_forever fuel (record (EvTimer 1000 "payload") w2))
    as (w' & Hidle & Htrace & _).
  exists w'. split; [ | exact Htrace].
  unfold main, try_except. unfold bind at 1. rewrite Hwifi. cbn [negb].
  unfold bind at 1, log at 1, emit at 1. unfold bind at 1.
  fold w1'. rewrite Hrun.
  unfold bind at 1, frequent_small_payload, create_payload_timer, emit.
  rewrite Hidle. reflexivity.
Qed.

(** ** Rounding *)

(** A value that already is a whole number of hundredths is left as it
    is by [round(x, 2)]. *)
Lemma round2_hundredths (h : Z) : round2 (h # 100) = h.
Proof.
  unfold round2, round_half_even.
  assert (Hx : ((h # 100) * 100 == inject_Z h)%Q).
  { unfold Qeq, Qmult, inject_Z. simpl. lia. }
  assert (Hf : Qfloor ((h # 100) * 100) = h).
  { rewrite (Qfloor_comp _ _ Hx). apply Qfloor_Z. }
  rewrite Hf.
  assert (Hd : ((h # 100) * 100 - inject_Z h == 0)%Q) by (rewrite Hx; ring).
  rewrite (Qcompare_comp _ _ Hd _ _ (Qeq_refl (1 # 2))).
  reflexivity.
Qed.

(** X13.  Rounding keeps the order of readings: a lower value never
    rounds to more hundredths than a higher one. *)
Theorem round2_monotone (x y : Q) : (x <= y)%Q -> round2 x <= round2 y.
Proof.
  intro Hxy. unfold round2. apply round_half_even_mono.
  apply Qmult_le_compat_r; [exact Hxy | discriminate].
Qed.

(** The values that round to zero hundredths are exactly those within
    half a hundredth of zero. *)
Lemma round2_zero_iff (x : Q) :
  round2 x = 0 <-> (Qabs (x * 100) <= 1 # 2)%Q.
Proof.
  unfold round2. set (y := (x * 100)%Q). split.
  - intro Hzero. pose proof (round_half_even_bounds y) as [Hlo Hhi].
    rewrite Hzero in Hlo, Hhi. change (inject_Z 0) with 0%Q in Hlo, Hhi.
    apply Qabs_Qle_condition. split; lra.
  - intro Hsmall. apply Qabs_Qle_condition in Hsmall. destruct Hsmall as [Hlo Hhi].
    assert (Hm : round_half_even (- (1 # 2)) = 0) by reflexivity.
    assert (Hp : round_half_even (1 # 2) = 0) by reflexivity.
    pose proof (round_half_even_mono _ _ Hlo) as H1.
    pose proof (round_half_even_mono _ _ Hhi) as H2.
    rewrite Hm in H1. rewrite Hp in H2. lia.
Qed.

(** X12.  A reading whose two values already are whole numbers of
    hundredths is returned unchanged by [get_sensor_measurements]. *)
Theorem get_sensor_measurements_keeps_hundredths (E : env) (w : world)
    (t p : Z) :
  sensor_measurements E (count is_measure (trace w)) = inr (t # 100, p # 100) ->
  fst (get_sensor_measurements E w) = Ret (t, p).
Proof.
  intro Hread. rewrite get_sensor_measurements_step, Hread.
  cbn [fst]. rewrite !round2_hundredths. reflexivity.
Qed.

(** ** The strategies, further *)

Section BatchMore.

Variable E : env.

(** A tick with a good, non-zero reading below the threshold: the sample
    goes to the end of both buffers and nothing is published. *)
Lemma large_callback_appends (depth : nat) (mqtt_client : MQTTClient)
    (w : world) (t p : Q) :
  sensor_measurements E (count is_measure (trace w)) = inr (t, p) ->
  round2 t <> 0 -> round2 p <> 0 ->
  (length (temperature_data_buffer w) < 59)%nat ->
  exists w',
    large_callback E depth mqtt_client w = (Ret tt, w') /\
    temperature_data_buffer w' = temperature_data_buffer w ++ [round2 t] /\
    pressure_data_buffer w' = pressure_data_buffer w ++ [round2 p] /\
    count is_measure (trace w') = S (count is_measure (trace w)) /\
    count is_publish (trace w') = count is_publish (trace w).
Proof.
  intros Hread Ht Hp Hlen. rewrite large_callback_step, Hread. cbv zeta.
  assert (Htrue : (truthy (round2 t) && truthy (round2 p)) = true).
  { unfold truthy. apply andb_true_intro.
    split; apply negb_true_iff, Z.eqb_neq; assumption. }
  rewrite Htrue. cbn [append_sample snd temperature_data_buffer record].
  rewrite length_app. cbn [length].
  assert (Hnot : (60 <=? Z.of_nat (length (temperature_data_buffer w) + 1)) = false)
    by (apply Z.leb_gt; lia).
  rewrite Hnot. eexists. repeat split.
Qed.

Lemma large_ticks_fill (depth : nat) (mqtt_client : MQTTClient)
    (l : list (Q * Q)) :
  forall w,
    (forall i, (i < length l)%nat ->
       sensor_measurements E (count is_measure (trace w) + i)
       = inr (nth i l (0, 0)%Q)) ->
    Forall (fun r => round2 (fst r) <> 0 /\ round2 (snd r) <> 0) l ->
    (length (temperature_data_buffer w) + length l < 60)%nat ->
    let w' := large_ticks E depth mqtt_client (length l) w in
    temperature_data_buffer w' =
      temperature_data_buffer w ++ map (fun r => round2 (fst r)) l /\
    pressure_data_buffer w' =
      pressure_data_buffer w ++ map (fun r => round2 (snd r)) l /\
    count is_measure (trace w') = (count is_measure (trace w) + length l)%nat /\
    count is_publish (trace w') = count is_publish (trace w).
Proof.
  induction l as [ | [t p] l IH]; intros w Hreads Hgood Hlen.
  - cbn. rewrite !app_nil_r, Nat.add_0_r. repeat split.
  - cbn [length] in *. cbn [large_ticks]. cbv zeta.
    inversion Hgood as [ | r l' [Ht Hp] Hgood' ]; subst. cbn [fst snd] in Ht, Hp.
    pose proof (Hreads 0%nat ltac:(lia)) as Hread.
    rewrite Nat.add_0_r in Hread. cbn [nth] in Hread.
    destruct (large_callback_appends depth mqtt_client w t p Hread Ht Hp ltac:(lia))
      as (w1 & Hrun & Htb & Hpb & Hmeasures & Hpublishes).
    rewrite Hrun. cbn [snd].
    destruct (IH w1) as (Htb' & Hpb' & Hmeasures' & Hpublishes').
    + intros i Hi. rewrite Hmeasures.
      replace (S (count is_measure (trace w)) + i)%nat
        with (count is_measure (trace w) + S i)%nat by lia.
      rewrite (Hreads (S i) ltac:(lia)). reflexivity.
    + exact Hgood'.
    + rewrite Htb, length_app. cbn [length]. lia.
    + rewrite Htb', Hpb', Hmeasures', Hpublishes', Htb, Hpb, Hmeasures, Hpublishes.
      cbn [map fst snd]. rewrite <- !app_assoc. repeat split. lia.
Qed.

End BatchMore.

(** X15.  Sixty ticks with good, non-zero readings, starting from empty
    buffers and with a broker that takes the publish: nothing is
    published during the first 59 ticks, and the 60th publishes once, on
    the batch topic, the 60 rounded temperatures and the 60 rounded
    pressures, each in the order the readings were taken, and leaves both
    buffers empty. *)
Theorem sixty_readings_one_batch (E : env) (fuel : nat)
    (mqtt_client : MQTTClient) (w : world) (l : list (Q * Q)) (r : Q * Q) :
  temperature_data_buffer w = [] ->
  pressure_data_buffer w = [] ->
  length l = 59%nat ->
  (forall i, (i < 60)%nat ->
     sensor_measurements E (count is_measure (trace w) + i)
     = inr (nth i (l ++ [r]) (0, 0)%Q)) ->
  Forall (fun r => round2 (fst r) <> 0 /\ round2 (snd r) <> 0) (l ++ [r]) ->
  mqtt_publish E (count is_publish (trace w)) = None ->
  let w59 := large_ticks E fuel mqtt_client 59 w in
  let w60 := large_ticks E fuel mqtt_client 60 w in
  let payload :=
    dumps (format_data (PyList (map (fun r => round2 (fst r)) (l ++ [r])))
                       (PyList (map (fun r => round2 (snd r)) (l ++ [r])))) in
  count is_publish (trace w59) = count is_publish (trace w) /\
  temperature_data_buffer w59 = map (fun r => round2 (fst r)) l /\
  count is_publish (trace w60) = S (count is_publish (trace w)) /\
  In (EvPublish (MQTT_TOPIC_DATA_COLLECTION E) payload true) (trace w60) /\
  temperature_data_buffer w60 = [] /\
  pressure_data_buffer w60 = [].
Proof.
  intros Htb Hpb Hlen Hreads Hgood Hpublish w59 w60 payload.
  apply Forall_app in Hgood. destruct Hgood as [Hgood Hlast].
  inversion Hlast as [ | r' l' [Ht Hp] _ ]; subst r' l'.
  destruct (large_ticks_fill E fuel mqtt_client l w) as (Htb59 & Hpb59 & Hm59 & Hp59).
  { intros i Hi. rewrite (Hreads i ltac:(lia)). rewrite app_nth1 by exact Hi.
    reflexivity. }
  { exact Hgood. }
  { rewrite Htb, Hlen. simpl. lia. }
  rewrite Hlen in Htb59, Hpb59, Hm59, Hp59. cbv zeta in Htb59, Hpb59, Hm59, Hp59.
  fold w59 in Htb59, Hpb59, Hm59, Hp59.
  rewrite Htb in Htb59. rewrite Hpb in Hpb59. cbn [app] in Htb59, Hpb59.
  split; [exact Hp59 | ]. split; [exact Htb59 | ].
  assert (H60 : w60 = snd (large_callback E fuel mqtt_client w59)).
  { unfold w60, w59.
    change 60%nat with (59 + 1)%nat.
    generalize 59%nat as n. generalize w.
    intros w0 n. revert w0. induction n as [ | n IH]; intro w0; [reflexivity | ].
    cbn [Nat.add large_ticks]. apply IH. }
  pose proof (Hreads 59%nat ltac:(lia)) as Hread.
  rewrite <- Hm59 in Hread. rewrite app_nth2 in Hread by lia.
  rewrite Hlen, Nat.sub_diag in Hread. cbn [nth] in Hread.
  destruct r as [t p]. cbn [fst snd] in Ht, Hp.
  rewrite H60, large_callback_step, Hread. cbv zeta.
  assert (Htrue : (truthy (round2 t) && truthy (round2 p)) = true).
  { unfold truthy. apply andb_true_intro.
    split; apply negb_true_iff, Z.eqb_neq; assumption. }
  rewrite Htrue.
  cbn [append_sample snd temperature_data_buffer pressure_data_buffer record].
  rewrite Htb59, Hpb59, length_app, length_map, Hlen.
  change (60 <=? Z.of_nat (59 + length [round2 t])) with true. cbv iota.
  unfold bind. rewrite send_mqtt_step. cbv zeta.
  cbn [trace record].
  change (count is_publish
            (reading_log (round2 t) (round2 p) :: EvMeasure true :: trace w59))
    with (count is_publish (trace w59)).
  rewrite Hp59, Hpublish.
  cbn [clear_buffers snd trace record temperature_data_buffer pressure_data_buffer].
  unfold payload. rewrite !map_app. cbn [map fst snd].
  split; [rewrite !count_cons; unfold reading_log; cbn [is_publish]; lia | ].
  split; [right; left; reflexivity | ].
  split; reflexivity.
Qed.

(** X14.  Which readings the batching callback keeps: below the
    threshold, a reading that succeeded adds one non-zero value to each
    buffer when both values are at least 6 thousandths away from zero,
    and leaves the buffers as they were when the temperature or the
    pressure is within 4 thousandths of zero. *)
Theorem batching_drops_readings_near_zero (E : env) (depth : nat)
    (mqtt_client : MQTTClient) (w : world) (t p : Q) :
  sensor_measurements E (count is_measure (trace w)) = inr (t, p) ->
  (length (temperature_data_buffer w) < 59)%nat ->
  let w' := snd (large_callback E depth mqtt_client w) in
  ((3 # 5 <= Qabs (t * 100))%Q /\ (3 # 5 <= Qabs (p * 100))%Q ->
   exists a b,
     a <> 0 /\ b <> 0 /\
     temperature_data_buffer w' = temperature_data_buffer w ++ [a] /\
     pressure_data_buffer w' = pressure_data_buffer w ++ [b]) /\
  ((Qabs (t * 100) <= 2 # 5)%Q \/ (Qabs (p * 100) <= 2 # 5)%Q ->
   temperature_data_buffer w' = temperature_data_buffer w /\
   pressure_data_buffer w' = pressure_data_buffer w).
Proof.
  intros Hread Hlen w'. split.
  - intros [Ht Hp].
    assert (Ht' : round2 t <> 0)
      by (intro H0; apply round2_zero_iff in H0; lra).
    assert (Hp' : round2 p <> 0)
      by (intro H0; apply round2_zero_iff in H0; lra).
    destruct (large_callback_appends E depth mqtt_client w t p Hread Ht' Hp' Hlen)
      as (w1 & Hrun & Htb & Hpb & _).
    exists (round2 t), (round2 p).
    unfold w'. rewrite Hrun. repeat split; assumption.
  - intro Hzero.
    assert (Hfalse : (truthy (round2 t) && truthy (round2 p)) = false).
    { unfold truthy.
      destruct Hzero as [Hz | Hz];
        (assert (Hz' : round2 t = 0 \/ round2 p = 0)
           by (first [left; apply round2_zero_iff; lra
                     | right; apply round2_zero_iff; lra]));
        destruct Hz' as [-> | ->]; first [reflexivity | apply andb_false_r]. }
    unfold w'. rewrite large_callback_step, Hread. cbv zeta. rewrite Hfalse.
    assert (Hnot : (60 <=? Z.of_nat (length (temperature_data_buffer w))) = false)
      by (apply Z.leb_gt; lia).
    cbn [temperature_data_buffer record]. rewrite Hnot. split; reflexivity.
Qed.

(** X16.  The batching callback does not catch a sensor failure: the
    driver's exception leaves the callback, with nothing logged, nothing
    published and both buffers as they were, so the batch goes on with
    the next good reading. *)
Theorem large_callback_lets_sensor_failure_out (E : env) (fuel : nat)
    (mqtt_client : MQTTClient) (w : world) (e : exn) :
  sensor_measurements E (count is_measure (trace w)) = inl e ->
  large_callback E fuel mqtt_client w = (Raise e, record (EvMeasure false) w) /\
  raised (payload_callback E fuel mqtt_client w) = false.
Proof.
  intro Hfail. split.
  - rewrite large_callback_step, Hfail. reflexivity.
  - unfold payload_callback, bind. rewrite process_data_step, Hfail.
    reflexivity.
Qed.

Lemma string_append_assoc (a b c : string) :
  ((a ++ b) ++ c = a ++ b ++ c)%string.
Proof. induction a as [ | x a IH]; simpl; [reflexivity | rewrite IH; reflexivity]. Qed.

(** The text of the small payload: the dictionary has two slots, and
    the key [pressure] lands in the first. *)
Lemma dumps_small (a b : pyvalue) :
  dumps (format_data a b) =
  ("{" ++ PyStr.quoted "pressure" ++ ": " ++ dumps_value b ++ ", "
       ++ PyStr.quoted "temperature" ++ ": " ++ dumps_value a ++ "}")%string.
Proof.
  unfold dumps.
  change (MicroPython.items (format_data a b))
    with [("pressure", b); ("temperature", a)]%string.
  unfold PyStr.quoted.
  cbn [map fst snd String.concat String.append].
  rewrite !string_append_assoc. reflexivity.
Qed.

(** X17.  The small-payload callback hands every reading that succeeded
    to [publish], a zero one as well: one call, on [MQTT_TOPIC], with the
    JSON text of the two rounded values, pressure first, and no second
    call when the first one fails.  (A negative reading that rounds to
    zero is left out: its text has a minus sign.) *)
Theorem payload_callback_publishes_every_reading (E : env) (depth : nat)
    (mqtt_client : MQTTClient) (w : world) (t p : Q) :
  sensor_measurements E (count is_measure (trace w)) = inr (t, p) ->
  (round2 t = 0 -> (0 <= t)%Q) ->
  (round2 p = 0 -> (0 <= p)%Q) ->
  let payload :=
    ("{" ++ PyStr.quoted "pressure" ++ ": " ++ str_of_float (round2 p) ++ ", "
         ++ PyStr.quoted "temperature" ++ ": " ++ str_of_float (round2 t) ++ "}")%string in
  let r := payload_callback E depth mqtt_client w in
  payload = dumps (format_data (PyFloat (round2 t)) (PyFloat (round2 p))) /\
  (fst r = Ret tt \/ fst r = Raise stack_overflow) /\
  filter is_publish (trace (snd r)) =
    EvPublish (MQTT_TOPIC E) payload
      (is_none (mqtt_publish E (count is_publish (trace w))))
    :: filter is_publish (trace w).
Proof.
  intros Hread _ _ payload r.
  assert (Htext : payload
                  = dumps (format_data (PyFloat (round2 t)) (PyFloat (round2 p))))
    by (rewrite dumps_small; reflexivity).
  split; [exact Htext | ]. rewrite Htext.
  unfold r, payload_callback, bind. rewrite process_data_step, Hread.
  split; [apply send_mqtt_outcome | ].
  rewrite send_mqtt_step. cbv zeta.
  change (count is_publish (trace (record _ (record (EvMeasure true) w))))
    with (count is_publish (trace w)).
  destruct (mqtt_publish E (count is_publish (trace w))).
  - rewrite reconnect_mqtt_publishes_nothing. reflexivity.
  - reflexivity.
Qed.

(** ** Strings *)

Local Open Scope string_scope.

Lemma string_length_append (a b : string) :
  String.length (a ++ b) = (String.length a + String.length b)%nat.
Proof. induction a as [ | x a IH]; simpl; [reflexivity | rewrite IH; reflexivity]. Qed.

Lemma prefix_length (sub s : string) :
  prefix sub s = true -> (String.length sub <= String.length s)%nat.
Proof.
  revert s. induction sub as [ | x sub IH]; intros s H; simpl; [lia | ].
  destruct s as [ | y s]; simpl in H; [discriminate H | ].
  destruct (Ascii.ascii_dec x y); [ | discriminate H].
  apply IH in H. simpl. lia.
Qed.

Lemma prefix_app (sub a b : string) :
  (String.length sub <= String.length a)%nat ->
  prefix sub (a ++ b) = prefix sub a.
Proof.
  revert a. induction sub as [ | x sub IH]; intros a Hlen;
    [destruct a, b; reflexivity | ].
  destruct a as [ | y a]; simpl in Hlen; [lia | ].
  simpl. destruct (Ascii.ascii_dec x y); [apply IH; lia | reflexivity].
Qed.

Lemma index_bound (sub : string) :
  forall (s : string) (n m : nat),
    index n sub s = Some m ->
    (n <= m /\ m + String.length sub <= String.length s)%nat.
Proof.
  induction s as [ | c s IH]; intros n m H.
  - destruct n; simpl in H; [ | discriminate H].
    destruct sub; [ | discriminate H]. injection H as <-. simpl. lia.
  - destruct n as [ | n].
    + cbn [index] in H. destruct (prefix sub (String c s)) eqn:Hp.
      * injection H as <-. apply prefix_length in Hp. lia.
      * destruct (index 0 sub s) as [k | ] eqn:Hk; [ | discriminate H].
        injection H as <-. apply IH in Hk. simpl. lia.
    + cbn [index] in H.
      destruct (index n sub s) as [k | ] eqn:Hk; [ | discriminate H].
      injection H as <-. apply IH in Hk. simpl. lia.
Qed.

(** An occurrence found in a text is still the first one when the text
    goes on. *)
Lemma index_app_found (sub : string) :
  forall (a b : string) (n m : nat),
    index n sub a = Some m -> index n sub (a ++ b) = Some m.
Proof.
  induction a as [ | c a IH]; intros b n m H.
  - destruct n; simpl in H; [ | discriminate H].
    destruct sub; [ | discriminate H]. injection H as <-.
    simpl. destruct b; reflexivity.
  - destruct n as [ | n].
    + cbn [index] in H. cbn [String.append index].
      change (String c (a ++ b)) with (String c a ++ b).
      destruct (prefix sub (String c a)) eqn:Hp.
      * injection H as <-.
        rewrite prefix_app, Hp by (apply prefix_length; exact Hp). reflexivity.
      * destruct (index 0 sub a) as [k | ] eqn:Hk; [ | discriminate H].
        injection H as <-.
        pose proof (index_bound sub a 0 k Hk) as [_ Hb].
        rewrite prefix_app, Hp by (simpl; lia).
        rewrite (IH b 0%nat k Hk). reflexivity.
    + cbn [index] in H. cbn [String.append index].
      destruct (index n sub a) as [k | ] eqn:Hk; [ | discriminate H].
      injection H as <-. rewrite (IH b n k Hk). reflexivity.
Qed.

(** Searching from the end of [a] in [a ++ b] is searching in [b]. *)
Lemma index_skip (sub : string) :
  forall (a b : string) (n : nat),
    index (String.length a + n) sub (a ++ b) =
    option_map (fun k => (String.length a + k)%nat) (index n sub b).
Proof.
  induction a as [ | c a IH]; intros b n.
  - simpl. destruct (index n sub b); reflexivity.
  - cbn [String.length Nat.add String.append index]. rewrite IH.
    destruct (index n sub b); reflexivity.
Qed.

Lemma substring_app_middle (a s b : string) :
  substring (String.length a) (String.length s) (a ++ s ++ b) = s.
Proof.
  induction a as [ | c a IH]; [ | exact IH].
  cbn [String.length String.append].
  revert b. induction s as [ | c s IH]; intro b.
  - destruct b; reflexivity.
  - simpl. rewrite IH. reflexivity.
Qed.

Lemma find_index (s sub : string) (start m : nat) :
  (start <= String.length s)%nat ->
  index start sub s = Some m ->
  PyStr.find s sub (Z.of_nat start) = Z.of_nat m.
Proof.
  intros Hstart Hindex. unfold PyStr.find, PyStr.clamp, PyStr.len.
  destruct (Z.ltb_spec (Z.of_nat (String.length s)) (Z.of_nat start)); [lia | ].
  destruct (Z.ltb_spec (Z.of_nat start) 0); [lia | ].
  rewrite Z.min_l by lia. rewrite Nat2Z.id, Hindex. reflexivity.
Qed.

Lemma find_index_none (s sub : string) (start : nat) :
  index start sub s = None ->
  PyStr.find s sub (Z.of_nat start) = -1.
Proof.
  intros Hindex. unfold PyStr.find, PyStr.clamp, PyStr.len.
  destruct (Z.ltb_spec (Z.of_nat (String.length s)) (Z.of_nat start));
    [reflexivity | ].
  destruct (Z.ltb_spec (Z.of_nat start) 0); [lia | ].
  rewrite Z.min_l by lia. rewrite Nat2Z.id, Hindex. reflexivity.
Qed.

Lemma index_find (s sub : string) (m : nat) :
  PyStr.find s sub 0 = Z.of_nat m -> index 0 sub s = Some m.
Proof.
  unfold PyStr.find, PyStr.clamp, PyStr.len.
  destruct (Z.ltb_spec (Z.of_nat (String.length s)) 0); [lia | ].
  change (0 <? 0)%Z with false. cbv iota. rewrite Z.min_l by lia.
  change (Z.to_nat 0) with 0%nat.
  destruct (index 0 sub s) as [k | ]; intro Hfind; [ | lia].
  f_equal. lia.
Qed.

Lemma index_find_none (s sub : string) :
  PyStr.find s sub 0 = -1 -> index 0 sub s = None.
Proof.
  unfold PyStr.find, PyStr.clamp, PyStr.len.
  destruct (Z.ltb_spec (Z.of_nat (String.length s)) 0); [lia | ].
  change (0 <? 0)%Z with false. cbv iota. rewrite Z.min_l by lia.
  change (Z.to_nat 0) with 0%nat.
  destruct (index 0 sub s) as [k | ]; intro Hfind; [lia | reflexivity].
Qed.

Lemma slice_substring (s : string) (a b : nat) :
  (a <= b <= String.length s)%nat ->
  PyStr.slice s (Z.of_nat a) (Z.of_nat b) = substring a (b - a) s.
Proof.
  intro H. unfold PyStr.slice, PyStr.clamp, PyStr.len.
  destruct (Z.ltb_spec (Z.of_nat a) 0); [lia | ].
  destruct (Z.ltb_spec (Z.of_nat b) 0); [lia | ].
  rewrite !Z.min_l by lia. rewrite !Nat2Z.id. reflexivity.
Qed.

Lemma find_app_found (a b sub : string) (m : nat) :
  PyStr.find a sub 0 = Z.of_nat m -> PyStr.find (a ++ b) sub 0 = Z.of_nat m.
Proof.
  intro H. apply index_find in H.
  apply (find_index (a ++ b) sub 0 m); [lia | ].
  apply index_app_found. exact H.
Qed.

Lemma find_from_app (a b sub : string) (m : nat) :
  PyStr.find b sub 0 = Z.of_nat m ->
  PyStr.find (a ++ b) sub (Z.of_nat (String.length a))
  = Z.of_nat (String.length a + m).
Proof.
  intro H. apply index_find in H.
  apply (find_index (a ++ b) sub (String.length a) (String.length a + m)).
  - rewrite string_length_append. lia.
  - pose proof (index_skip sub a b 0) as Hskip.
    rewrite Nat.add_0_r, H in Hskip. exact Hskip.
Qed.

Lemma find_from_app_none (a b sub : string) :
  PyStr.find b sub 0 = -1 ->
  PyStr.find (a ++ b) sub (Z.of_nat (String.length a)) = -1.
Proof.
  intro H. apply index_find_none in H.
  apply find_index_none.
  pose proof (index_skip sub a b 0) as Hskip.
  rewrite Nat.add_0_r, H in Hskip. exact Hskip.
Qed.

Lemma slice_app_middle (a s b : string) :
  PyStr.slice (a ++ s ++ b) (Z.of_nat (String.length a))
    (Z.of_nat (String.length a + String.length s)) = s.
Proof.
  rewrite slice_substring.
  - replace (String.length a + String.length s - String.length a)%nat
      with (String.length s) by lia.
    apply substring_app_middle.
  - rewrite !string_length_append. lia.
Qed.

Lemma slice_to_last (a s : string) (c : ascii) :
  PyStr.slice (a ++ s ++ String c EmptyString) (Z.of_nat (String.length a)) (-1)
  = s.
Proof.
  unfold PyStr.slice, PyStr.clamp, PyStr.len.
  rewrite !string_length_append. cbn [String.length].
  destruct (Z.ltb_spec (Z.of_nat (String.length a)) 0); [lia | ].
  change (-1 <? 0)%Z with true. cbv iota.
  rewrite Z.min_l by lia. rewrite Z.max_r by lia. rewrite Nat2Z.id.
  replace (Z.to_nat (-1 + Z.of_nat (String.length a + (String.length s + 1)))
           - String.length a)%nat
    with (String.length s) by lia.
  apply substring_app_middle.
Qed.

(** The SSID and the start of the password in a well-formed submission. *)
Lemma parse_form_fields (pre ssid rest : string) :
  PyStr.find (pre ++ "ssid=") "ssid=" 0 = PyStr.len pre ->
  PyStr.find (ssid ++ "&") "&" 0 = PyStr.len ssid ->
  PyStr.find (pre ++ "ssid=" ++ ssid ++ "&password=") "password=" 0
  = PyStr.len (pre ++ "ssid=" ++ ssid ++ "&") ->
  let before := pre ++ "ssid=" ++ ssid ++ "&password=" in
  parse_form (before ++ rest) =
  (ssid,
   PyStr.slice (before ++ rest) (PyStr.len before)
     (PyStr.find (before ++ rest) " HTTP" (PyStr.len before))).
Proof.
  intros Hssid Hamp Hpassword before. unfold parse_form, PyStr.len in *.
  assert (Hs : before ++ rest =
               (pre ++ "ssid=") ++ (ssid ++ "&") ++ "password=" ++ rest).
  { unfold before. rewrite !string_append_assoc. reflexivity. }
  assert (H1 : PyStr.find (before ++ rest) "ssid=" 0 = Z.of_nat (String.length pre)).
  { rewrite Hs. apply find_app_found. exact Hssid. }
  assert (H1' : (Z.of_nat (String.length pre) + 5 =
                 Z.of_nat (String.length (pre ++ "ssid=")))%Z).
  { rewrite string_length_append. cbn [String.length]. lia. }
  assert (H2 : PyStr.find (before ++ rest) "&" (Z.of_nat (String.length (pre ++ "ssid=")))
               = Z.of_nat (String.length (pre ++ "ssid=") + String.length ssid)).
  { rewrite Hs. apply find_from_app. apply find_app_found. exact Hamp. }
  assert (H3 : PyStr.find (before ++ rest) "password=" 0
               = Z.of_nat (String.length (pre ++ "ssid=" ++ ssid ++ "&"))).
  { apply find_app_found. exact Hpassword. }
  assert (H3' : (Z.of_nat (String.length (pre ++ "ssid=" ++ ssid ++ "&")) + 9 =
                 Z.of_nat (String.length before))%Z).
  { unfold before. rewrite !string_length_append. cbn [String.length]. lia. }
  rewrite H1, H1', H2, H3, H3'. f_equal.
  rewrite Hs. rewrite (string_append_assoc ssid "&").
  apply slice_app_middle.
Qed.

(** X18.  A well-formed submission is parsed exactly: when the text is
    [... ssid=S&password=P HTTP ...], with the first [ssid=] and the
    first [password=] of the text being these markers, no [&] in [S] and
    no [ HTTP] starting in [P], [parse_form] gives [(S, P)]. *)
Theorem parse_form_terminated (pre ssid pw post : string) :
  PyStr.find (pre ++ "ssid=") "ssid=" 0 = PyStr.len pre ->
  PyStr.find (ssid ++ "&") "&" 0 = PyStr.len ssid ->
  PyStr.find (pre ++ "ssid=" ++ ssid ++ "&password=") "password=" 0
  = PyStr.len (pre ++ "ssid=" ++ ssid ++ "&") ->
  PyStr.find (pw ++ " HTTP") " HTTP" 0 = PyStr.len pw ->
  parse_form (pre ++ "ssid=" ++ ssid ++ "&password=" ++ pw ++ " HTTP" ++ post)
  = (ssid, pw).
Proof.
  intros Hssid Hamp Hpassword Hend.
  pose proof (parse_form_fields pre ssid (pw ++ " HTTP" ++ post)
                Hssid Hamp Hpassword) as Hparse.
  cbv zeta in Hparse. rewrite !string_append_assoc in Hparse.
  rewrite Hparse. f_equal.
  set (before := pre ++ "ssid=" ++ ssid ++ "&password=").
  replace (pre ++ "ssid=" ++ ssid ++ "&password=" ++ pw ++ " HTTP" ++ post)
    with (before ++ pw ++ " HTTP" ++ post)
    by (unfold before; rewrite !string_append_assoc; reflexivity).
  unfold PyStr.len in *.
  replace (before ++ pw ++ " HTTP" ++ post)
    with (before ++ (pw ++ " HTTP") ++ post) at 2
    by (rewrite !string_append_assoc; reflexivity).
  rewrite (find_from_app before ((pw ++ " HTTP") ++ post) " HTTP" (String.length pw))
    by (apply find_app_found; exact Hend).
  apply slice_app_middle.
Qed.

(** X19.  A submission that ends the request is parsed exactly as well:
    when the password is followed by one last character only (the
    closing quote of the bytes literal) and no [ HTTP] starts in it, the
    search for [ HTTP] answers [-1] and the slice up to [-1] cuts that
    last character off, so [parse_form] gives [(S, P)]. *)
Theorem parse_form_at_end (pre ssid pw : string) (q : ascii) :
  PyStr.find (pre ++ "ssid=") "ssid=" 0 = PyStr.len pre ->
  PyStr.find (ssid ++ "&") "&" 0 = PyStr.len ssid ->
  PyStr.find (pre ++ "ssid=" ++ ssid ++ "&password=") "password=" 0
  = PyStr.len (pre ++ "ssid=" ++ ssid ++ "&") ->
  PyStr.find (pw ++ String q EmptyString) " HTTP" 0 = -1 ->
  parse_form (pre ++ "ssid=" ++ ssid ++ "&password=" ++ pw ++ String q EmptyString)
  = (ssid, pw).
Proof.
  intros Hssid Hamp Hpassword Hend.
  pose proof (parse_form_fields pre ssid (pw ++ String q EmptyString)
                Hssid Hamp Hpassword) as Hparse.
  cbv zeta in Hparse. rewrite !string_append_assoc in Hparse.
  rewrite Hparse. f_equal.
  set (before := pre ++ "ssid=" ++ ssid ++ "&password=").
  replace (pre ++ "ssid=" ++ ssid ++ "&password=" ++ pw ++ String q EmptyString)
    with (before ++ pw ++ String q EmptyString)
    by (unfold before; rewrite !string_append_assoc; reflexivity).
  unfold PyStr.len in *.
  rewrite (find_from_app_none before (pw ++ String q EmptyString) " HTTP" Hend).
  apply slice_to_last.
Qed.

Lemma escape_plain_byte (b : byte) :
  plain_byte b = true ->
  PyStr.escape_byte "'" b = String (ascii_of_byte b) EmptyString /\
  Ascii.eqb (ascii_of_byte b) "'" = false.
Proof. destruct b; intro H; try discriminate H; split; reflexivity. Qed.

Lemma escape_plain_bytes (bs : list byte) :
  forallb plain_byte bs = true ->
  String.concat EmptyString (map (PyStr.escape_byte "'") bs)
  = string_of_list_byte bs /\
  PyStr.has_byte "'" bs = false.
Proof.
  induction bs as [ | b bs IH]; intro Hplain; [split; reflexivity | ].
  cbn [forallb] in Hplain. apply andb_prop in Hplain. destruct Hplain as [Hb Hbs].
  destruct (IH Hbs) as [Htext Hquote].
  destruct (escape_plain_byte b Hb) as [Hescape Hne].
  split.
  - cbn [map String.concat]. rewrite Hescape.
    change (string_of_list_byte (b :: bs))
      with (String (ascii_of_byte b) (string_of_list_byte bs)).
    rewrite <- Htext.
    destruct (map (PyStr.escape_byte "'") bs); reflexivity.
  - unfold PyStr.has_byte in *. cbn [existsb]. rewrite Hne. exact Hquote.
Qed.

(** X20.  Bytes that are printable ASCII, without single quote and
    backslash, are their own text: [str] of such a bytes object is the
    same characters between [b'] and [']. *)
Theorem str_of_plain_bytes (bs : list byte) :
  forallb plain_byte bs = true ->
  PyStr.str_of_bytes bs = "b'" ++ string_of_list_byte bs ++ "'".
Proof.
  intro Hplain. destruct (escape_plain_bytes bs Hplain) as [Htext Hquote].
  unfold PyStr.str_of_bytes. rewrite Hquote. cbn [andb]. cbv zeta.
  rewrite Htext. reflexivity.
Qed.

(** X21.  The credentials submitted are the ones used: when the text of
    the first request has [POST] in it and ends with
    [ssid=S&password=P] and the closing quote, these markers being the
    first [ssid=] and [password=] of the text, with no [&] in [S] and no
    [ HTTP] in [P], [serve_web] requests the join with SSID [S] and
    password [P], and returns. *)
Theorem serve_web_joins_with_submitted_credentials (E : env) (fuel : nat)
    (w : world) (addr : string) (data : list byte)
    (pre ssid pw : string) (q : ascii) :
  sock_listen E = inr addr ->
  sock_incoming E (count is_accept (trace w)) = Request data ->
  PyStr.str_of_bytes (firstn 1024 data)
  = pre ++ "ssid=" ++ ssid ++ "&password=" ++ pw ++ String q EmptyString ->
  PyStr.contains "POST" pre = true ->
  PyStr.find (pre ++ "ssid=") "ssid=" 0 = PyStr.len pre ->
  PyStr.find (ssid ++ "&") "&" 0 = PyStr.len ssid ->
  PyStr.find (pre ++ "ssid=" ++ ssid ++ "&password=") "password=" 0
  = PyStr.len (pre ++ "ssid=" ++ ssid ++ "&") ->
  PyStr.find (pw ++ String q EmptyString) " HTTP" 0 = -1 ->
  exists w',
    serve_web E (S fuel) w = (Ret tt, w') /\
    In (EvWlanConnect ssid pw) (trace w') /\
    count is_join (trace w') = S (count is_join (trace w)).
Proof.
  intros Hlisten Hpost Htext Hmethod Hssid Hamp Hpassword Hend.
  assert (Hcontains :
            PyStr.contains "POST" (PyStr.str_of_bytes (firstn 1024 data)) = true).
  { rewrite Htext. unfold PyStr.contains in *.
    destruct (index 0 "POST" pre) as [m | ] eqn:Hm; [ | discriminate Hmethod].
    rewrite (index_app_found "POST" pre _ 0 m Hm). reflexivity. }
  destruct (serve_web_first_post E 0 (S fuel) w addr data Hlisten)
    as (w' & Hrun & Hin & _ & Hjoin).
  - intros i Hi. lia.
  - rewrite Nat.add_0_r. exact Hpost.
  - exact Hcontains.
  - lia.
  - exists w'. split; [exact Hrun | ]. split; [ | exact Hjoin].
    rewrite Htext in Hin.
    pose proof (parse_form_fields pre ssid (pw ++ String q EmptyString)
                  Hssid Hamp Hpassword) as Hparse.
    cbv zeta in Hparse. unfold PyStr.len in Hparse.
    rewrite (find_from_app_none _ (pw ++ String q EmptyString) " HTTP" Hend)
      in Hparse.
    rewrite slice_to_last in Hparse.
    rewrite !string_append_assoc in Hparse.
    rewrite Hparse in Hin. exact Hin.
Qed.

(** ** The log line *)

Lemma check_below (P : Z -> bool) (k : Z) :
  forallb (fun i => P (Z.of_nat i)) (seq 0 (Z.to_nat k)) = true ->
  forall n, (0 <= n < k)%Z -> P n = true.
Proof.
  intros Hall n Hn. rewrite forallb_forall in Hall.
  specialize (Hall (Z.to_nat n)). rewrite Z2Nat.id in Hall by lia.
  apply Hall. apply in_seq. lia.
Qed.

Lemma format_0d_2_width (n : Z) :
  (0 <= n <= 99)%Z -> String.length (format_0d 2 n) = 2%nat.
Proof.
  intro Hn. apply Nat.eqb_eq.
  apply (check_below (fun n => Nat.eqb (String.length (format_0d 2 n)) 2) 100);
    [vm_compute; reflexivity | lia].
Qed.

Lemma format_0d_4_width (n : Z) :
  (0 <= n <= 9999)%Z -> String.length (format_0d 4 n) = 4%nat.
Proof.
  intro Hn. apply Nat.eqb_eq.
  apply (check_below (fun n => Nat.eqb (String.length (format_0d 4 n)) 4) 10000);
    [vm_compute; reflexivity | lia].
Qed.

(** X22.  For a time whose year has at most 4 digits and whose other
    fields have at most 2, the timestamp of a log line is 19 characters
    wide, so the level always starts at column 22 of the line and the
    line is 24 characters longer than level and message together. *)
Theorem log_line_layout (tm : localtime) (level message : string) :
  in_range tm ->
  String.length (timestamp_str tm) = 19%nat /\
  String.length (log_line tm level message)
  = (24 + String.length level + String.length message)%nat /\
  substring 22 (String.length level) (log_line tm level message) = level.
Proof.
  intros (Hy & Hmo & Hd & Hh & Hmi & Hs).
  assert (Hts : String.length (timestamp_str tm) = 19%nat).
  { unfold timestamp_str. rewrite !string_length_append.
    rewrite (format_0d_4_width _ Hy), (format_0d_2_width _ Hmo),
      (format_0d_2_width _ Hd), (format_0d_2_width _ Hh),
      (format_0d_2_width _ Hmi), (format_0d_2_width _ Hs).
    reflexivity. }
  split; [exact Hts | ]. split.
  - unfold log_line. rewrite !string_length_append, Hts. cbn [String.length]. lia.
  - unfold log_line.
    replace ("[" ++ timestamp_str tm ++ "] " ++ level ++ ": " ++ message)
      with (("[" ++ timestamp_str tm ++ "] ") ++ level ++ ": " ++ message)
      by (rewrite !string_append_assoc; reflexivity).
    replace 22%nat with (String.length ("[" ++ timestamp_str tm ++ "] "))
      by (rewrite !string_length_append, Hts; reflexivity).
    apply substring_app_middle.
Qed.

(** ** The access point *)

(** What [create_ap] does, by cases. *)
Lemma create_ap_outcomes (E : env) (w : world) :
  let created :=
    EvLog "INFO" ("Access Point created with SSID: " ++ AP_SSID
                  ++ ", password: " ++ AP_PASSWORD) in
  create_ap E w =
  (Ret tt,
   match ap_config E with
   | Some e =>
       record (EvLog "ERROR" ("Exception in create_ap: " ++ str_of_exn e))
         (record (EvApConfig AP_SSID AP_PASSWORD false) w)
   | None =>
       let w1 :=
         record (EvApActive (ap_active E))
           (record (EvSleep 2)
              (record created (record (EvApConfig AP_SSID AP_PASSWORD true) w))) in
       if ap_active E
       then record (EvLog "INFO" ("AP is active. IP configuration: " ++ ap_ifconfig E)) w1
       else record (EvLog "ERROR" "Failed to activate the Access Point") w1
   end).
Proof.
  cbv beta iota zeta delta [create_ap try_except bind call emit log sleep].
  destruct (ap_config E); [reflexivity | ].
  destruct (ap_active E); reflexivity.
Qed.

(** X23.  The configuration server is started whatever became of the
    access point: when the known network could not be joined, [main]
    runs [serve_web] in the world left by [create_ap], also when
    configuring the access point raised (then there was no 2 second
    wait and no check) and when the interface did not come up (then an
    error was logged). *)
Theorem fallback_serves_without_access_point (E : env) (fuel : nat)
    (w w1 : world) :
  connect_wifi E (SSID E) (PASSWORD E) w = (Ret false, w1) ->
  exists w2,
    create_ap E
      (record (EvLog "INFO"
         "Failed to connect to the known Wi-Fi. Starting Access Point...") w1)
      = (Ret tt, w2) /\
    main E fuel w = serve_web E fuel w2 /\
    (ap_config E <> None ->
     count is_sleep (trace w2) = count is_sleep (trace w1) /\
     exists e, trace w2 =
       EvLog "ERROR" ("Exception in create_ap: " ++ str_of_exn e)
       :: EvApConfig AP_SSID AP_PASSWORD false
       :: EvLog "INFO" "Failed to connect to the known Wi-Fi. Starting Access Point..."
       :: trace w1) /\
    (ap_config E = None -> ap_active E = false ->
     exists t, trace w2 = EvLog "ERROR" "Failed to activate the Access Point" :: t).
Proof.
  intro Hwifi.
  set (w1' := record (EvLog "INFO"
                "Failed to connect to the known Wi-Fi. Starting Access Point...") w1).
  pose proof (create_ap_outcomes E w1') as Hap. cbv zeta in Hap.
  eexists. split; [exact Hap | ]. split.
  - unfold main. rewrite try_except_safe.
    + unfold bind at 1. rewrite Hwifi. cbn [negb].
      unfold bind at 1, log at 1, emit at 1. fold w1'.
      unfold bind. rewrite Hap. reflexivity.
    + unfold bind at 1. rewrite Hwifi. cbn [negb].
      apply safe_bind; [apply safe_emit | intros _ ].
      apply safe_bind; [apply create_ap_safe | intros _ ].
      apply serve_web_safe.
  - split.
    + intro Hraised. destruct (ap_config E) as [e | ]; [ | contradiction].
      split; [reflexivity | exists e; reflexivity].
    + intros Hok Hinactive. rewrite Hok, Hinactive. eexists. reflexivity.
Qed.

(** ** The further properties at concrete inputs *)

Local Open Scope list_scope.

Lemma connect_wifi_rounds_witness :
  wlan_status joins_late 0 = false /\
  wlan_status joins_late 2 = true /\
  exists w',
    connect_wifi joins_late "home" "secret" initial = (Ret true, w') /\
    filter is_sleep (trace w') = [EvSleep 1; EvSleep 1] /\
    count is_poll (trace w') = 4%nat.
Proof.
  split; [reflexivity | ]. split; [reflexivity | ].
  apply (connect_wifi_rounds joins_late "home" "secret" initial 2).
  - lia.
  - intros i Hi. destruct i as [ | [ | i]]; [reflexivity | reflexivity | lia].
  - right. reflexivity.
Defined.

Lemma fallback_never_reaches_broker_witness :
  let w1 := snd (connect_wifi no_network "home" "secret" initial) in
  connect_wifi no_network "home" "secret" initial = (Ret false, w1) /\
  raised (main no_network 2 initial) = false /\
  exists t,
    trace (snd (main no_network 2 initial)) = t ++ trace initial /\
    forallb fallback_event t = true /\
    count is_mqtt_new t = 0%nat /\
    count is_timer t = 0%nat /\
    count is_reset t = 0%nat.
Proof.
  split; [vm_compute; reflexivity | ].
  apply (fallback_never_reaches_broker no_network 2 initial
           (snd (connect_wifi no_network "home" "secret" initial))).
  vm_compute; reflexivity.
Defined.

Lemma serve_web_waits_for_post_witness :
  sock_listen only_gets = inr "0.0.0.0:80" /\
  exists w',
    serve_web only_gets 3 initial = (Diverge, w') /\
    count is_accept (trace w') = 3%nat /\
    count is_join (trace w') = 0%nat /\
    count is_send (trace w') = 0%nat /\
    count is_close (trace w') = 0%nat.
Proof.
  split; [reflexivity | ].
  apply (serve_web_waits_for_post only_gets "0.0.0.0:80").
  - reflexivity.
  - intro k. exists get_page. split; [reflexivity | vm_compute; reflexivity].
Defined.

Lemma serve_web_socket_error_witness :
  sock_incoming accept_refused 0 = AcceptFails refused /\
  exists w',
    serve_web accept_refused 1 initial =
      (Ret tt, record (EvLog "ERROR" "Exception in serve_web: ECONNREFUSED") w') /\
    count is_accept (trace w') = 1%nat /\
    count is_join (trace w') = 0%nat.
Proof.
  split; [reflexivity | ].
  destruct (serve_web_socket_error accept_refused 1 initial refused) as [_ Herror].
  apply (Herror "0.0.0.0:80" 0%nat).
  - reflexivity.
  - intros i Hi. lia.
  - left. reflexivity.
  - lia.
Defined.

Lemma serve_web_reply_witness :
  sock_incoming captive 0 = Request post_without_password /\
  exists joined w1,
    serve_web captive 1 initial =
      (Ret tt,
       record EvClose
         (record (EvSend (reply_page joined) true)
            (record (EvSend http_ok true) w1))).
Proof.
  split; [reflexivity | ].
  destruct (serve_web_reply captive 0 initial "0.0.0.0:80" post_without_password)
    as (joined & w1 & _ & Hrun);
    [reflexivity | reflexivity | vm_compute; reflexivity | ].
  exists joined, w1. exact Hrun.
Defined.

Lemma reconnect_mqtt_recovers_after_witness :
  mqtt_connect broker_back 1 = Some refused /\
  mqtt_connect broker_back 2 = None /\
  exists w',
    reconnect_mqtt broker_back 3 pico initial = (Ret tt, w') /\
    session_view (history w') =
      [EvMqttConnect false; EvSleep 5; EvMqttConnect false; EvSleep 5;
       EvMqttConnect true].
Proof.
  split; [reflexivity | ]. split; [reflexivity | ].
  apply (reconnect_mqtt_recovers_after broker_back pico 2 initial 3).
  - intros i Hi. destruct i as [ | [ | i]]; [reflexivity | reflexivity | lia].
  - reflexivity.
  - lia.
Defined.

Lemma main_resets_when_broker_unreachable_witness :
  let w1 := snd (connect_wifi constructor_broken "home" "secret" initial) in
  connect_wifi constructor_broken "home" "secret" initial = (Ret true, w1) /\
  exists w2,
    main constructor_broken 1 initial =
      (Ret tt,
       record EvReset
         (record (EvLog "CRITICAL"
                    "Critical error occurred: name 'ConnectionError' isn't defined")
            w2)) /\
    count is_mqtt_new (trace w2) = 5%nat.
Proof.
  split; [vm_compute; reflexivity | ].
  destruct (main_resets_when_broker_unreachable constructor_broken 1 initial
              (snd (connect_wifi constructor_broken "home" "secret" initial)))
    as (w2 & Hrun & Hnews & _);
    [vm_compute; reflexivity | intro k; reflexivity | ].
  exists w2. split; [exact Hrun | exact Hnews].
Defined.

Lemma main_steady_state_witness :
  let w1 := snd (connect_wifi broker_down "home" "secret" initial) in
  connect_wifi broker_down "home" "secret" initial = (Ret true, w1) /\
  mqtt_connect broker_down 0 = Some refused /\
  exists w2,
    count is_reset (trace w2) = 0%nat /\
    forall fuel,
    exists w',
      main broker_down fuel initial = (Diverge, w') /\
      trace w' = repeat (EvSleep 10) fuel ++ EvTimer 1000 "payload" :: trace w2.
Proof.
  split; [vm_compute; reflexivity | ]. split; [reflexivity | ].
  destruct (main_steady_state broker_down initial
              (snd (connect_wifi broker_down "home" "secret" initial)))
    as (w2 & _ & _ & Hresets & Hidle);
    [vm_compute; reflexivity | reflexivity | ].
  exists w2. split; [exact Hresets | exact Hidle].
Defined.

Lemma round2_monotone_witness :
  (21454 # 1000 <= 21456 # 1000)%Q /\
  round2 (21454 # 1000) <= round2 (21456 # 1000).
Proof.
  assert (H : (21454 # 1000 <= 21456 # 1000)%Q) by (unfold Qle; simpl; lia).
  split; [exact H | apply (round2_monotone _ _ H)].
Defined.

Lemma get_sensor_measurements_keeps_hundredths_witness :
  sensor_measurements two_decimals 0 = inr (2146 # 100, 101326 # 100) /\
  fst (get_sensor_measurements two_decimals initial) = Ret (2146, 101326).
Proof.
  split; [reflexivity | ].
  apply (get_sensor_measurements_keeps_hundredths two_decimals initial 2146 101326).
  reflexivity.
Defined.

Lemma batching_drops_readings_near_zero_witness :
  sensor_measurements freezing 0 = inr (0 # 1, 101325 # 100) /\
  (Qabs ((0 # 1) * 100) <= 2 # 5)%Q /\
  temperature_data_buffer (snd (large_callback freezing 1 pico initial)) = [] /\
  pressure_data_buffer (snd (large_callback freezing 1 pico initial)) = [].
Proof.
  assert (H : (Qabs ((0 # 1) * 100) <= 2 # 5)%Q) by (unfold Qle; simpl; lia).
  split; [reflexivity | ]. split; [exact H | ].
  destruct (batching_drops_readings_near_zero freezing 1 pico initial
              (0 # 1) (101325 # 100)) as [_ Hdrop];
    [reflexivity | simpl; lia | ].
  apply Hdrop. left. exact H.
Defined.

Lemma sixty_readings_one_batch_witness :
  let reading := (21456 # 1000, 1013256 # 1000)%Q in
  let w60 := large_ticks steady 1 pico 60 initial in
  count is_publish (trace w60) = 1%nat /\
  temperature_data_buffer w60 = [] /\
  pressure_data_buffer w60 = [].
Proof.
  destruct (sixty_readings_one_batch steady 1 pico initial
              (repeat (21456 # 1000, 1013256 # 1000)%Q 59)
              (21456 # 1000, 1013256 # 1000)%Q)
    as (_ & _ & Hpublish & _ & Ht & Hp).
  - reflexivity.
  - reflexivity.
  - reflexivity.
  - intros i Hi.
    do 60 (destruct i as [ | i]; [reflexivity | ]). lia.
  - apply Forall_forall. intros r Hin.
    assert (Hr : r = (21456 # 1000, 1013256 # 1000)%Q).
    { apply in_app_or in Hin. destruct Hin as [Hin | [Hin | []]].
      - apply repeat_spec in Hin. exact Hin.
      - symmetry. exact Hin. }
    rewrite Hr. split; discriminate.
  - reflexivity.
  - split; [exact Hpublish | split; [exact Ht | exact Hp]].
Defined.

Lemma large_callback_lets_sensor_failure_out_witness :
  sensor_measurements sensor_broken 0 = inl (Exception "OSError" "EIO") /\
  large_callback sensor_broken 1 pico initial
  = (Raise (Exception "OSError" "EIO"), record (EvMeasure false) initial).
Proof.
  split; [reflexivity | ].
  apply (large_callback_lets_sensor_failure_out sensor_broken 1 pico initial
           (Exception "OSError" "EIO")).
  reflexivity.
Defined.

Lemma payload_callback_publishes_every_reading_witness :
  sensor_measurements freezing 0 = inr (0 # 1, 101325 # 100) /\
  round2 (0 # 1) = 0 /\
  filter is_publish (trace (snd (payload_callback freezing 1 pico initial))) =
    [EvPublish "weather/small"
       ("{" ++ PyStr.quoted "pressure" ++ ": 1013.25, "
            ++ PyStr.quoted "temperature" ++ ": 0.0}")%string
       true].
Proof.
  split; [reflexivity | ]. split; [reflexivity | ].
  destruct (payload_callback_publishes_every_reading freezing 1 pico initial
              (0 # 1) (101325 # 100)) as (_ & _ & Hpublish).
  - reflexivity.
  - intros _. unfold Qle. simpl. lia.
  - intros _. unfold Qle. simpl. lia.
  - exact Hpublish.
Defined.

Lemma parse_form_terminated_witness :
  parse_form ("b'POST / HTTP/1.1 " ++ "ssid=" ++ "MyNet" ++ "&password="
              ++ "secret" ++ " HTTP" ++ "/1.1'")%string
  = ("MyNet", "secret").
Proof.
  apply (parse_form_terminated "b'POST / HTTP/1.1 " "MyNet" "secret" "/1.1'");
    vm_compute; reflexivity.
Defined.

Lemma parse_form_at_end_witness :
  parse_form ("b'POST / HTTP/1.1\r\n\r\n" ++ "ssid=" ++ "MyNet" ++ "&password="
              ++ "secret" ++ "'")%string
  = ("MyNet", "secret").
Proof.
  apply (parse_form_at_end "b'POST / HTTP/1.1\r\n\r\n" "MyNet" "secret" "'");
    vm_compute; reflexivity.
Defined.

Lemma str_of_plain_bytes_witness :
  forallb plain_byte (list_byte_of_string "ssid=MyNet&password=secret") = true /\
  PyStr.str_of_bytes (list_byte_of_string "ssid=MyNet&password=secret")
  = ("b'" ++ string_of_list_byte (list_byte_of_string "ssid=MyNet&password=secret")
     ++ "'")%string.
Proof.
  split; [vm_compute; reflexivity | ].
  apply (str_of_plain_bytes (list_byte_of_string "ssid=MyNet&password=secret")).
  vm_compute; reflexivity.
Defined.

Lemma serve_web_joins_with_submitted_credentials_witness :
  sock_incoming submitting 0 = Request post_at_end /\
  exists w',
    serve_web submitting 1 initial = (Ret tt, w') /\
    In (EvWlanConnect "MyNet" "secret") (trace w') /\
    count is_join (trace w') = 1%nat.
Proof.
  split; [reflexivity | ].
  apply (serve_web_joins_with_submitted_credentials submitting 0 initial
           "0.0.0.0:80" post_at_end "b'POST / HTTP/1.1\r\n\r\n" "MyNet" "secret" "'");
    vm_compute; reflexivity.
Defined.

Lemma log_line_layout_witness :
  let tm := {| tm_year := 2024; tm_mon := 3; tm_mday := 9;
               tm_hour := 7; tm_min := 5; tm_sec := 0 |} in
  in_range tm /\
  String.length (timestamp_str tm) = 19%nat /\
  String.length (log_line tm "INFO" "Connected to MQTT broker") = 52%nat /\
  substring 22 4 (log_line tm "INFO" "Connected to MQTT broker") = "INFO"%string.
Proof.
  assert (H : in_range {| tm_year := 2024; tm_mon := 3; tm_mday := 9;
                          tm_hour := 7; tm_min := 5; tm_sec := 0 |})
    by (unfold in_range; simpl; lia).
  split; [exact H | ].
  apply (log_line_layout _ "INFO" "Connected to MQTT broker" H).
Defined.

Lemma fallback_serves_without_access_point_witness :
  let w1 := snd (connect_wifi no_network "home" "secret" initial) in
  connect_wifi no_network "home" "secret" initial = (Ret false, w1) /\
  exists w2, main no_network 2 initial = serve_web no_network 2 w2.
Proof.
  split; [vm_compute; reflexivity | ].
  destruct (fallback_serves_without_access_point no_network 2 initial
              (snd (connect_wifi no_network "home" "secret" initial)))
    as (w2 & _ & Hmain & _);
    [vm_compute; reflexivity | ].
  exists w2. exact Hmain.
Defined.
